(** * Zero-Azimuth orchestrator: a shallow embedding of its core logic

    The development follows the repository's layout: the Python run-time
    notions the code relies on (exceptions, the [secrets] module), then one
    module per source file ([quantum_engine.py], [security.py],
    [redis_client.py], [nats_client.py], [scans.py], [auth.py]), and finally
    the properties proved about them.

    Conventions.
    - A Python call that may raise is a computation in the state-and-error
      monad [M S A := S -> result A * S]; the state that a call has built up
      before it raises is kept, as in Python.
    - Randomness is read from a tape of raw random words; every draw moves
      the cursor by one cell.
    - [bytes] are lists of integers, each in [0, 256).
    - Services outside the repository (the JWT codec, the Redis server, the
      JetStream key-value store, the XML parser, SHA-256) are either taken
      as parameters of a section or given a small executable model that is
      documented where it is introduced.
    - A name that the code looks up on a module which does not define it
      ([secrets.sample], [secrets.uniform], [jwt.JWTError]) raises
      AttributeError where the lookup is evaluated, as in Python.
    - A primary key is a [uuid.UUID] object; it is kept as its canonical
      text, and the places where the code passes the object itself rather
      than [str(id)] say so. *)

From Stdlib Require Import ZArith List Lia Bool Floats Ascii String.
From Stdlib Require DecimalString DecimalZ.
From stdpp Require Import gmap strings list fin_maps.

Set Warnings "-register-all".

Open Scope Z_scope.

(* ===================================================================== *)
(** * Python run-time notions *)
(* ===================================================================== *)

Module Py.

(** The exception classes the embedded functions raise or catch. *)
Inductive exn : Type :=
| ValueError (msg : string)
| RuntimeError (msg : string)
| TypeError (msg : string)
| IndexError
| ZeroDivisionError
| AttributeError (msg : string)
| HTTPException (status_code : Z) (detail : string)
| InvalidTokenError (msg : string)
| BucketNotFoundError
| KeyNotFoundError
| ResponseError (msg : string)
| MultipleResultsFound
| ParseError.

Inductive result (A : Type) : Type :=
| Returns (a : A)
| Raises (e : exn).
Arguments Returns {A} a.
Arguments Raises {A} e.

(** State-and-error monad. *)
Definition M (S A : Type) : Type := S -> result A * S.

Definition ret {S A} (a : A) : M S A := fun s => (Returns a, s).

Definition raise {S A} (e : exn) : M S A := fun s => (Raises e, s).

Definition bind {S A B} (c : M S A) (k : A -> M S B) : M S B :=
  fun s => match c s with
           | (Returns a, s') => k a s'
           | (Raises e, s') => (Raises e, s')
           end.

Definition get {S} : M S S := fun s => (Returns s, s).

Definition put {S} (s : S) : M S unit := fun _ => (Returns tt, s).

(** A pure computation that may raise, run inside the monad. *)
Definition lift_result {S A} (r : result A) : M S A := fun s => (r, s).

(** Run a computation on a component [T] of the state [S]. *)
Definition zoom {S T A} (proj : S -> T) (upd : T -> S -> S) (c : M T A) : M S A :=
  fun s => let '(r, t) := c (proj s) in (r, upd t s).

(** [[c for _ in range(n)]]: the same computation run [n] times. *)
Fixpoint repeatM {S A} (n : nat) (c : M S A) : M S (list A) :=
  match n with
  | O => ret []
  | S n' => bind c (fun a => bind (repeatM n' c) (fun l => ret (a :: l)))
  end.

(** [seq[i]] for a non-negative index: IndexError out of range. *)
Definition index {A} (l : list A) (i : nat) : result A :=
  match l !! i with
  | Some a => Returns a
  | None => Raises IndexError
  end.

(** A loop whose body may raise, collecting the results: it stops at the
    first exception. *)
Fixpoint mapR {A B} (f : A -> result B) (l : list A) : result (list B) :=
  match l with
  | [] => Returns []
  | a :: l' =>
      match f a with
      | Raises e => Raises e
      | Returns b =>
          match mapR f l' with
          | Raises e => Raises e
          | Returns r => Returns (b :: r)
          end
      end
  end.

(** [[l[i] for i in idx]]. *)
Definition index_all {A} (l : list A) (idx : list nat) : result (list A) :=
  mapR (index l) idx.

(** [enumerate(l)]. *)
Definition enumerate {A} (l : list A) : list (nat * A) :=
  zip (seq 0 (length l)) l.

(** Total correctness: from every state, [c] returns a value that
    satisfies [P]. *)
Definition returns {S A} (c : M S A) (P : A -> Prop) : Prop :=
  forall s, exists a s', c s = (Returns a, s') /\ P a.

End Py.

Import Py.

Notation "x <- c ;; k" := (bind c (fun x => k))
  (at level 100, c at next level, right associativity).
Notation "c ;;; k" := (bind c (fun _ => k))
  (at level 100, right associativity).

Abbreviation bytes := (list Z).

Definition is_byte (x : Z) : Prop := 0 <= x < 256.

Definition is_bit (x : Z) : Prop := x = 0 \/ x = 1.

(** ** The [secrets] module

    Every draw reads one raw word of the tape.  [randbelow n] reduces the
    word modulo [n] (what CPython's rejection sampling returns, a value of
    [0, n)) and raises ValueError for [n <= 0]; [choice] indexes its
    sequence by [randbelow]; [token_bytes n] returns [n] bytes and raises
    ValueError for a negative [n].  The module has no [sample] and no
    [uniform] (they are methods of [random.SystemRandom]): the lookups
    [secrets.sample] and [secrets.uniform], which the engine makes, raise
    AttributeError before any argument is looked at. *)
Module Secrets.

Record rng : Type := { tape : nat -> Z; cursor : nat }.

Definition next : M rng Z :=
  fun g => (Returns (tape g (cursor g)),
            {| tape := tape g; cursor := S (cursor g) |}).

Definition randbelow (n : Z) : M rng Z :=
  if n <=? 0 then raise (ValueError "Upper bound must be positive")
  else r <- next ;; ret (r mod n).

(** The raw words below [k * n] that [randbelow(n)] turns into [r]. *)
Definition words_giving (n r : Z) (k : nat) : list Z :=
  List.filter (fun w => w mod n =? r) (map Z.of_nat (seq 0 (k * Z.to_nat n))).

Definition choice {A} (seq : list A) : M rng A :=
  match seq with
  | [] => raise IndexError
  | d :: _ =>
      i <- randbelow (Z.of_nat (length seq)) ;;
      ret (nth (Z.to_nat i) seq d)
  end.

Definition token_bytes (nbytes : Z) : M rng bytes :=
  if nbytes <? 0 then raise (ValueError "negative argument not allowed")
  else repeatM (Z.to_nat nbytes) (r <- next ;; ret (r mod 256)).

(** [secrets.sample(range(n), k)] and [secrets.uniform(a, b)]. *)
Definition sample (n : nat) (k : Z) : M rng (list nat) :=
  raise (AttributeError "module 'secrets' has no attribute 'sample'").

Definition uniform (a b : float) : M rng float :=
  raise (AttributeError "module 'secrets' has no attribute 'uniform'").

(** The [n] bytes that the next [token_bytes(n)] reads off the tape, and the
    generator it leaves behind. *)
Definition drawn (g : rng) (n : nat) : bytes :=
  map (fun i => tape g (cursor g + i)%nat mod 256) (seq 0 n).

Definition skip (g : rng) (n : nat) : rng :=
  {| tape := tape g; cursor := (cursor g + n)%nat |}.

End Secrets.

(** ** [bytes.hex] and [bytes.fromhex] *)
Module Hex.

Definition digits : list ascii := list_ascii_of_string "0123456789abcdef".

Definition hex_digit (v : Z) : ascii := nth (Z.to_nat v) digits "0"%char.

Fixpoint hex (b : bytes) : string :=
  match b with
  | [] => EmptyString
  | x :: b' => String (hex_digit (x / 16)) (String (hex_digit (x mod 16)) (hex b'))
  end.

Definition hex_val (c : ascii) : option Z :=
  let n := Z.of_N (Ascii.N_of_ascii c) in
  if (48 <=? n) && (n <=? 57) then Some (n - 48)
  else if (97 <=? n) && (n <=? 102) then Some (n - 87)
  else if (65 <=? n) && (n <=? 70) then Some (n - 55)
  else None.

(** ASCII whitespace, which [fromhex] skips between two bytes. *)
Definition is_space (c : ascii) : bool :=
  let n := Z.of_N (Ascii.N_of_ascii c) in
  (n =? 32) || ((9 <=? n) && (n <=? 13)).

Fixpoint fromhex_aux (cs : list ascii) (hi : option Z) : option bytes :=
  match cs with
  | [] => match hi with None => Some [] | Some _ => None end
  | c :: cs' =>
      match hex_val c, hi with
      | Some v, None => fromhex_aux cs' (Some v)
      | Some v, Some h =>
          match fromhex_aux cs' None with
          | Some r => Some (16 * h + v :: r)
          | None => None
          end
      | None, None => if is_space c then fromhex_aux cs' None else None
      | None, Some _ => None
      end
  end.

Definition fromhex (s : string) : result bytes :=
  match fromhex_aux (list_ascii_of_string s) None with
  | Some b => Returns b
  | None => Raises (ValueError "non-hexadecimal number found in fromhex() arg")
  end.

End Hex.

(* ===================================================================== *)
(** * quantum_engine.py *)
(* ===================================================================== *)

Module QuantumEngine.

(** models/quantum.py *)
Inductive QuantumAlgorithm : Type :=
| KYBER512 | KYBER768 | KYBER1024
| DILITHIUM2 | DILITHIUM3 | DILITHIUM5
| FALCON512 | FALCON1024.

Definition algorithm_value (a : QuantumAlgorithm) : string :=
  match a with
  | KYBER512 => "kyber512" | KYBER768 => "kyber768" | KYBER1024 => "kyber1024"
  | DILITHIUM2 => "dilithium2" | DILITHIUM3 => "dilithium3"
  | DILITHIUM5 => "dilithium5"
  | FALCON512 => "falcon512" | FALCON1024 => "falcon1024"
  end.

Definition all_algorithms : list QuantumAlgorithm :=
  [KYBER512; KYBER768; KYBER1024; DILITHIUM2; DILITHIUM3; DILITHIUM5;
   FALCON512; FALCON1024].

(** [QuantumAlgorithm(value)]: ValueError when no member has the value. *)
Definition QuantumAlgorithm_of_value (v : string) : result QuantumAlgorithm :=
  match List.find (fun a => String.eqb (algorithm_value a) v) all_algorithms with
  | Some a => Returns a
  | None => Raises (ValueError "is not a valid QuantumAlgorithm")
  end.

Inductive QuantumKeyType : Type :=
| SYMMETRIC | ASYMMETRIC_PUBLIC | ASYMMETRIC_PRIVATE.

Record QuantumKey : Type := {
  key_id : string;
  key_material : bytes;
  key_size : Z;
  key_type : QuantumKeyType;
  algorithm : QuantumAlgorithm;
  generated_at : Z;
  checksum : string;
  qber : option float
}.

(** The [metadata] dictionary of [simulate_qkd_protocol]. *)
Record qkd_metadata : Type := {
  md_session_id : string;
  md_num_qubits : Z;
  md_matching_bases : nat;
  md_sifted_key_length : nat;
  md_final_key_length : nat;
  md_qber : float;
  md_security_check : string;
  md_eavesdropping_detected : bool
}.

(** One entry of [active_sessions], with the keys that
    [create_quantum_session] writes.  No key holds the quantum key
    material. *)
Record session_data : Type := {
  s_session_id : string;
  s_algorithm : string;
  s_public_key : string;
  s_private_key : string;
  s_quantum_key_id : string;
  s_quantum_key_checksum : string;
  s_qber : option float;
  s_created_at : string;
  s_is_active : bool
}.

(** The dictionary [quantum_encrypt] returns and [quantum_decrypt] reads. *)
Record encrypted_data : Type := {
  e_ciphertext : string;
  e_key_id : string;
  e_algorithm : string;
  e_qber : option float;
  e_timestamp : string
}.

(** The engine object together with what it reads from outside: the
    entropy source and the clock. *)
Record engine : Type := {
  entropy : Secrets.rng;
  clock : Z;
  active_sessions : gmap string session_data
}.

Definition rand {A} (c : M Secrets.rng A) : M engine A :=
  zoom entropy
       (fun g e => {| entropy := g; clock := clock e;
                      active_sessions := active_sessions e |})
       c.

Definition utcnow : M engine Z := fun e => (Returns (clock e), e).

(** The literal [0.11] is the double nearest to 11/100. *)
Definition QBER_THRESHOLD : float := 0x1.c28f5c28f5c29p-4%float.

(** [a / b] on two integers below [2^53]: the correctly rounded quotient. *)
Definition float_of_Z (z : Z) : float := PrimFloat.of_uint63 (Uint63.of_Z z).

Definition truediv (a b : Z) : float :=
  PrimFloat.div (float_of_Z a) (float_of_Z b).

(** The inner loop of [_bits_to_bytes] at offset [i]:
    [byte |= bits[i + j] << (7 - j)] for [j] in [range(min(8, len(bits) - i))];
    the loop bound keeps [i + j] below [len(bits)]. *)
Definition pack_byte (bits : list Z) (i : nat) : Z :=
  fold_left
    (fun byte j => Z.lor byte (Z.shiftl (nth (i + j) bits 0) (7 - Z.of_nat j)))
    (seq 0 (Nat.min 8 (length bits - i)))
    0.

(** [bytearray.append] accepts values of [range(256)] only. *)
Definition append_check (byte : Z) : result Z :=
  if (0 <=? byte) && (byte <? 256) then Returns byte
  else Raises (ValueError "byte must be in range(0, 256)").

Definition _bits_to_bytes (bits : list Z) : result bytes :=
  mapR (fun c => append_check (pack_byte bits (8 * c)))
       (seq 0 (Nat.div (length bits + 7) 8)).

(** [(key * ((len(plaintext) // len(key)) + 1))[:len(plaintext)]], then the
    bytewise XOR over [zip(plaintext, key_expanded)]. *)
Definition _symmetric_encrypt (key plaintext : bytes) : result bytes :=
  match key with
  | [] => Raises ZeroDivisionError
  | _ =>
      let key_expanded :=
        take (length plaintext)
             (concat (replicate (Nat.div (length plaintext) (length key) + 1) key)) in
      Returns (zip_with Z.lxor plaintext key_expanded)
  end.

Definition _symmetric_decrypt (key ciphertext : bytes) : result bytes :=
  _symmetric_encrypt key ciphertext.

(** The first [n] bytes of the repeated key: [key_expanded] for a text of
    [n] bytes. *)
Definition key_stream (key : bytes) (n : nat) : bytes :=
  take n (concat (replicate (Nat.div n (length key) + 1) key)).

(** The engine after [n] bytes were drawn from its entropy source. *)
Definition after_draw (e : engine) (n : nat) : engine :=
  {| entropy := Secrets.skip (entropy e) n; clock := clock e;
     active_sessions := active_sessions e |}.

Section Engine.

(** [hashlib.sha256(b).hexdigest()], the URL-safe base64 text of
    [token_urlsafe], and the ISO-8601 printer and parser of [datetime]. *)
Variable sha256_hexdigest : bytes -> string.
Variable urlsafe_b64 : bytes -> string.
Variable isoformat : Z -> string.
Variable fromisoformat : string -> result Z.

Definition token_urlsafe (nbytes : Z) : M Secrets.rng string :=
  tok <- Secrets.token_bytes nbytes ;; ret (urlsafe_b64 tok).

Definition generate_quantum_key (key_size : Z) : M engine QuantumKey :=
  key_material <- rand (Secrets.token_bytes (key_size / 8)) ;;
  tok <- rand (token_urlsafe 16) ;;
  let key_id := "qk_" +:+ tok in
  let checksum := sha256_hexdigest key_material in
  qber <- rand (Secrets.uniform 0x1.47ae147ae147bp-7%float
                                0x1.47ae147ae147bp-4%float) ;;
  now <- utcnow ;;
  ret {| key_id := key_id;
         key_material := key_material;
         key_size := key_size;
         key_type := SYMMETRIC;
         algorithm := KYBER768;
         generated_at := now;
         checksum := checksum;
         qber := Some qber |}.

(** The two verdict entries of the metadata:
    ["PASSED" if qber < 0.11 else "FAILED"] and [qber > 0.11]. *)
Definition security_check (qber : float) : string :=
  if PrimFloat.ltb qber QBER_THRESHOLD then "PASSED" else "FAILED".

Definition eavesdropping_detected (qber : float) : bool :=
  PrimFloat.ltb QBER_THRESHOLD qber.

Definition simulate_qkd_protocol (session_id : string) (num_qubits : Z)
  : M engine (QuantumKey * qkd_metadata) :=
  let n := Z.to_nat num_qubits in
  alice_bases <- rand (repeatM n (Secrets.choice ["+"; "x"]%string)) ;;
  alice_bits <- rand (repeatM n (Secrets.choice [0; 1])) ;;
  bob_bases <- rand (repeatM n (Secrets.choice ["+"; "x"]%string)) ;;
  let matching_bases :=
    map fst (List.filter (fun p => String.eqb (fst (snd p)) (snd (snd p)))
                         (enumerate (zip alice_bases bob_bases))) in
  sifted_key_bits <- lift_result (index_all alice_bits matching_bases) ;;
  test_indices <-
    rand (Secrets.sample (length sifted_key_bits)
            (Z.min 100 (Z.of_nat (length sifted_key_bits) / 10))) ;;
  test_bits <- lift_result (index_all sifted_key_bits test_indices) ;;
  errors <- rand (repeatM (length test_bits) (Secrets.choice [0; 1])) ;;
  let error_bits := fold_left Z.add errors 0 in
  let qber :=
    match test_bits with
    | [] => PrimFloat.zero
    | _ => truediv error_bits (Z.of_nat (length test_bits))
    end in
  let final_key_bits :=
    map snd (List.filter (fun p => negb (existsb (Nat.eqb (fst p)) test_indices))
                         (enumerate sifted_key_bits)) in
  key_bytes <- lift_result (_bits_to_bytes (take 256 final_key_bits)) ;;
  tok <- rand (token_urlsafe 8) ;;
  now <- utcnow ;;
  let quantum_key :=
    {| key_id := "qkd_" +:+ session_id +:+ "_" +:+ tok;
       key_material := key_bytes;
       key_size := 256;
       key_type := SYMMETRIC;
       algorithm := KYBER768;
       generated_at := now;
       checksum := sha256_hexdigest key_bytes;
       qber := Some qber |} in
  let metadata :=
    {| md_session_id := session_id;
       md_num_qubits := num_qubits;
       md_matching_bases := length matching_bases;
       md_sifted_key_length := length sifted_key_bits;
       md_final_key_length := length final_key_bits;
       md_qber := qber;
       md_security_check := security_check qber;
       md_eavesdropping_detected := eavesdropping_detected qber |} in
  ret (quantum_key, metadata).

Definition generate_pqc_keypair (alg : QuantumAlgorithm) : M engine (bytes * bytes) :=
  match alg with
  | KYBER512 | KYBER768 | KYBER1024 =>
      private_key <- rand (Secrets.token_bytes 32) ;;
      public_key <- rand (Secrets.token_bytes 32) ;;
      ret (public_key, private_key)
  | DILITHIUM2 | DILITHIUM3 | DILITHIUM5 =>
      private_key <- rand (Secrets.token_bytes 64) ;;
      public_key <- rand (Secrets.token_bytes 32) ;;
      ret (public_key, private_key)
  | FALCON512 | FALCON1024 =>
      private_key <- rand (Secrets.token_bytes 48) ;;
      public_key <- rand (Secrets.token_bytes 24) ;;
      ret (public_key, private_key)
  end.

Definition create_quantum_session (session_id : string) (alg : QuantumAlgorithm)
  : M engine session_data :=
  keys <- generate_pqc_keypair alg ;;
  quantum_key <- generate_quantum_key 256 ;;
  now <- utcnow ;;
  let data :=
    {| s_session_id := session_id;
       s_algorithm := algorithm_value alg;
       s_public_key := Hex.hex (fst keys);
       s_private_key := Hex.hex (snd keys);
       s_quantum_key_id := key_id quantum_key;
       s_quantum_key_checksum := checksum quantum_key;
       s_qber := qber quantum_key;
       s_created_at := isoformat now;
       s_is_active := true |} in
  e <- get ;;
  put {| entropy := entropy e; clock := clock e;
         active_sessions := <[session_id := data]> (active_sessions e) |} ;;;
  ret data.

Definition get_session_key (session_id : string) : M engine (option QuantumKey) :=
  e <- get ;;
  match active_sessions e !! session_id with
  | None => ret None
  | Some session =>
      key_material <- rand (Secrets.token_bytes 32) ;;
      alg <- lift_result (QuantumAlgorithm_of_value (s_algorithm session)) ;;
      created <- lift_result (fromisoformat (s_created_at session)) ;;
      ret (Some {| key_id := s_quantum_key_id session;
                   key_material := key_material;
                   key_size := 256;
                   key_type := SYMMETRIC;
                   algorithm := alg;
                   generated_at := created;
                   checksum := s_quantum_key_checksum session;
                   qber := s_qber session |})
  end.

Definition quantum_encrypt (session_id : string) (plaintext : bytes)
  : M engine encrypted_data :=
  k <- get_session_key session_id ;;
  match k with
  | None => raise (ValueError ("No quantum key found for session " +:+ session_id))
  | Some quantum_key =>
      encrypted <- lift_result (_symmetric_encrypt (key_material quantum_key) plaintext) ;;
      now <- utcnow ;;
      ret {| e_ciphertext := Hex.hex encrypted;
             e_key_id := key_id quantum_key;
             e_algorithm := algorithm_value (algorithm quantum_key);
             e_qber := qber quantum_key;
             e_timestamp := isoformat now |}
  end.

(** [quantum_key.qber and quantum_key.qber > 0.11]: [None] and zero are
    falsy. *)
Definition qber_too_high (q : option float) : bool :=
  match q with
  | None => false
  | Some x => negb (PrimFloat.eqb x PrimFloat.zero) && PrimFloat.ltb QBER_THRESHOLD x
  end.

Definition quantum_decrypt (session_id : string) (data : encrypted_data)
  : M engine bytes :=
  k <- get_session_key session_id ;;
  match k with
  | None => raise (ValueError "Invalid quantum key")
  | Some quantum_key =>
      if negb (String.eqb (key_id quantum_key) (e_key_id data))
      then raise (ValueError "Invalid quantum key")
      else if qber_too_high (qber quantum_key)
      then raise (ValueError "Quantum key compromised - QBER too high")
      else
        ciphertext <- lift_result (Hex.fromhex (e_ciphertext data)) ;;
        lift_result (_symmetric_decrypt (key_material quantum_key) ciphertext)
  end.

End Engine.

End QuantumEngine.

(* ===================================================================== *)
(** * models/user.py and models/scan.py *)
(* ===================================================================== *)

Module Models.

Inductive UserRole : Type := ADMIN | RESEARCHER | OPERATOR | VIEWER.

Definition role_value (r : UserRole) : string :=
  match r with
  | ADMIN => "admin"
  | RESEARCHER => "researcher"
  | OPERATOR => "operator"
  | VIEWER => "viewer"
  end.

(** A row of the [users] table.  [u_id] is the primary key of [Base], a
    [uuid.UUID] object, kept as its canonical text [str(user.id)]. *)
Record User : Type := {
  u_id : string;
  u_username : string;
  u_email : string;
  u_password_hash : string;
  u_full_name : string;
  u_role : UserRole;
  u_is_active : bool;
  u_is_verified : bool;
  u_created_at : Z
}.

Inductive ScanType : Type :=
| PORT | VULNERABILITY | WEB | NETWORK | SERVICE | SSL | DNS.

Inductive ScanStatus : Type :=
| PENDING | RUNNING | COMPLETED | FAILED | CANCELLED.

Definition status_eqb (a b : ScanStatus) : bool :=
  match a, b with
  | PENDING, PENDING | RUNNING, RUNNING | COMPLETED, COMPLETED
  | FAILED, FAILED | CANCELLED, CANCELLED => true
  | _, _ => false
  end.

(** A row of the [scans] table.  The primary key [id] is the row's key in
    the table; [created_at] and [updated_at] come from [Base], free-form
    JSON columns are kept as their text. *)
Record Scan : Type := {
  created_at : Z;
  updated_at : Z;
  user_id : string;
  project_id : option string;
  name : string;
  scan_type : ScanType;
  status : ScanStatus;
  targets : list string;
  ports : option (list string);
  config : option string;
  options : option string;
  started_at : option Z;
  completed_at : option Z;
  total_hosts : Z;
  total_services : Z;
  vulnerabilities_found : Z
}.

(** [Result.scalar_one_or_none()] over the rows a query selected. *)
Definition scalar_one_or_none {A} (rows : list A) : result (option A) :=
  match rows with
  | [] => Returns None
  | [r] => Returns (Some r)
  | _ => Raises MultipleResultsFound
  end.

End Models.

(* ===================================================================== *)
(** * security.py *)
(* ===================================================================== *)

(** ** The JWT codec

    A symbolic model of the HS256 codec of PyJWT ([import jwt]): a token
    is either the signed form of a payload under a key, or text that is
    no token at all.  [jwt.encode] serialises the payload with
    [json.dumps], which raises TypeError on a value that is no JSON value,
    such as a [uuid.UUID].  [jwt.decode] raises one of PyJWT's
    [InvalidTokenError]s on text that is no token, on a signature made
    under another key, and on a payload whose [exp] lies in the past.
    The module defines no [JWTError]. *)
Module Jwt.

(** A decoded payload. *)
Record claims : Type := {
  sub : string;
  role : string;
  exp : Z;
  iat : Z
}.

(** What a caller puts under ["sub"]: a [str], or the [uuid.UUID] of a
    row's primary key, given by its canonical text. *)
Inductive subject : Type :=
| Str (s : string)
| Uuid (canonical : string).

(** The dictionary handed to [jwt.encode]. *)
Record to_encode : Type := {
  te_sub : subject;
  te_role : string;
  te_exp : Z;
  te_iat : Z
}.

Inductive token : Type :=
| Signed (payload : claims) (key : string)
| Garbage (text : string).

Definition encode (payload : to_encode) (key : string) : result token :=
  match te_sub payload with
  | Uuid _ => Raises (TypeError "Object of type UUID is not JSON serializable")
  | Str s =>
      Returns (Signed {| sub := s; role := te_role payload;
                         exp := te_exp payload; iat := te_iat payload |} key)
  end.

Definition decode (t : token) (key : string) (now : Z) : result claims :=
  match t with
  | Garbage _ => Raises (InvalidTokenError "Not enough segments")
  | Signed payload k =>
      if negb (String.eqb k key)
      then Raises (InvalidTokenError "Signature verification failed")
      else if exp payload <? now
      then Raises (InvalidTokenError "Signature has expired")
      else Returns payload
  end.

(** A token past its expiry at [now], and text or a signature that the
    key [secret_key] does not accept. *)
Definition expired (now : Z) (t : token) : Prop :=
  match t with
  | Signed payload _ => exp payload < now
  | Garbage _ => False
  end.

Definition malformed (secret_key : string) (t : token) : Prop :=
  match t with
  | Signed _ k => k <> secret_key
  | Garbage _ => True
  end.

End Jwt.

Module Security.

Import Models.

Definition ACCESS_TOKEN_EXPIRE_MINUTES : Z := 60 * 24 * 7.

Definition generate_noise_data (size : Z) : M Secrets.rng bytes :=
  Secrets.token_bytes size.

Definition apply_blinding (real_data : bytes) (noise_ratio : Z)
  : M Secrets.rng bytes :=
  noise <- generate_noise_data (Z.of_nat (length real_data) * noise_ratio) ;;
  insert_pos <-
    Secrets.randbelow (Z.of_nat (length noise) - Z.of_nat (length real_data)) ;;
  ret (take (Z.to_nat insert_pos) noise ++ real_data
         ++ drop (Z.to_nat insert_pos) noise).

Section Tokens.

(** [settings.secret_key], the clock reading of [datetime.utcnow()] in
    seconds, and passlib's bcrypt check. *)
Variable secret_key : string.
Variable now : Z.
Variable pwd_verify : string -> string -> result bool.

Definition verify_password (plain_password hashed_password : string)
  : result bool :=
  pwd_verify plain_password hashed_password.

Definition create_access_token (user_id : Jwt.subject) (r : UserRole)
  : result Jwt.token :=
  let to_encode :=
    {| Jwt.te_sub := user_id;
       Jwt.te_role := role_value r;
       Jwt.te_exp := now + ACCESS_TOKEN_EXPIRE_MINUTES * 60;
       Jwt.te_iat := now |} in
  Jwt.encode to_encode secret_key.

(** [try: return jwt.decode(...) except jwt.JWTError: return None]: when
    [decode] raises, the handler's class expression [jwt.JWTError] is
    evaluated first, and that lookup raises AttributeError. *)
Definition verify_token (t : Jwt.token) : result (option Jwt.claims) :=
  match Jwt.decode t secret_key now with
  | Returns payload => Returns (Some payload)
  | Raises _ => Raises (AttributeError "module 'jwt' has no attribute 'JWTError'")
  end.

End Tokens.

End Security.

(* ===================================================================== *)
(** * auth.py *)
(* ===================================================================== *)

Module Auth.

Import Models.

Record LoginRequest : Type := {
  lr_username : string;
  lr_password : string
}.

(** The public projection of a user that [login] returns. *)
Record UserProjection : Type := {
  p_id : string;
  p_username : string;
  p_email : string;
  p_full_name : string;
  p_role : string;
  p_is_active : bool;
  p_is_verified : bool;
  p_created_at : Z
}.

Record LoginResponse : Type := {
  access_token : Jwt.token;
  token_type : string;
  user : UserProjection
}.

Definition HTTP_401_UNAUTHORIZED : Z := 401.

Section Endpoints.

Variable secret_key : string.
Variable pwd_verify : string -> string -> result bool.

(** The rows of the [users] table. *)
Variable users : list User.

(** [User.id == user_id] compares the key with the token's subject, a
    text. *)
Definition get_current_user (now : Z) (credentials : Jwt.token) : result User :=
  match Security.verify_token secret_key now credentials with
  | Raises e => Raises e
  | Returns None =>
      Raises (HTTPException HTTP_401_UNAUTHORIZED "Invalid or expired token")
  | Returns (Some payload) =>
      let user_id := Jwt.sub payload in
      match scalar_one_or_none
              (List.filter (fun u => String.eqb (u_id u) user_id) users) with
      | Raises e => Raises e
      | Returns None =>
          Raises (HTTPException HTTP_401_UNAUTHORIZED "User not found or inactive")
      | Returns (Some u) =>
          if negb (u_is_active u)
          then Raises (HTTPException HTTP_401_UNAUTHORIZED "User not found or inactive")
          else Returns u
      end
  end.

(** [create_access_token(user.id, user.role)] receives the [uuid.UUID]
    itself; the response below it converts with [str(user.id)]. *)
Definition login (now : Z) (login_data : LoginRequest) : result LoginResponse :=
  match scalar_one_or_none
          (List.filter
             (fun u => String.eqb (u_username u) (lr_username login_data)
                       || String.eqb (u_email u) (lr_username login_data))
             users) with
  | Raises e => Raises e
  | Returns None =>
      Raises (HTTPException HTTP_401_UNAUTHORIZED "Invalid credentials")
  | Returns (Some u) =>
      match Security.verify_password pwd_verify (lr_password login_data)
              (u_password_hash u) with
      | Raises e => Raises e
      | Returns false =>
          Raises (HTTPException HTTP_401_UNAUTHORIZED "Invalid credentials")
      | Returns true =>
          match Security.create_access_token secret_key now
                  (Jwt.Uuid (u_id u)) (u_role u) with
          | Raises e => Raises e
          | Returns tok =>
              Returns {| access_token := tok;
                         token_type := "bearer";
                         user := {| p_id := u_id u;
                                    p_username := u_username u;
                                    p_email := u_email u;
                                    p_full_name := u_full_name u;
                                    p_role := role_value (u_role u);
                                    p_is_active := u_is_active u;
                                    p_is_verified := u_is_verified u;
                                    p_created_at := u_created_at u |} |}
          end
      end
  end.

End Endpoints.

End Auth.

(* ===================================================================== *)
(** * redis_client.py *)
(* ===================================================================== *)

(** ** The Redis server

    A keyspace with a logical clock.  A value is the decimal text of a
    signed 64-bit integer ([RInt]) or any other string ([RStr]); a key may
    carry an expiry instant and is gone once the clock reaches it.  [INCR]
    starts an absent key at 0, keeps the key's expiry, and answers with an
    error on a value that is no integer or that would overflow; [EXPIRE]
    sets the expiry of a present key to [seconds] from now. *)
Module Redis.

Inductive rvalue : Type :=
| RInt (n : Z)
| RStr (s : string).

Record entry : Type := {
  value : rvalue;
  expires_at : option Z
}.

Record server : Type := {
  keyspace : gmap string entry;
  time : Z
}.

Definition INT64_MAX : Z := 9223372036854775807.

Definition expired (now : Z) (e : entry) : bool :=
  match expires_at e with
  | Some t => t <=? now
  | None => false
  end.

(** The entry a command sees under [key]. *)
Definition live (s : server) (key : string) : option entry :=
  match keyspace s !! key with
  | Some e => if expired (time s) e then None else Some e
  | None => None
  end.

Definition store (s : server) (key : string) (e : entry) : server :=
  {| keyspace := <[key := e]> (keyspace s); time := time s |}.

Definition incr (key : string) : M server Z :=
  fun s =>
    match live s key with
    | None => (Returns 1, store s key {| value := RInt 1; expires_at := None |})
    | Some e =>
        match value e with
        | RStr _ => (Raises (ResponseError "value is not an integer or out of range"), s)
        | RInt n =>
            if INT64_MAX <=? n
            then (Raises (ResponseError "increment or decrement would overflow"), s)
            else (Returns (n + 1),
                  store s key {| value := RInt (n + 1); expires_at := expires_at e |})
        end
    end.

Definition expire (key : string) (seconds : Z) : M server bool :=
  fun s =>
    match live s key with
    | None => (Returns false, s)
    | Some e =>
        (Returns true,
         store s key {| value := value e; expires_at := Some (time s + seconds) |})
    end.

(** [d] seconds pass on the server. *)
Definition advance (d : Z) (s : server) : server :=
  {| keyspace := keyspace s; time := time s + d |}.

(** The counter a key stands for (an absent key counts as 0; a string
    that is no integer is no counter) and the expiry it carries. *)
Definition counter (s : server) (key : string) : option Z :=
  match live s key with
  | None => Some 0
  | Some e => match value e with RInt n => Some n | RStr _ => None end
  end.

Definition expiry (s : server) (key : string) : option Z :=
  match live s key with
  | None => None
  | Some e => expires_at e
  end.

End Redis.

Module RedisClient.

(** The client object: [self.redis] is [None] until [connect] succeeds. *)
Record client : Type := { redis : option Redis.server }.

(** A command sent over the connection. *)
Definition on_server {A} (c : M Redis.server A) : M client A :=
  fun cl =>
    match redis cl with
    | None => (Raises (RuntimeError "Redis not connected"), cl)
    | Some s => let '(r, s') := c s in (r, {| redis := Some s' |})
    end.

Definition check_rate_limit (key : string) (limit window : Z) : M client bool :=
  fun cl =>
    match redis cl with
    | None => (Raises (RuntimeError "Redis not connected"), cl)
    | Some _ =>
        (current <- on_server (Redis.incr key) ;;
         (if current =? 1
          then on_server (Redis.expire key window) ;;; ret tt
          else ret tt) ;;;
         ret (current <=? limit)) cl
    end.

(** Time passing between two requests. *)
Definition tick (d : Z) : M client unit :=
  on_server (fun s => (Returns tt, Redis.advance d s)).

(** Four requests on one key, [d1], [d2] and [d3] seconds apart. *)
Definition four_calls (key : string) (limit window d1 d2 d3 : Z)
  : M client (list bool) :=
  r1 <- check_rate_limit key limit window ;;
  tick d1 ;;;
  r2 <- check_rate_limit key limit window ;;
  tick d2 ;;;
  r3 <- check_rate_limit key limit window ;;
  tick d3 ;;;
  r4 <- check_rate_limit key limit window ;;
  ret [r1; r2; r3; r4].

End RedisClient.

(* ===================================================================== *)
(** * nats_client.py *)
(* ===================================================================== *)

Module NatsClient.

(** The JetStream side: the buckets that exist on the server, each a map
    from keys to stored payloads.  A [KeyValue] handle names its bucket. *)
Record client : Type := {
  kv_stores : gmap string string;
  server_buckets : gmap string (gmap string bytes)
}.

(** [KeyValue.get(key)]: the entry's value, or an error when the bucket is
    gone on the server or holds no such key. *)
Definition KeyValue_get (cl : client) (handle key : string) : result bytes :=
  match server_buckets cl !! handle with
  | None => Raises BucketNotFoundError
  | Some bucket =>
      match bucket !! key with
      | None => Raises KeyNotFoundError
      | Some v => Returns v
      end
  end.

Section KV.

(** The decoded JSON documents, and [json.loads(value.decode())]. *)
Variable json : Type.
Variable json_loads : bytes -> result json.

Definition kv_get (bucket key : string) : M client (option json) :=
  fun cl =>
    match kv_stores cl !! bucket with
    | None => (Raises (ValueError ("KV store '" +:+ bucket +:+ "' not found")), cl)
    | Some handle =>
        let attempt :=
          match KeyValue_get cl handle key with
          | Raises e => Raises e
          | Returns v => json_loads v
          end in
        match attempt with
        | Returns doc => (Returns (Some doc), cl)
        | Raises BucketNotFoundError => (Returns None, cl)
        | Raises _ => (Returns None, cl)
        end
    end.

End KV.

End NatsClient.

(* ===================================================================== *)
(** * scans.py *)
(* ===================================================================== *)

(** ** ElementTree documents *)
Module ET.

Inductive element : Type :=
| Element (tag : string) (attrib : list (string * string))
          (children : list element).

Definition tag_of (e : element) : string :=
  match e with Element t _ _ => t end.

Definition attrib_of (e : element) : list (string * string) :=
  match e with Element _ a _ => a end.

Definition children_of (e : element) : list element :=
  match e with Element _ _ c => c end.

(** [e.get(key, default)]. *)
Definition get (e : element) (key default : string) : string :=
  match List.find (fun kv => String.eqb (fst kv) key) (attrib_of e) with
  | Some kv => snd kv
  | None => default
  end.

(** [e.get(key)], absent when the attribute is missing. *)
Definition get_opt (e : element) (key : string) : option string :=
  match List.find (fun kv => String.eqb (fst kv) key) (attrib_of e) with
  | Some kv => Some (snd kv)
  | None => None
  end.

(** [e.findall(tag)]: the direct children with that tag, in document order. *)
Definition findall (e : element) (tag : string) : list element :=
  List.filter (fun c => String.eqb (tag_of c) tag) (children_of e).

(** [e.find(tag)]: the first direct child with that tag. *)
Definition find (e : element) (tag : string) : option element :=
  List.find (fun c => String.eqb (tag_of c) tag) (children_of e).

(** [e.findall("a/b")]. *)
Definition findall2 (e : element) (outer inner : string) : list element :=
  flat_map (fun c => findall c inner) (findall e outer).

(** The [port] elements of every host of a document, in document order. *)
Definition all_ports (root : element) : list element :=
  flat_map (fun host => findall2 host "ports" "port") (findall root "host").

(** The [addr] attribute of the first [address] child of a host. *)
Definition host_address (host : element) : option string :=
  match find host "address" with
  | Some address => Some (get address "addr" "")
  | None => None
  end.

(** The addresses of the hosts that carry one, in document order. *)
Fixpoint addresses (hosts : list element) : list string :=
  match hosts with
  | [] => []
  | host :: hosts' =>
      match host_address host with
      | Some a => a :: addresses hosts'
      | None => addresses hosts'
      end
  end.

End ET.

Module Scans.

Import Models.

Definition HTTP_404_NOT_FOUND : Z := 404.
Definition HTTP_400_BAD_REQUEST : Z := 400.

(** The database session as the endpoint sees it: the [scans] table keyed
    by primary key, and the server clock that [func.now()] reads. *)
Record database : Type := {
  scans : gmap string Scan;
  db_now : Z
}.

Definition set_status (s : Scan) (st : ScanStatus) : Scan :=
  {| created_at := created_at s;
     updated_at := updated_at s;
     user_id := user_id s;
     project_id := project_id s;
     name := name s;
     scan_type := scan_type s;
     status := st;
     targets := targets s;
     ports := ports s;
     config := config s;
     options := options s;
     started_at := started_at s;
     completed_at := completed_at s;
     total_hosts := total_hosts s;
     total_services := total_services s;
     vulnerabilities_found := vulnerabilities_found s |}.

(** The UPDATE that [commit] flushes for a changed row: [Base.updated_at]
    has [onupdate=func.now()]. *)
Definition touch (now : Z) (s : Scan) : Scan :=
  {| created_at := created_at s;
     updated_at := now;
     user_id := user_id s;
     project_id := project_id s;
     name := name s;
     scan_type := scan_type s;
     status := status s;
     targets := targets s;
     ports := ports s;
     config := config s;
     options := options s;
     started_at := started_at s;
     completed_at := completed_at s;
     total_hosts := total_hosts s;
     total_services := total_services s;
     vulnerabilities_found := vulnerabilities_found s |}.

Definition commit_row (scan_id : string) (s : Scan) : M database unit :=
  fun db => (Returns tt,
             {| scans := <[scan_id := touch (db_now db) s]> (scans db);
                db_now := db_now db |}).

(** [select(Scan).where(and_(Scan.id == scan_id, Scan.user_id == user.id))]
    followed by [scalar_one_or_none()]. *)
Definition select_owned (db : database) (scan_id : string) (current_user : User)
  : option Scan :=
  match scans db !! scan_id with
  | Some s => if String.eqb (user_id s) (u_id current_user) then Some s else None
  | None => None
  end.

Definition cancel_scan (scan_id : string) (current_user : User)
  : M database string :=
  db <- get ;;
  match select_owned db scan_id current_user with
  | None => raise (HTTPException HTTP_404_NOT_FOUND "Scan not found")
  | Some scan =>
      if negb (status_eqb (status scan) PENDING || status_eqb (status scan) RUNNING)
      then raise (HTTPException HTTP_400_BAD_REQUEST "Scan cannot be cancelled")
      else
        commit_row scan_id (set_status scan CANCELLED) ;;;
        ret "Scan cancelled successfully"
  end.

(** ** [parse_nmap_xml] *)

Record port_data : Type := {
  pd_port : Z;
  pd_protocol : string;
  pd_state : string;
  pd_service : string;
  pd_version : string
}.

Record host_data : Type := {
  hd_address : string;
  hd_hostname : string;
  hd_ports : list port_data;
  hd_os : string
}.

Inductive nmap_result : Type :=
| Host (h : host_data)
| Error (message : string).

Section Parser.

(** [ET.fromstring] and [int] on a string. *)
Variable fromstring : string -> result ET.element.
Variable py_int : string -> result Z.

(** The body of the loop over [host.findall("ports/port")] up to the test
    on the state. *)
Definition read_port (port : ET.element) : result port_data :=
  match (match ET.get_opt port "portid" with
         | Some s => py_int s
         | None => Returns 0
         end) with
  | Raises e => Raises e
  | Returns portid =>
      let state :=
        match ET.find port "state" with
        | Some st => ET.get st "state" ""
        | None => ""%string
        end in
      let service :=
        match ET.find port "service" with
        | Some sv => ET.get sv "name" ""
        | None => ""%string
        end in
      let version :=
        match ET.find port "service" with
        | Some sv => ET.get sv "version" ""
        | None => ""%string
        end in
      Returns {| pd_port := portid;
                 pd_protocol := ET.get port "protocol" "";
                 pd_state := state;
                 pd_service := service;
                 pd_version := version |}
  end.

Definition is_open (p : port_data) : bool :=
  String.eqb (pd_state p) "open".

Definition set_address (h : host_data) (a : string) : host_data :=
  {| hd_address := a; hd_hostname := hd_hostname h;
     hd_ports := hd_ports h; hd_os := hd_os h |}.

Definition append_port (h : host_data) (p : port_data) : host_data :=
  {| hd_address := hd_address h; hd_hostname := hd_hostname h;
     hd_ports := hd_ports h ++ [p]; hd_os := hd_os h |}.

(** The inner loop, threading the one [host_data] dictionary. *)
Fixpoint loop_ports (ps : list ET.element) (h : host_data) : result host_data :=
  match ps with
  | [] => Returns h
  | port :: ps' =>
      match read_port port with
      | Raises e => Raises e
      | Returns pd =>
          loop_ports ps'
            (if String.eqb (pd_state pd) "open" then append_port h pd else h)
      end
  end.

(** The outer loop over [root.findall("host")]. *)
Fixpoint loop_hosts (hs : list ET.element) (h : host_data) : result host_data :=
  match hs with
  | [] => Returns h
  | host :: hs' =>
      let h1 :=
        match ET.find host "address" with
        | Some address => set_address h (ET.get address "addr" "")
        | None => h
        end in
      match loop_ports (ET.findall2 host "ports" "port") h1 with
      | Raises e => Raises e
      | Returns h2 => loop_hosts hs' h2
      end
  end.

Definition parse_nmap_xml (xml_data : string) : nmap_result :=
  let attempt :=
    match fromstring xml_data with
    | Raises e => Raises e
    | Returns root =>
        loop_hosts (ET.findall root "host")
          {| hd_address := ""; hd_hostname := ""; hd_ports := []; hd_os := "" |}
    end in
  match attempt with
  | Returns h => Host h
  | Raises _ => Error "Failed to parse nmap output"
  end.

End Parser.

End Scans.

(* ===================================================================== *)
(** * Concrete inputs used by the examples below *)
(* ===================================================================== *)

Module Examples.

Import Models.

(** Two entropy tapes: every raw word 0, and the raw word equal to its
    position. *)
Definition zero_rng : Secrets.rng :=
  {| Secrets.tape := fun _ => 0; Secrets.cursor := 0 |}.

Definition count_rng : Secrets.rng :=
  {| Secrets.tape := fun i => Z.of_nat i; Secrets.cursor := 0 |}.

(** Stand-ins for the text-producing services, whose output no property
    below depends on. *)
Definition no_digest (b : bytes) : string := "".
Definition fixed_token (b : bytes) : string := "tok".
Definition no_text (t : Z) : string := "".
Definition any_instant (s : string) : result Z := Returns 0.

(** An engine without sessions. *)
Definition fresh_engine : QuantumEngine.engine :=
  {| QuantumEngine.entropy := count_rng;
     QuantumEngine.clock := 1700000000;
     QuantumEngine.active_sessions := ∅ |}.

(** An engine whose [active_sessions] holds one entry with the keys that
    [create_quantum_session] writes and a QBER of 0.04, and the sequence
    encrypt, decrypt on one session. *)
Definition stored_session : QuantumEngine.session_data :=
  {| QuantumEngine.s_session_id := "s1";
     QuantumEngine.s_algorithm := "kyber768";
     QuantumEngine.s_public_key := "00";
     QuantumEngine.s_private_key := "00";
     QuantumEngine.s_quantum_key_id := "qk_one";
     QuantumEngine.s_quantum_key_checksum := "";
     QuantumEngine.s_qber := Some 0x1.47ae147ae147bp-5%float;
     QuantumEngine.s_created_at := "2023-11-14T22:13:20";
     QuantumEngine.s_is_active := true |}.

Definition one_session_engine : QuantumEngine.engine :=
  {| QuantumEngine.entropy := count_rng;
     QuantumEngine.clock := 1700000000;
     QuantumEngine.active_sessions := <["s1" := stored_session]> ∅ |}.

Definition session_round_trip (session_id : string) (plaintext : bytes)
  : M QuantumEngine.engine bytes :=
  data <- QuantumEngine.quantum_encrypt no_text any_instant session_id plaintext ;;
  QuantumEngine.quantum_decrypt any_instant session_id data.

(** A Redis server that holds no key. *)
Definition empty_server : Redis.server :=
  {| Redis.keyspace := ∅; Redis.time := 1000 |}.

(** Users and scans. *)
Definition alice : User :=
  {| u_id := "user-1"; u_username := "alice"; u_email := "alice@example.org";
     u_password_hash := "bcrypt:wonderland"; u_full_name := "Alice";
     u_role := OPERATOR; u_is_active := true; u_is_verified := true;
     u_created_at := 10 |}.

Definition bob : User :=
  {| u_id := "user-2"; u_username := "bob"; u_email := "bob@example.org";
     u_password_hash := "bcrypt:builder"; u_full_name := "Bob";
     u_role := VIEWER; u_is_active := false; u_is_verified := true;
     u_created_at := 20 |}.

Definition users : list User := [alice; bob].

Definition bcrypt_check (plain hashed : string) : result bool :=
  Returns (String.eqb ("bcrypt:" +:+ plain) hashed).

Definition bob_login : Auth.LoginRequest :=
  {| Auth.lr_username := "bob@example.org"; Auth.lr_password := "builder" |}.

Definition alice_login : Auth.LoginRequest :=
  {| Auth.lr_username := "alice"; Auth.lr_password := "wonderland" |}.

Definition pending_scan : Scan :=
  {| created_at := 100; updated_at := 100; user_id := "user-1";
     project_id := None; name := "perimeter"; scan_type := PORT;
     status := PENDING; targets := ["10.0.0.1"]; ports := Some ["22"; "80"];
     config := None; options := None; started_at := None;
     completed_at := None; total_hosts := 0; total_services := 0;
     vulnerabilities_found := 0 |}.

Definition completed_scan : Scan :=
  {| created_at := 50; updated_at := 90; user_id := "user-1";
     project_id := None; name := "weekly"; scan_type := PORT;
     status := COMPLETED; targets := ["10.0.0.9"]; ports := None;
     config := None; options := None; started_at := Some 60;
     completed_at := Some 90; total_hosts := 1; total_services := 2;
     vulnerabilities_found := 0 |}.

Definition example_db : Scans.database :=
  {| Scans.scans := <["scan-1" := pending_scan]> (<["scan-2" := completed_scan]> ∅);
     Scans.db_now := 200 |}.

(** The messaging client after [_setup_kv_stores]; the [telemetry] bucket
    has since been removed on the server. *)
Definition standard_client : NatsClient.client :=
  {| NatsClient.kv_stores :=
       <["config" := "config"]> (<["sessions" := "sessions"]>
         (<["cache" := "cache"]> (<["telemetry" := "telemetry"]> ∅)))%string;
     NatsClient.server_buckets :=
       <["config" := ∅]> (<["sessions" := ∅]> (<["cache" := ∅]> ∅)) |}.

(** [int] on the plain decimal numerals that nmap writes. *)
Fixpoint decimal_digits (cs : list ascii) (acc : Z) : result Z :=
  match cs with
  | [] => Returns acc
  | c :: cs' =>
      let n := Z.of_N (Ascii.N_of_ascii c) in
      if (48 <=? n) && (n <=? 57) then decimal_digits cs' (10 * acc + (n - 48))
      else Raises (ValueError "invalid literal for int() with base 10")
  end.

Definition decimal (s : string) : result Z :=
  match list_ascii_of_string s with
  | [] => Raises (ValueError "invalid literal for int() with base 10")
  | cs => decimal_digits cs 0
  end.

(** A parser that knows one document. *)
Definition parsed_as (text : string) (root : ET.element) (s : string)
  : result ET.element :=
  if String.eqb s text then Returns root else Raises ParseError.

Definition port_element (portid state service version : string) : ET.element :=
  ET.Element "port" [("protocol", "tcp"); ("portid", portid)]%string
    [ET.Element "state" [("state", state)]%string [];
     ET.Element "service" [("name", service); ("version", version)]%string []].

Definition host_element (addr : string) (ports : list ET.element) : ET.element :=
  ET.Element "host" []
    [ET.Element "address" [("addr", addr); ("addrtype", "ipv4")]%string [];
     ET.Element "ports" [] ports].

(** One host with an open and a closed port. *)
Definition single_host_xml : string :=
  "<nmaprun><host><address addr='192.168.1.10' addrtype='ipv4'/><ports><port protocol='tcp' portid='22'><state state='open'/><service name='ssh' version='8.9'/></port><port protocol='tcp' portid='23'><state state='closed'/><service name='telnet' version=''/></port></ports></host></nmaprun>".

Definition single_host_doc : ET.element :=
  ET.Element "nmaprun" []
    [host_element "192.168.1.10"
       [port_element "22" "open" "ssh" "8.9";
        port_element "23" "closed" "telnet" ""]].

(** Two hosts, as nmap reports for a target that covers two addresses. *)
Definition two_hosts_xml : string :=
  "<nmaprun><host><address addr='10.0.0.1' addrtype='ipv4'/><ports><port protocol='tcp' portid='22'><state state='open'/><service name='ssh' version='8.9'/></port></ports></host><host><address addr='10.0.0.2' addrtype='ipv4'/><ports><port protocol='tcp' portid='80'><state state='open'/><service name='http' version='2.4'/></port></ports></host></nmaprun>".

Definition first_host : ET.element :=
  host_element "10.0.0.1" [port_element "22" "open" "ssh" "8.9"].

Definition second_host : ET.element :=
  host_element "10.0.0.2" [port_element "80" "open" "http" "2.4"].

Definition two_hosts_doc : ET.element :=
  ET.Element "nmaprun" [] [first_host; second_host].

End Examples.

(* ===================================================================== *)
(** * security.py: role-based access control *)
(* ===================================================================== *)

Module SecurityManager.

Import Models.

(** The [role_hierarchy] dictionary of [check_permission]. *)
Definition role_hierarchy (r : UserRole) : Z :=
  match r with
  | VIEWER => 1
  | OPERATOR => 2
  | RESEARCHER => 3
  | ADMIN => 4
  end.

(** [role_hierarchy.get(role, 0)]; [None] stands for any value that is no
    key of the dictionary. *)
Definition hierarchy_get (r : option UserRole) : Z :=
  match r with
  | Some r => role_hierarchy r
  | None => 0
  end.

Definition check_permission (user_role required_role : option UserRole) : bool :=
  hierarchy_get required_role <=? hierarchy_get user_role.

End SecurityManager.

(* ===================================================================== *)
(** * quantum_engine.py: the simulated KEM and the security report *)
(* ===================================================================== *)

Module QuantumSecurity.

Import QuantumEngine.

Definition pqc_encrypt (public_key plaintext : bytes) (alg : QuantumAlgorithm)
  : M engine bytes :=
  shared_secret <- rand (Secrets.token_bytes 32) ;;
  ciphertext <- rand (Secrets.token_bytes (Z.of_nat (length plaintext) + 32)) ;;
  ret ciphertext.

Definition pqc_decrypt (private_key ciphertext : bytes) (alg : QuantumAlgorithm)
  : M engine bytes :=
  plaintext <- rand (Secrets.token_bytes (Z.of_nat (length ciphertext) - 32)) ;;
  ret plaintext.

(** The [checks] dictionary of [verify_quantum_security]. *)
Record security_checks : Type := {
  session_active : bool;
  qber_valid : bool;
  key_verified : bool;
  algorithm_secure : bool;
  timestamp_valid : bool
}.

(** What [verify_quantum_security] returns: the dictionary with [valid]
    false and the error "Session not found", or the full report. *)
Inductive security_report : Type :=
| SessionNotFound
| Report (valid : bool) (checks : security_checks) (recommendations : list string).

Definition _get_security_recommendations (checks : security_checks) : list string :=
  (if negb (qber_valid checks)
   then ["QBER too high - possible eavesdropping detected"%string] else []) ++
  (if negb (session_active checks)
   then ["Session inactive - regenerate quantum key"%string] else []).

(** [all(checks.values())]. *)
Definition all_valid (checks : security_checks) : bool :=
  forallb id [session_active checks; qber_valid checks; key_verified checks;
              algorithm_secure checks; timestamp_valid checks].

(** [session.get("qber", 0) < 0.11] compares the stored value, every
    session having the key: a stored [None] is no number. *)
Definition verify_quantum_security (session_id : string) : M engine security_report :=
  e <- get ;;
  match active_sessions e !! session_id with
  | None => ret SessionNotFound
  | Some session =>
      match s_qber session with
      | None =>
          raise (TypeError "'<' not supported between instances of 'NoneType' and 'float'")
      | Some q =>
          let checks :=
            {| session_active := s_is_active session;
               qber_valid := PrimFloat.ltb q QBER_THRESHOLD;
               key_verified := true;
               algorithm_secure :=
                 existsb (String.eqb (s_algorithm session))
                         (map algorithm_value all_algorithms);
               timestamp_valid := true |} in
          ret (Report (all_valid checks) checks (_get_security_recommendations checks))
      end
  end.

End QuantumSecurity.

(* ===================================================================== *)
(** * redis_client.py: sequences of requests, strings, sessions, the cache *)
(* ===================================================================== *)

Module RateLimiter.

(** A sequence of requests on one key, each after the given delay. *)
Fixpoint requests (key : string) (limit window : Z) (delays : list Z)
  : M RedisClient.client (list bool) :=
  match delays with
  | [] => ret []
  | d :: ds =>
      RedisClient.tick d ;;;
      r <- RedisClient.check_rate_limit key limit window ;;
      rs <- requests key limit window ds ;;
      ret (r :: rs)
  end.

End RateLimiter.

(** ** Redis strings

    [SET] stores the text it is given; the server keeps canonical decimal
    text of a signed 64-bit integer as an integer ([Redis.RInt]), which is
    what [INCR] counts on, and any other text as it is.  [SET] without
    [EX] drops the key's expiry, [SET] with a non-positive [EX] is
    answered with an error; [GET] answers with the text of a live key;
    [DEL] and [EXISTS] answer with the number of live keys they found. *)
Module RedisStrings.

Definition INT64_MIN : Z := -9223372036854775808.

(** The integer that a text is the canonical decimal form of. *)
Definition canonical_int (s : string) : option Z :=
  match DecimalString.NilZero.int_of_string s with
  | Some d =>
      let n := Z.of_int d in
      if Decimal.int_beq (Decimal.norm d) d
         && (INT64_MIN <=? n) && (n <=? Redis.INT64_MAX)
      then Some n
      else None
  | None => None
  end.

Definition of_text (s : string) : Redis.rvalue :=
  match canonical_int s with
  | Some n => Redis.RInt n
  | None => Redis.RStr s
  end.

Definition to_text (v : Redis.rvalue) : string :=
  match v with
  | Redis.RInt n => DecimalString.NilZero.string_of_int (Z.to_int n)
  | Redis.RStr s => s
  end.

Definition GET (key : string) : M Redis.server (option string) :=
  fun s =>
    match Redis.live s key with
    | Some e => (Returns (Some (to_text (Redis.value e))), s)
    | None => (Returns None, s)
    end.

Definition SET (key value : string) (ex : option Z) : M Redis.server bool :=
  fun s =>
    match ex with
    | None =>
        (Returns true,
         Redis.store s key {| Redis.value := of_text value; Redis.expires_at := None |})
    | Some seconds =>
        if seconds <=? 0
        then (Raises (ResponseError "invalid expire time in 'set' command"), s)
        else (Returns true,
              Redis.store s key {| Redis.value := of_text value;
                                   Redis.expires_at := Some (Redis.time s + seconds) |})
    end.

Definition DEL (key : string) : M Redis.server Z :=
  fun s =>
    match Redis.live s key with
    | Some _ =>
        (Returns 1,
         {| Redis.keyspace := delete key (Redis.keyspace s); Redis.time := Redis.time s |})
    | None => (Returns 0, s)
    end.

Definition EXISTS (key : string) : M Redis.server Z :=
  fun s =>
    match Redis.live s key with
    | Some _ => (Returns 1, s)
    | None => (Returns 0, s)
    end.

End RedisStrings.

(** ** redis_client.py: strings, JSON documents, sessions and the cache *)
Module RedisHelpers.

Import RedisClient.

Definition get (key : string) : M client (option string) :=
  on_server (RedisStrings.GET key).

(** [expire] is [None] or an integer; [ex=expire] is sent whenever it is
    not [None]. *)
Definition set (key value : string) (expire : option Z) : M client bool :=
  on_server (RedisStrings.SET key value expire).

Definition delete (key : string) : M client Z :=
  on_server (RedisStrings.DEL key).

Definition exists_ (key : string) : M client bool :=
  n <- on_server (RedisStrings.EXISTS key) ;; ret (0 <? n).

Section Json.

(** JSON objects as dictionaries from strings to values, with
    [json.dumps(data, default=str)] and [json.loads]. *)
Variable value : Type.
Variable json_dumps : gmap string value -> string.
Variable json_loads : string -> result (gmap string value).

Definition set_json (key : string) (data : gmap string value) (expire : option Z)
  : M client bool :=
  let json_data := json_dumps data in
  set key json_data expire.

(** [json.loads(data) if data else None]: [None] and the empty string
    are falsy. *)
Definition get_json (key : string) : M client (option (gmap string value)) :=
  data <- get key ;;
  match data with
  | None => ret None
  | Some EmptyString => ret None
  | Some text => doc <- lift_result (json_loads text) ;; ret (Some doc)
  end.

Definition create_session (session_id : string) (data : gmap string value)
    (expire_hours : Z) : M client bool :=
  let key := "session:" +:+ session_id in
  let expire_seconds := expire_hours * 3600 in
  set_json key data (Some expire_seconds).

Definition get_session (session_id : string) : M client (option (gmap string value)) :=
  let key := "session:" +:+ session_id in
  get_json key.

(** [if existing:] an absent session and an empty dictionary are falsy;
    [existing.update(data)] lets the keys of [data] win; the session is
    written back with the default [expire_hours=24]. *)
Definition update_session (session_id : string) (data : gmap string value)
  : M client bool :=
  existing <- get_session session_id ;;
  match existing with
  | None => ret false
  | Some existing =>
      if (size existing =? 0)%nat then ret false
      else create_session session_id (data ∪ existing) 24
  end.

Definition delete_session (session_id : string) : M client Z :=
  let key := "session:" +:+ session_id in
  delete key.

Definition set_user_session (user_id : string) (session_data : gmap string value)
  : M client bool :=
  let key := "user_session:" +:+ user_id in
  set_json key session_data (Some 3600).

Definition get_user_session (user_id : string)
  : M client (option (gmap string value)) :=
  let key := "user_session:" +:+ user_id in
  get_json key.

End Json.

Section Cache.

(** [str(value)] for the values that are cached. *)
Variable A : Type.
Variable str : A -> string.

Definition cache_set (key : string) (value : A) (expire : Z) : M client bool :=
  let cache_key := "cache:" +:+ key in
  set cache_key (str value) (Some expire).

End Cache.

Definition cache_get (key : string) : M client (option string) :=
  let cache_key := "cache:" +:+ key in
  get cache_key.

Definition cache_delete (key : string) : M client Z :=
  let cache_key := "cache:" +:+ key in
  delete cache_key.

End RedisHelpers.

(* ===================================================================== *)
(** * nats_client.py: writing and deleting keys *)
(* ===================================================================== *)

Module NatsKV.

Import NatsClient.

Definition with_bucket (cl : client) (handle : string) (b : gmap string bytes)
  : client :=
  {| kv_stores := kv_stores cl;
     server_buckets := <[handle := b]> (server_buckets cl) |}.

Section KV.

(** [json.dumps(value, default=str).encode()], [json.loads(value.decode())],
    and the error with which the JetStream client answers a write to a
    bucket whose stream is gone. *)
Variable json : Type.
Variable json_dumps : json -> bytes.
Variable json_loads : bytes -> result json.
Variable no_stream : exn.

(** [KeyValue.put(key, value)] and [KeyValue.delete(key)]. *)
Definition KeyValue_put (cl : client) (handle key : string) (payload : bytes)
  : result client :=
  match server_buckets cl !! handle with
  | None => Raises no_stream
  | Some b => Returns (with_bucket cl handle (<[key := payload]> b))
  end.

Definition KeyValue_delete (cl : client) (handle key : string) : result client :=
  match server_buckets cl !! handle with
  | None => Raises no_stream
  | Some b => Returns (with_bucket cl handle (delete key b))
  end.

Definition kv_put (bucket key : string) (value : json) : M client unit :=
  fun cl =>
    match kv_stores cl !! bucket with
    | None => (Raises (ValueError ("KV store '" +:+ bucket +:+ "' not found")), cl)
    | Some handle =>
        let payload := json_dumps value in
        match KeyValue_put cl handle key payload with
        | Returns cl' => (Returns tt, cl')
        | Raises e => (Raises e, cl)
        end
    end.

Definition kv_delete (bucket key : string) : M client unit :=
  fun cl =>
    match kv_stores cl !! bucket with
    | None => (Raises (ValueError ("KV store '" +:+ bucket +:+ "' not found")), cl)
    | Some handle =>
        match KeyValue_delete cl handle key with
        | Returns cl' => (Returns tt, cl')
        | Raises e => (Raises e, cl)
        end
    end.

End KV.

End NatsKV.

(* ===================================================================== *)
(** * scans.py: the other endpoints and the execution of a scan *)
(* ===================================================================== *)

(** ** scans.py: reading a scan *)
Module ScanEndpoints.

Import Models Scans.

Definition scan_type_value (t : ScanType) : string :=
  match t with
  | PORT => "port" | VULNERABILITY => "vulnerability" | WEB => "web"
  | NETWORK => "network" | SERVICE => "service" | SSL => "ssl" | DNS => "dns"
  end.

Definition status_value (st : ScanStatus) : string :=
  match st with
  | PENDING => "pending" | RUNNING => "running" | COMPLETED => "completed"
  | FAILED => "failed" | CANCELLED => "cancelled"
  end.

Record ScanResponse : Type := {
  r_id : string;
  r_name : string;
  r_scan_type : string;
  r_status : string;
  r_targets : list string;
  r_ports : option (list string);
  r_config : option string;
  r_started_at : option Z;
  r_completed_at : option Z;
  r_total_hosts : Z;
  r_total_services : Z;
  r_vulnerabilities_found : Z;
  r_created_at : Z;
  r_user_id : string;
  r_project_id : option string
}.

Definition to_response (scan_id : string) (scan : Scan) : ScanResponse :=
  {| r_id := scan_id;
     r_name := name scan;
     r_scan_type := scan_type_value (scan_type scan);
     r_status := status_value (status scan);
     r_targets := targets scan;
     r_ports := ports scan;
     r_config := config scan;
     r_started_at := started_at scan;
     r_completed_at := completed_at scan;
     r_total_hosts := total_hosts scan;
     r_total_services := total_services scan;
     r_vulnerabilities_found := vulnerabilities_found scan;
     r_created_at := created_at scan;
     r_user_id := user_id scan;
     r_project_id := project_id scan |}.

Definition get_scan (scan_id : string) (current_user : User)
  : M database ScanResponse :=
  db <- get ;;
  match select_owned db scan_id current_user with
  | None => raise (HTTPException HTTP_404_NOT_FOUND "Scan not found")
  | Some scan => ret (to_response scan_id scan)
  end.

End ScanEndpoints.

(** ** scans.py: running the tools *)
Module ScanExecution.

Import Models Scans.

Inductive SeverityLevel : Type := CRITICAL | HIGH | MEDIUM | LOW | INFO.

(** A vulnerability dictionary as the executors build it: [name],
    [severity] and [description] always, [host] and [port] only when the
    nikto parser wrote them. *)
Record finding : Type := {
  f_name : string;
  f_severity : SeverityLevel;
  f_description : string;
  f_host : option string;
  f_port : option Z
}.

(** A finished child process: its return code and [stdout.decode()]. *)
Record process : Type := {
  returncode : Z;
  stdout : result string
}.

(** The machine the tools run on: what the [n]-th launch will give
    (an exception when the program cannot be started), the commands
    launched so far, and the clock of [datetime.utcnow()] as a function
    of the number of launches. *)
Record tools : Type := {
  outcome : nat -> result process;
  launched : list (list string);
  utc : nat -> Z
}.

(** [asyncio.create_subprocess_exec] on the command and [communicate()]. *)
Definition create_subprocess_exec (cmd : list string) : M tools (result process) :=
  fun t => (Returns (outcome t (length (launched t))),
            {| outcome := outcome t; launched := launched t ++ [cmd]; utc := utc t |}).

Section Executors.

(** The parsers of the module and of the libraries: [ET.fromstring],
    [int], [str.lower], and the parsers of the nikto, traceroute, openssl
    and dig outputs with the types of what they return. *)
Variable fromstring : string -> result ET.element.
Variable py_int : string -> result Z.
Variable lower : string -> string.
Variable hop cert record : Type.
Variable parse_nikto_results : string -> list finding.
Variable parse_traceroute : string -> result (list hop).
Variable parse_ssl_cert : string -> cert.
Variable parse_dig_output : string -> list record.

(** The [results] dictionary of an executor; [None] is a missing key. *)
Record scan_results : Type := {
  res_hosts : option (list nmap_result);
  res_total_hosts : option Z;
  res_total_services : option Z;
  res_vulnerabilities : option (list finding);
  res_routes : option (list hop);
  res_certificates : option (list cert);
  res_records : option (list record);
  res_has_topology : bool;
  res_has_subdomains : bool
}.

Definition no_results : scan_results :=
  {| res_hosts := None; res_total_hosts := None; res_total_services := None;
     res_vulnerabilities := None; res_routes := None; res_certificates := None;
     res_records := None; res_has_topology := false; res_has_subdomains := false |}.

(** The text a launch hands to the parser: the decoded output of a
    process that was started and returned 0. *)
Definition output_of (r : result process) : option string :=
  match r with
  | Raises _ => None
  | Returns p =>
      if returncode p =? 0
      then match stdout p with
           | Returns text => Some text
           | Raises _ => None
           end
      else None
  end.

(** What the body of a [try] makes of that text: an exception of [use]
    leaves the results as they are. *)
Definition absorb (use : string -> scan_results -> result scan_results)
    (acc : scan_results) (output : option string) : scan_results :=
  match output with
  | None => acc
  | Some text =>
      match use text acc with
      | Returns acc' => acc'
      | Raises _ => acc
      end
  end.

(** One pass of a [for target in scan.targets: try: ... except Exception]
    loop: the tool is launched; when it returns 0 and its output decodes,
    [use] updates the results; every exception leaves them as they are. *)
Definition attempt (cmd : list string)
    (use : string -> scan_results -> result scan_results) (acc : scan_results)
  : M tools scan_results :=
  r <- create_subprocess_exec cmd ;;
  ret (absorb use acc (output_of r)).

Fixpoint for_targets (step : string -> scan_results -> M tools scan_results)
    (targets : list string) (acc : scan_results) : M tools scan_results :=
  match targets with
  | [] => ret acc
  | target :: rest => acc' <- step target acc ;; for_targets step rest acc'
  end.

(** [len(host_data.get("ports", []))]. *)
Definition ports_of (host : nmap_result) : list port_data :=
  match host with
  | Host h => hd_ports h
  | Error _ => []
  end.

Definition nmap_command (ports : option (list string)) (target : string)
  : list string :=
  ["nmap"; "-sS"; "-sV"; "-O"; "--script"; "default,safe"]%string ++
  match ports with
  | Some (p :: ps) => ["-p"; String.concat "," (p :: ps)]%string
  | _ => ["-p-"%string]
  end ++
  ["-oX"; "-"; target]%string.

Definition add_host (text : string) (acc : scan_results) : result scan_results :=
  let host_data := parse_nmap_xml fromstring py_int text in
  Returns {| res_hosts := option_map (fun hs => hs ++ [host_data]) (res_hosts acc);
             res_total_hosts := option_map (fun n => n + 1) (res_total_hosts acc);
             res_total_services :=
               option_map (fun n => n + Z.of_nat (length (ports_of host_data)))
                          (res_total_services acc);
             res_vulnerabilities := res_vulnerabilities acc;
             res_routes := res_routes acc;
             res_certificates := res_certificates acc;
             res_records := res_records acc;
             res_has_topology := res_has_topology acc;
             res_has_subdomains := res_has_subdomains acc |}.

Definition execute_port_scan (scan : Scan) : M tools scan_results :=
  for_targets
    (fun target => attempt (nmap_command (ports scan) target) add_host)
    (targets scan)
    {| res_hosts := Some []; res_total_hosts := Some 0; res_total_services := Some 0;
       res_vulnerabilities := Some []; res_routes := None; res_certificates := None;
       res_records := None; res_has_topology := false; res_has_subdomains := false |}.

(** The decimal text of an integer inside an f-string. *)
Definition str_of_int (n : Z) : string :=
  DecimalString.NilZero.string_of_int (Z.to_int n).

Definition check_service_vulnerabilities (port : port_data) : list finding :=
  let service := lower (pd_service port) in
  if String.eqb service "ssh" then
    [{| f_name := "SSH Service Detected"; f_severity := INFO;
        f_description := "SSH service running on port " +:+ str_of_int (pd_port port);
        f_host := None; f_port := None |}]
  else if String.eqb service "http" then
    [{| f_name := "HTTP Service Detected"; f_severity := INFO;
        f_description := "HTTP service running on port " +:+ str_of_int (pd_port port);
        f_host := None; f_port := None |}]
  else if String.eqb service "ftp" then
    [{| f_name := "FTP Service Detected"; f_severity := MEDIUM;
        f_description :=
          "FTP service running on port " +:+ str_of_int (pd_port port)
          +:+ " - check for anonymous access";
        f_host := None; f_port := None |}]
  else [].

(** The services that [check_service_vulnerabilities] reports. *)
Definition reported (p : port_data) : bool :=
  String.eqb (lower (pd_service p)) "ssh"
  || String.eqb (lower (pd_service p)) "http"
  || String.eqb (lower (pd_service p)) "ftp".

Definition set_vulnerabilities (r : scan_results) (v : list finding) : scan_results :=
  {| res_hosts := res_hosts r; res_total_hosts := res_total_hosts r;
     res_total_services := res_total_services r;
     res_vulnerabilities := Some v;
     res_routes := res_routes r; res_certificates := res_certificates r;
     res_records := res_records r; res_has_topology := res_has_topology r;
     res_has_subdomains := res_has_subdomains r |}.

Definition execute_vulnerability_scan (scan : Scan) : M tools scan_results :=
  port_results <- execute_port_scan scan ;;
  let vulnerabilities :=
    flat_map (fun host => flat_map check_service_vulnerabilities (ports_of host))
             (default [] (res_hosts port_results)) in
  ret (set_vulnerabilities port_results vulnerabilities).

Definition starts_with (prefix s : string) : bool :=
  String.prefix prefix s.

Definition add_findings (text : string) (acc : scan_results) : result scan_results :=
  let web_vulns := parse_nikto_results text in
  Returns (set_vulnerabilities acc (default [] (res_vulnerabilities acc) ++ web_vulns)).

Definition execute_web_scan (scan : Scan) : M tools scan_results :=
  for_targets
    (fun target =>
       let target :=
         if negb (starts_with "http://" target || starts_with "https://" target)
         then "http://" +:+ target else target in
       attempt ["nikto"; "-h"; target; "-Format"; "json"]%string add_findings)
    (targets scan)
    {| res_hosts := Some []; res_total_hosts := None; res_total_services := None;
       res_vulnerabilities := Some []; res_routes := None; res_certificates := None;
       res_records := None; res_has_topology := false; res_has_subdomains := false |}.

Definition add_routes (text : string) (acc : scan_results) : result scan_results :=
  match parse_traceroute text with
  | Raises e => Raises e
  | Returns hops =>
      Returns {| res_hosts := res_hosts acc; res_total_hosts := res_total_hosts acc;
                 res_total_services := res_total_services acc;
                 res_vulnerabilities := res_vulnerabilities acc;
                 res_routes := Some (default [] (res_routes acc) ++ hops);
                 res_certificates := res_certificates acc;
                 res_records := res_records acc;
                 res_has_topology := res_has_topology acc;
                 res_has_subdomains := res_has_subdomains acc |}
  end.

Definition execute_network_scan (scan : Scan) : M tools scan_results :=
  for_targets
    (fun target => attempt ["traceroute"; "-n"; target]%string add_routes)
    (targets scan)
    {| res_hosts := Some []; res_total_hosts := None; res_total_services := None;
       res_vulnerabilities := None; res_routes := Some []; res_certificates := None;
       res_records := None; res_has_topology := true; res_has_subdomains := false |}.

Definition execute_service_scan (scan : Scan) : M tools scan_results :=
  execute_port_scan scan.

Definition add_certificate (text : string) (acc : scan_results) : result scan_results :=
  let cert_info := parse_ssl_cert text in
  Returns {| res_hosts := res_hosts acc; res_total_hosts := res_total_hosts acc;
             res_total_services := res_total_services acc;
             res_vulnerabilities := res_vulnerabilities acc;
             res_routes := res_routes acc;
             res_certificates := Some (default [] (res_certificates acc) ++ [cert_info]);
             res_records := res_records acc;
             res_has_topology := res_has_topology acc;
             res_has_subdomains := res_has_subdomains acc |}.

Definition execute_ssl_scan (scan : Scan) : M tools scan_results :=
  for_targets
    (fun target =>
       attempt ["openssl"; "s_client"; "-connect"; target +:+ ":443"; "-showcerts"]%string
               add_certificate)
    (targets scan)
    {| res_hosts := None; res_total_hosts := None; res_total_services := None;
       res_vulnerabilities := Some []; res_routes := None; res_certificates := Some [];
       res_records := None; res_has_topology := false; res_has_subdomains := false |}.

Definition add_records (text : string) (acc : scan_results) : result scan_results :=
  let dns_records := parse_dig_output text in
  Returns {| res_hosts := res_hosts acc; res_total_hosts := res_total_hosts acc;
             res_total_services := res_total_services acc;
             res_vulnerabilities := res_vulnerabilities acc;
             res_routes := res_routes acc;
             res_certificates := res_certificates acc;
             res_records := Some (default [] (res_records acc) ++ dns_records);
             res_has_topology := res_has_topology acc;
             res_has_subdomains := res_has_subdomains acc |}.

Definition execute_dns_scan (scan : Scan) : M tools scan_results :=
  for_targets
    (fun target => attempt ["dig"; "ANY"; target]%string add_records)
    (targets scan)
    {| res_hosts := None; res_total_hosts := None; res_total_services := None;
       res_vulnerabilities := None; res_routes := None; res_certificates := None;
       res_records := Some []; res_has_topology := false; res_has_subdomains := true |}.

(** Rows of the [scan_results] and [vulnerabilities] tables, without the
    generated primary key. *)
Record ScanResult : Type := {
  sr_scan_id : string;
  sr_host : string;
  sr_port : option Z;
  sr_protocol : option string;
  sr_service : option string;
  sr_version : option string;
  sr_banner : option string;
  sr_os_guess : option string;
  sr_raw_data : nmap_result
}.

Record Vulnerability : Type := {
  v_scan_id : string;
  v_name : string;
  v_description : option string;
  v_severity : SeverityLevel;
  v_host : string;
  v_port : option Z;
  v_evidence : option string;
  v_solution : option string;
  v_references : option (list string)
}.

(** The session of the scan functions: the scans table, the rows of the
    two result tables, and the machine the tools run on. *)
Record world : Type := {
  w_database : database;
  w_scan_results : list ScanResult;
  w_vulnerabilities : list Vulnerability;
  w_tools : tools
}.

Definition on_tools {A} (c : M tools A) : M world A :=
  zoom w_tools
       (fun t w => {| w_database := w_database w;
                      w_scan_results := w_scan_results w;
                      w_vulnerabilities := w_vulnerabilities w;
                      w_tools := t |})
       c.

Definition on_database {A} (c : M database A) : M world A :=
  zoom w_database
       (fun d w => {| w_database := d;
                      w_scan_results := w_scan_results w;
                      w_vulnerabilities := w_vulnerabilities w;
                      w_tools := w_tools w |})
       c.

Definition utcnow : M world Z :=
  fun w => (Returns (utc (w_tools w) (length (launched (w_tools w)))), w).

(** [db.delete(scan)] followed by [commit]: the row of [scans] goes and,
    by the [cascade="all, delete-orphan"] of [Scan.results] and
    [Scan.vulnerabilities], so do the rows of [scan_results] and of
    [vulnerabilities] whose [scan_id] is the scan's. *)
Definition delete_row (scan_id : string) : M world unit :=
  fun w => (Returns tt,
            {| w_database :=
                 {| scans := delete scan_id (scans (w_database w));
                    db_now := db_now (w_database w) |};
               w_scan_results :=
                 List.filter (fun r => negb (String.eqb (sr_scan_id r) scan_id))
                             (w_scan_results w);
               w_vulnerabilities :=
                 List.filter (fun v => negb (String.eqb (v_scan_id v) scan_id))
                             (w_vulnerabilities w);
               w_tools := w_tools w |}).

(** The [DELETE /{scan_id}] endpoint. *)
Definition delete_scan (scan_id : string) (current_user : User)
  : M world string :=
  w <- get ;;
  match select_owned (w_database w) scan_id current_user with
  | None => raise (HTTPException HTTP_404_NOT_FOUND "Scan not found")
  | Some scan =>
      delete_row scan_id ;;;
      ret "Scan deleted successfully"
  end.

(** [db.add(row)]. *)
Definition add_rows (rs : list ScanResult) (vs : list Vulnerability) : M world unit :=
  fun w => (Returns tt,
            {| w_database := w_database w;
               w_scan_results := w_scan_results w ++ rs;
               w_vulnerabilities := w_vulnerabilities w ++ vs;
               w_tools := w_tools w |}).

Definition result_row (scan_id : string) (host : nmap_result) : ScanResult :=
  match host with
  | Host h =>
      let first := match hd_ports h with p :: _ => Some p | [] => None end in
      {| sr_scan_id := scan_id;
         sr_host := hd_address h;
         sr_port := option_map pd_port first;
         sr_protocol := option_map pd_protocol first;
         sr_service := option_map pd_service first;
         sr_version := option_map pd_version first;
         sr_banner := None;
         sr_os_guess := Some (hd_os h);
         sr_raw_data := host |}
  | Error _ =>
      {| sr_scan_id := scan_id;
         sr_host := "unknown";
         sr_port := None; sr_protocol := None; sr_service := None;
         sr_version := None; sr_banner := None; sr_os_guess := None;
         sr_raw_data := host |}
  end.

Definition vulnerability_row (scan_id : string) (vuln : finding) : Vulnerability :=
  {| v_scan_id := scan_id;
     v_name := f_name vuln;
     v_description := Some (f_description vuln);
     v_severity := f_severity vuln;
     v_host := default "unknown"%string (f_host vuln);
     v_port := f_port vuln;
     v_evidence := None;
     v_solution := None;
     v_references := None |}.

Definition set_statistics (s : Scan) (hosts services vulns : Z) : Scan :=
  {| created_at := created_at s; updated_at := updated_at s;
     user_id := user_id s; project_id := project_id s; name := name s;
     scan_type := scan_type s; status := status s; targets := targets s;
     ports := ports s; config := config s; options := options s;
     started_at := started_at s; completed_at := completed_at s;
     total_hosts := hosts; total_services := services;
     vulnerabilities_found := vulns |}.

Definition set_started_at (s : Scan) (t : Z) : Scan :=
  {| created_at := created_at s; updated_at := updated_at s;
     user_id := user_id s; project_id := project_id s; name := name s;
     scan_type := scan_type s; status := status s; targets := targets s;
     ports := ports s; config := config s; options := options s;
     started_at := Some t; completed_at := completed_at s;
     total_hosts := total_hosts s; total_services := total_services s;
     vulnerabilities_found := vulnerabilities_found s |}.

Definition set_completed_at (s : Scan) (t : Z) : Scan :=
  {| created_at := created_at s; updated_at := updated_at s;
     user_id := user_id s; project_id := project_id s; name := name s;
     scan_type := scan_type s; status := status s; targets := targets s;
     ports := ports s; config := config s; options := options s;
     started_at := started_at s; completed_at := Some t;
     total_hosts := total_hosts s; total_services := total_services s;
     vulnerabilities_found := vulnerabilities_found s |}.

(** The scan object is threaded through: the function returns it with the
    statistics set, after the rows were added and the session committed. *)
Definition process_scan_results (scan_id : string) (scan : Scan)
    (results : scan_results) : M world Scan :=
  add_rows (map (result_row scan_id) (default [] (res_hosts results)))
           (map (vulnerability_row scan_id) (default [] (res_vulnerabilities results))) ;;;
  let scan' :=
    set_statistics scan
      (default 0 (res_total_hosts results))
      (default 0 (res_total_services results))
      (Z.of_nat (length (default [] (res_vulnerabilities results)))) in
  on_database (commit_row scan_id scan') ;;;
  ret scan'.

(** [try: body except Exception: handler]. *)
Definition try_except {S A} (body : M S A) (handler : exn -> M S A) : M S A :=
  fun s => match body s with
           | (Returns a, s') => (Returns a, s')
           | (Raises e, s') => handler e s'
           end.

(** The chain [if scan.scan_type == ScanType.PORT: ... elif ...]; its
    last branch, for a type that is none of the seven, is never taken. *)
Definition run_executor (scan : Scan) : M tools scan_results :=
  match scan_type scan with
  | PORT => execute_port_scan scan
  | VULNERABILITY => execute_vulnerability_scan scan
  | WEB => execute_web_scan scan
  | NETWORK => execute_network_scan scan
  | SERVICE => execute_service_scan scan
  | SSL => execute_ssl_scan scan
  | DNS => execute_dns_scan scan
  end.

Definition execute_scan (scan_id : string) : M world unit :=
  w <- get ;;
  match scans (w_database w) !! scan_id with
  | None => ret tt
  | Some scan =>
      now <- utcnow ;;
      let scan := set_started_at (set_status scan RUNNING) now in
      on_database (commit_row scan_id scan) ;;;
      scan <-
        try_except
          (results <- on_tools (run_executor scan) ;;
           scan <- process_scan_results scan_id scan results ;;
           now <- utcnow ;;
           ret (set_completed_at (set_status scan COMPLETED) now))
          (fun _ => ret (set_status scan FAILED)) ;;
      on_database (commit_row scan_id scan)
  end.

(** The outputs that the [n] launches following the state [t] hand to the
    parsers, and the host entries that [execute_port_scan] makes of them. *)
Definition outputs (t : tools) (n : nat) : list (option string) :=
  map (fun i => output_of (outcome t (length (launched t) + i))) (seq 0 n).

Definition parsed_hosts (outs : list (option string)) : list nmap_result :=
  flat_map (fun o => match o with
                     | Some text => [parse_nmap_xml fromstring py_int text]
                     | None => []
                     end) outs.

End Executors.

End ScanExecution.

(* ===================================================================== *)
(** * auth.py: refreshing and checking a token *)
(* ===================================================================== *)

Module AuthEndpoints.

Import Models.

Record TokenResponse : Type := {
  t_access_token : Jwt.token;
  t_token_type : string
}.

Section Endpoints.

Variable secret_key : string.
Variable users : list User.

(** [refresh_token], behind the [get_current_user] dependency. *)
Definition refresh_token (now : Z) (credentials : Jwt.token) : result TokenResponse :=
  match Auth.get_current_user secret_key users now credentials with
  | Raises e => Raises e
  | Returns current_user =>
      match Security.create_access_token secret_key now
              (Jwt.Uuid (u_id current_user)) (u_role current_user) with
      | Raises e => Raises e
      | Returns new_token =>
          Returns {| t_access_token := new_token; t_token_type := "bearer" |}
      end
  end.

(** The [/verify/{token}] endpoint: the payload of a valid token. *)
Definition verify_token (now : Z) (token : Jwt.token) : result Jwt.claims :=
  match Security.verify_token secret_key now token with
  | Raises e => Raises e
  | Returns None =>
      Raises (HTTPException Auth.HTTP_401_UNAUTHORIZED "Invalid or expired token")
  | Returns (Some payload) => Returns payload
  end.

End Endpoints.

End AuthEndpoints.

(* ===================================================================== *)
(** * Further concrete inputs *)
(* ===================================================================== *)

Module Fixtures.

(** Two session entries as [active_sessions] may hold them: one whose
    stored QBER is exactly 0.11, one whose stored QBER is 0.5. *)
Definition boundary_session : QuantumEngine.session_data :=
  {| QuantumEngine.s_session_id := "s1";
     QuantumEngine.s_algorithm := "kyber768";
     QuantumEngine.s_public_key := "00";
     QuantumEngine.s_private_key := "00";
     QuantumEngine.s_quantum_key_id := "qk_one";
     QuantumEngine.s_quantum_key_checksum := "";
     QuantumEngine.s_qber := Some QuantumEngine.QBER_THRESHOLD;
     QuantumEngine.s_created_at := "";
     QuantumEngine.s_is_active := true |}.

Definition noisy_session : QuantumEngine.session_data :=
  {| QuantumEngine.s_session_id := "s2";
     QuantumEngine.s_algorithm := "falcon512";
     QuantumEngine.s_public_key := "00";
     QuantumEngine.s_private_key := "00";
     QuantumEngine.s_quantum_key_id := "qk_two";
     QuantumEngine.s_quantum_key_checksum := "";
     QuantumEngine.s_qber := Some 0x1p-1%float;
     QuantumEngine.s_created_at := "";
     QuantumEngine.s_is_active := true |}.

Definition session_engine : QuantumEngine.engine :=
  {| QuantumEngine.entropy := Examples.count_rng;
     QuantumEngine.clock := 1700000000;
     QuantumEngine.active_sessions :=
       <["s1" := boundary_session]> (<["s2" := noisy_session]> ∅) |}.

Definition envelope (key_id ciphertext : string) : QuantumEngine.encrypted_data :=
  {| QuantumEngine.e_ciphertext := ciphertext;
     QuantumEngine.e_key_id := key_id;
     QuantumEngine.e_algorithm := "kyber768";
     QuantumEngine.e_qber := None;
     QuantumEngine.e_timestamp := "" |}.


(** A rate-limit key that holds a counter and no expiry, as [INCR]
    leaves it when the [EXPIRE] that should follow never ran. *)
Definition stuck_server : Redis.server :=
  {| Redis.keyspace :=
       <["rl:api" := {| Redis.value := Redis.RInt 5; Redis.expires_at := None |}]> ∅;
     Redis.time := 1000 |}.

(** A toy JSON codec for the dictionaries with at most the key "k". *)
Definition toy_dumps (d : gmap string unit) : string :=
  match d !! "k"%string with
  | Some _ => "{k}"
  | None => "{}"
  end.

Definition toy_loads (s : string) : result (gmap string unit) :=
  if String.eqb s "{k}" then Returns (<["k"%string := tt]> ∅)
  else if String.eqb s "{}" then Returns ∅
  else Raises (ValueError "Expecting value").

Definition one_key : gmap string unit := <["k"%string := tt]> ∅.

(** A document in which a closed port carries a service name where its
    number should be. *)
Definition named_port_xml : string :=
  "<nmaprun><host><address addr='10.0.0.3' addrtype='ipv4'/><ports><port protocol='tcp' portid='22'><state state='open'/><service name='ssh' version='8.9'/></port><port protocol='tcp' portid='http'><state state='closed'/><service name='' version=''/></port></ports></host></nmaprun>".

Definition named_port : ET.element := Examples.port_element "http" "closed" "" "".

Definition named_port_doc : ET.element :=
  ET.Element "nmaprun" []
    [Examples.host_element "10.0.0.3"
       [Examples.port_element "22" "open" "ssh" "8.9"; named_port]].

(** Two machines for the tools: one on which every tool exits with
    status 1, one on which every tool prints the single-host report. *)
Definition failing_tools : ScanExecution.tools :=
  {| ScanExecution.outcome :=
       fun _ => Returns {| ScanExecution.returncode := 1;
                           ScanExecution.stdout := Returns ""%string |};
     ScanExecution.launched := [];
     ScanExecution.utc := fun n => 5000 + Z.of_nat n |}.

Definition working_tools : ScanExecution.tools :=
  {| ScanExecution.outcome :=
       fun _ => Returns {| ScanExecution.returncode := 0;
                           ScanExecution.stdout := Returns Examples.single_host_xml |};
     ScanExecution.launched := [];
     ScanExecution.utc := fun n => 5000 + Z.of_nat n |}.

Definition scan_world (t : ScanExecution.tools) : ScanExecution.world :=
  {| ScanExecution.w_database := Examples.example_db;
     ScanExecution.w_scan_results := [];
     ScanExecution.w_vulnerabilities := [];
     ScanExecution.w_tools := t |}.

(** The same scans with rows in the result tables: a host and a finding
    of "scan-1", a host of "scan-2". *)
Definition host_row (scan_id address : string) : ScanExecution.ScanResult :=
  {| ScanExecution.sr_scan_id := scan_id;
     ScanExecution.sr_host := address;
     ScanExecution.sr_port := None;
     ScanExecution.sr_protocol := None;
     ScanExecution.sr_service := None;
     ScanExecution.sr_version := None;
     ScanExecution.sr_banner := None;
     ScanExecution.sr_os_guess := None;
     ScanExecution.sr_raw_data := Scans.Error "Failed to parse nmap output" |}.

Definition ssh_row (scan_id : string) : ScanExecution.Vulnerability :=
  {| ScanExecution.v_scan_id := scan_id;
     ScanExecution.v_name := "SSH Service Detected";
     ScanExecution.v_description := None;
     ScanExecution.v_severity := ScanExecution.INFO;
     ScanExecution.v_host := "unknown";
     ScanExecution.v_port := None;
     ScanExecution.v_evidence := None;
     ScanExecution.v_solution := None;
     ScanExecution.v_references := None |}.

Definition scanned_world : ScanExecution.world :=
  {| ScanExecution.w_database := Examples.example_db;
     ScanExecution.w_scan_results :=
       [host_row "scan-1" "10.0.0.1"; host_row "scan-2" "10.0.0.9"];
     ScanExecution.w_vulnerabilities := [ssh_row "scan-1"];
     ScanExecution.w_tools := failing_tools |}.

(** Stand-ins for the parsers that the port scan does not call. *)
Definition no_findings (s : string) : list ScanExecution.finding := [].
Definition no_hops (s : string) : result (list unit) := Returns [].
Definition no_cert (s : string) : unit := tt.
Definition no_records (s : string) : list unit := [].
Definition as_is (s : string) : string := s.

Definition single_host_parser : string -> result ET.element :=
  Examples.parsed_as Examples.single_host_xml Examples.single_host_doc.

(** A token with alice's id as subject, signed at time 1000 for seven
    days, and a login under a name nobody has. *)
Definition alice_token : Jwt.token :=
  Jwt.Signed {| Jwt.sub := "user-1"; Jwt.role := "operator";
                Jwt.exp := 1000 + 604800; Jwt.iat := 1000 |} "s3cret".

Definition mallory_login : Auth.LoginRequest :=
  {| Auth.lr_username := "mallory"; Auth.lr_password := "guess" |}.

Definition alice_wrong_password : Auth.LoginRequest :=
  {| Auth.lr_username := "alice"; Auth.lr_password := "guess" |}.

End Fixtures.

(* ===================================================================== *)
(** * Properties *)
(* ===================================================================== *)

(** ** Total correctness in the state-and-error monad *)

Lemma returns_ret {S A} (a : A) (P : A -> Prop) :
  P a -> returns (S := S) (ret a) P.
Proof. intros H s. exists a, s. split; [reflexivity | exact H]. Qed.

Lemma returns_bind {S A B} (c : M S A) (k : A -> M S B)
    (P : A -> Prop) (Q : B -> Prop) :
  returns c P -> (forall a, P a -> returns (k a) Q) -> returns (bind c k) Q.
Proof.
  intros Hc Hk s. destruct (Hc s) as (a & s1 & E & Pa).
  destruct (Hk a Pa s1) as (b & s2 & E2 & Qb).
  exists b, s2. unfold bind. rewrite E. split; assumption.
Qed.

Lemma mapR_app {A B} (f : A -> result B) (l1 l2 : list A) (r : list B) :
  mapR f (l1 ++ l2) = Returns r ->
  exists r1 r2, mapR f l1 = Returns r1 /\ mapR f l2 = Returns r2 /\ r = r1 ++ r2.
Proof.
  revert r. induction l1 as [|a l1 IH]; intros r H; simpl in *.
  - exists [], r. auto.
  - destruct (f a) as [b|e]; [| discriminate].
    destruct (mapR f (l1 ++ l2)) as [r'|e] eqn:E; [| discriminate].
    inversion H; subst. destruct (IH r' eq_refl) as (r1 & r2 & E1 & E2 & ->).
    rewrite E1. exists (b :: r1), r2. auto.
Qed.

Lemma index_all_returns {A} (l : list A) (P : A -> Prop) (idx : list nat) :
  Forall (fun i => (i < length l)%nat) idx -> Forall P l ->
  exists r, index_all l idx = Returns r /\ length r = length idx /\ Forall P r.
Proof.
  intros Hidx HP. unfold index_all.
  induction Hidx as [|i idx Hi _ IH]; cbn [mapR].
  - exists []. repeat split. constructor.
  - destruct IH as (r & E & Hl & Hr).
    destruct (lookup_lt_is_Some_2 l i Hi) as [a Ha].
    unfold index at 1. rewrite Ha, E. exists (a :: r). repeat split.
    + simpl. congruence.
    + constructor; [| exact Hr].
      rewrite List.Forall_forall in HP. apply HP.
      apply list_elem_of_In, list_elem_of_lookup. eauto.
Qed.

Lemma enumerate_fst_lt {A} (l : list A) (p : nat * A) :
  In p (enumerate l) -> (fst p < length l)%nat.
Proof.
  unfold enumerate. intros H. destruct p as [i a].
  apply list_elem_of_In, elem_of_zip_l in H. apply list_elem_of_In, in_seq in H.
  simpl. lia.
Qed.

Lemma filter_enumerate_fst_lt {A} (f : nat * A -> bool) (l : list A) :
  Forall (fun i => (i < length l)%nat) (map fst (List.filter f (enumerate l))).
Proof.
  apply List.Forall_forall. intros i Hi. apply in_map_iff in Hi.
  destruct Hi as (p & <- & Hp). apply filter_In in Hp. destruct Hp as [Hp _].
  apply enumerate_fst_lt. exact Hp.
Qed.

(** ** The [secrets] draws *)

Lemma returns_next : returns Secrets.next (fun _ => True).
Proof. intros g. eexists _, _. split; [reflexivity | exact I]. Qed.

Lemma returns_randbelow (n : Z) :
  0 < n -> returns (Secrets.randbelow n) (fun r => 0 <= r < n).
Proof.
  intros Hn. unfold Secrets.randbelow.
  destruct (Z.leb_spec n 0) as [H|H]; [lia |].
  eapply returns_bind; [apply returns_next |]. intros r _.
  apply returns_ret. apply Z.mod_pos_bound. exact Hn.
Qed.

Lemma returns_choice {A} (d : A) (rest : list A) :
  returns (Secrets.choice (d :: rest)) (fun x => In x (d :: rest)).
Proof.
  unfold Secrets.choice.
  eapply returns_bind; [apply returns_randbelow; cbn [length]; lia |].
  intros i Hi. apply returns_ret. cbn beta in Hi. apply nth_In.
  cbn [length] in *. lia.
Qed.

Lemma draw_bytes_tape (n : nat) : forall g : Secrets.rng,
  repeatM n (r <- Secrets.next ;; ret (r mod 256)) g =
    (Returns (Secrets.drawn g n), Secrets.skip g n).
Proof.
  unfold Secrets.drawn, Secrets.skip.
  induction n as [|n IH]; intros [tape cursor].
  - cbn. rewrite Nat.add_0_r. reflexivity.
  - cbn [repeatM]. unfold bind at 1. unfold bind at 1.
    cbn [Secrets.next ret Secrets.tape Secrets.cursor].
    unfold bind at 1. rewrite IH. unfold ret. cbn [Secrets.tape Secrets.cursor].
    cbn [seq map]. rewrite Nat.add_0_r, <- seq_shift, map_map.
    f_equal; [f_equal; f_equal | f_equal; lia].
    apply map_ext. intros i. f_equal. f_equal. lia.
Qed.

(** [token_bytes(n)] returns the next [n] bytes of the tape and moves the
    cursor past them. *)
Lemma token_bytes_draws (n : nat) (g : Secrets.rng) :
  Secrets.token_bytes (Z.of_nat n) g =
    (Returns (Secrets.drawn g n), Secrets.skip g n).
Proof.
  unfold Secrets.token_bytes. destruct (Z.ltb_spec (Z.of_nat n) 0); [lia |].
  rewrite Nat2Z.id. apply draw_bytes_tape.
Qed.

Lemma drawn_length (g : Secrets.rng) (n : nat) : length (Secrets.drawn g n) = n.
Proof. unfold Secrets.drawn. rewrite length_map, length_seq. reflexivity. Qed.

Lemma drawn_is_bytes (g : Secrets.rng) (n : nat) :
  Forall is_byte (Secrets.drawn g n).
Proof.
  unfold Secrets.drawn. apply List.Forall_forall. intros x Hx.
  apply in_map_iff in Hx. destruct Hx as (i & <- & _).
  apply Z.mod_pos_bound. lia.
Qed.

Lemma drawn_nonempty (g : Secrets.rng) (n : nat) : Secrets.drawn g (S n) <> [].
Proof. unfold Secrets.drawn. cbn [seq map]. discriminate. Qed.

(** [n] calls of [choice] on a non-empty sequence read [n] words of the
    tape. *)
Lemma repeat_choice_draws {A} (d : A) (rest : list A) (n : nat) :
  forall g : Secrets.rng,
    exists l,
      repeatM n (Secrets.choice (d :: rest)) g = (Returns l, Secrets.skip g n) /\
      length l = n /\ Forall (fun x => In x (d :: rest)) l.
Proof.
  induction n as [|n IH]; intros g.
  - exists []. cbn. unfold Secrets.skip. rewrite Nat.add_0_r. destruct g.
    repeat split. constructor.
  - cbn [repeatM]. unfold bind at 1.
    destruct (returns_choice d rest g) as (a & g1 & E & Ha). rewrite E.
    assert (G : g1 = Secrets.skip g 1).
    { unfold Secrets.choice, Secrets.randbelow in E.
      destruct (Z.leb_spec (Z.of_nat (length (d :: rest))) 0) as [H|H];
        [cbn [length] in H; lia |].
      unfold bind, Secrets.next, ret in E. inversion E.
      unfold Secrets.skip. f_equal. lia. }
    subst g1. destruct (IH (Secrets.skip g 1)) as (l & El & Hl & Fl).
    unfold bind. rewrite El. exists (a :: l). unfold ret.
    split; [| split; [simpl; congruence | constructor; assumption]].
    f_equal. unfold Secrets.skip. cbn. f_equal. lia.
Qed.

(** ** quantum_engine.py: packing bits *)

Lemma lor_below_256 (a b : Z) :
  0 <= a < 256 -> 0 <= b < 256 -> 0 <= Z.lor a b < 256.
Proof.
  intros Ha Hb. split; [apply Z.lor_nonneg; lia |].
  destruct (Z.eq_dec a 0) as [->|Na]; [rewrite Z.lor_0_l; lia |].
  destruct (Z.eq_dec b 0) as [->|Nb]; [rewrite Z.lor_0_r; lia |].
  change 256 with (2 ^ 8). apply Z.log2_lt_pow2.
  - assert (0 <= Z.lor a b) by (apply Z.lor_nonneg; lia).
    assert (Z.lor a b <> 0) by (intros E; apply Z.lor_eq_0_iff in E; lia). lia.
  - rewrite Z.log2_lor by lia.
    assert (Z.log2 a < 8) by (apply Z.log2_lt_pow2; lia).
    assert (Z.log2 b < 8) by (apply Z.log2_lt_pow2; lia). lia.
Qed.

Lemma shifted_bit_below_256 (x : Z) (j : nat) :
  is_bit x -> (j < 8)%nat -> 0 <= Z.shiftl x (7 - Z.of_nat j) < 256.
Proof.
  intros [-> | ->] Hj.
  - rewrite Z.shiftl_0_l. lia.
  - rewrite Z.shiftl_1_l. split; [apply Z.pow_nonneg; lia |].
    change 256 with (2 ^ 8). apply Z.pow_lt_mono_r; lia.
Qed.

Lemma pack_byte_below_256 (bits : list Z) (i : nat) :
  Forall is_bit bits -> 0 <= QuantumEngine.pack_byte bits i < 256.
Proof.
  intros Hb. unfold QuantumEngine.pack_byte.
  assert (G : forall (js : list nat) (acc : Z),
             Forall (fun j => (j < 8)%nat) js -> 0 <= acc < 256 ->
             0 <= fold_left
                    (fun byte j =>
                       Z.lor byte (Z.shiftl (nth (i + j) bits 0) (7 - Z.of_nat j)))
                    js acc < 256).
  { induction js as [|j js IH]; intros acc Hjs Hacc; simpl; [exact Hacc |].
    inversion Hjs; subst. apply IH; [assumption |].
    apply lor_below_256; [exact Hacc |].
    apply shifted_bit_below_256; [| assumption].
    destruct (nth_in_or_default (i + j) bits 0) as [Hin | ->]; [| left; reflexivity].
    rewrite List.Forall_forall in Hb. apply Hb. exact Hin. }
  apply G; [| lia].
  apply List.Forall_forall. intros j Hj. apply in_seq in Hj. lia.
Qed.

Lemma append_check_returns (v : Z) :
  0 <= v < 256 -> QuantumEngine.append_check v = Returns v.
Proof.
  intros [H0 H1]. unfold QuantumEngine.append_check.
  destruct (Z.leb_spec 0 v); [| lia]. destruct (Z.ltb_spec v 256); [| lia].
  reflexivity.
Qed.

(** On a list of bits, every packed byte fits a [bytearray]. *)
Lemma bits_to_bytes_returns (bits : list Z) :
  Forall is_bit bits ->
  exists b, QuantumEngine._bits_to_bytes bits = Returns b.
Proof.
  intros Hb. unfold QuantumEngine._bits_to_bytes.
  generalize (seq 0 ((length bits + 7) / 8)%nat). intros cs.
  induction cs as [|c cs [b E]]; cbn [mapR]; [eexists; reflexivity |].
  rewrite append_check_returns by (apply pack_byte_below_256; exact Hb).
  rewrite E. eexists; reflexivity.
Qed.

(** ** quantum_engine.py: the BB84 simulation *)

Lemma ltb_threshold_irrefl :
  PrimFloat.ltb QuantumEngine.QBER_THRESHOLD QuantumEngine.QBER_THRESHOLD = false.
Proof. vm_compute. reflexivity. Qed.

(** The verdict expressions of the metadata are the relation it is meant
    to report: "PASSED" exactly below the threshold, the flag exactly
    above it, "FAILED" and no flag at the threshold. *)
Lemma security_verdict_follows_threshold (qber : float) :
  (QuantumEngine.security_check qber = "PASSED"%string <->
   PrimFloat.ltb qber QuantumEngine.QBER_THRESHOLD = true) /\
  (QuantumEngine.security_check qber = "PASSED"%string \/
   QuantumEngine.security_check qber = "FAILED"%string) /\
  (QuantumEngine.eavesdropping_detected qber = true <->
   PrimFloat.ltb QuantumEngine.QBER_THRESHOLD qber = true) /\
  (qber = QuantumEngine.QBER_THRESHOLD ->
   QuantumEngine.security_check qber = "FAILED"%string /\
   QuantumEngine.eavesdropping_detected qber = false).
Proof.
  unfold QuantumEngine.security_check, QuantumEngine.eavesdropping_detected.
  split; [| split; [| split; [reflexivity |]]].
  - destruct (PrimFloat.ltb _ _); split; congruence.
  - destruct (PrimFloat.ltb _ _); [left | right]; reflexivity.
  - intros ->. rewrite ltb_threshold_irrefl. split; reflexivity.
Qed.

(** A draw on the engine's entropy source. *)
Lemma rand_run {A} (c : M Secrets.rng A) (e : QuantumEngine.engine)
    (r : result A) (g' : Secrets.rng) :
  c (QuantumEngine.entropy e) = (r, g') ->
  QuantumEngine.rand c e =
    (r, {| QuantumEngine.entropy := g';
           QuantumEngine.clock := QuantumEngine.clock e;
           QuantumEngine.active_sessions := QuantumEngine.active_sessions e |}).
Proof. intros H. unfold QuantumEngine.rand, zoom. rewrite H. reflexivity. Qed.

Lemma rand_choices {A} (d : A) (rest : list A) (n : nat) (e : QuantumEngine.engine) :
  exists l,
    QuantumEngine.rand (repeatM n (Secrets.choice (d :: rest))) e =
      (Returns l, QuantumEngine.after_draw e n) /\
    length l = n /\ Forall (fun x => In x (d :: rest)) l.
Proof.
  destruct (repeat_choice_draws d rest n (QuantumEngine.entropy e))
    as (l & E & Hl & Fl).
  exists l. split; [| split; assumption].
  rewrite (rand_run _ e _ _ E). reflexivity.
Qed.

Section QkdRuns.

Variable sha256_hexdigest : bytes -> string.
Variable urlsafe_b64 : bytes -> string.

(** C1.  No run of [simulate_qkd_protocol] returns metadata: after the
    three lists of [num_qubits] choices are drawn and the sifted key is
    built, the lookup [secrets.sample] raises AttributeError, for every
    session id, qubit count and state of the engine; the sessions and the
    clock are as before and [3 * num_qubits] words of entropy are
    spent. *)
Theorem simulate_qkd_protocol_always_raises (session_id : string)
    (num_qubits : Z) (e : QuantumEngine.engine) :
  QuantumEngine.simulate_qkd_protocol sha256_hexdigest urlsafe_b64
    session_id num_qubits e =
    (Raises (AttributeError "module 'secrets' has no attribute 'sample'"),
     QuantumEngine.after_draw e (3 * Z.to_nat num_qubits)).
Proof.
  unfold QuantumEngine.simulate_qkd_protocol.
  set (n := Z.to_nat num_qubits).
  destruct (rand_choices "+"%string ["x"%string] n e) as (alice_bases & E1 & L1 & _).
  destruct (rand_choices 0 [1] n (QuantumEngine.after_draw e n))
    as (alice_bits & E2 & L2 & _).
  destruct (rand_choices "+"%string ["x"%string] n
              (QuantumEngine.after_draw (QuantumEngine.after_draw e n) n))
    as (bob_bases & E3 & L3 & _).
  unfold bind at 1. rewrite E1. unfold bind at 1. rewrite E2.
  unfold bind at 1. rewrite E3.
  set (matching := map fst (List.filter _ (enumerate (zip alice_bases bob_bases)))).
  assert (Hm : Forall (fun i => (i < length alice_bits)%nat) matching).
  { eapply Forall_impl; [apply filter_enumerate_fst_lt |].
    intros i Hi. simpl in Hi. rewrite length_zip in Hi. lia. }
  destruct (index_all_returns alice_bits (fun _ => True) matching Hm)
    as (sifted & Es & _ & _).
  { apply List.Forall_forall. intros; exact I. }
  rewrite Es. unfold bind at 1, lift_result at 1.
  unfold bind at 1. unfold QuantumEngine.rand at 1, zoom, Secrets.sample, raise.
  f_equal. unfold QuantumEngine.after_draw, Secrets.skip. cbn. f_equal. f_equal. lia.
Qed.

End QkdRuns.

(** ** quantum_engine.py: the XOR stream *)

Lemma symmetric_encrypt_stream (key plaintext : bytes) :
  key <> [] ->
  QuantumEngine._symmetric_encrypt key plaintext =
    Returns (zip_with Z.lxor plaintext
               (QuantumEngine.key_stream key (length plaintext))).
Proof. intros H. destruct key; [congruence | reflexivity]. Qed.

Lemma length_concat_replicate {A} (k : nat) (l : list A) :
  length (concat (replicate k l)) = (k * length l)%nat.
Proof.
  induction k as [|k IH]; simpl; [reflexivity |].
  rewrite length_app, IH. reflexivity.
Qed.

Lemma key_stream_length (key : bytes) (n : nat) :
  key <> [] -> length (QuantumEngine.key_stream key n) = n.
Proof.
  intros H. unfold QuantumEngine.key_stream.
  rewrite length_take, length_concat_replicate.
  assert (0 < length key)%nat by (destruct key; [congruence | simpl; lia]).
  pose proof (Nat.div_mod_eq n (length key)).
  pose proof (Nat.mod_upper_bound n (length key) ltac:(lia)). nia.
Qed.

Lemma xor_twice (p k : list Z) :
  length k = length p -> zip_with Z.lxor (zip_with Z.lxor p k) k = p.
Proof.
  revert k. induction p as [|x p IH]; intros [|y k] H; simpl in *;
    try reflexivity; try lia.
  rewrite IH by lia. f_equal.
  rewrite Z.lxor_assoc, Z.lxor_nilpotent, Z.lxor_0_r. reflexivity.
Qed.

(** Under one and the same key the XOR stream is its own inverse. *)
Lemma symmetric_round_trip (key plaintext ciphertext : bytes) :
  key <> [] ->
  QuantumEngine._symmetric_encrypt key plaintext = Returns ciphertext ->
  QuantumEngine._symmetric_decrypt key ciphertext = Returns plaintext.
Proof.
  intros Hk He. rewrite symmetric_encrypt_stream in He by exact Hk.
  inversion He; subst ciphertext; clear He.
  unfold QuantumEngine._symmetric_decrypt.
  rewrite symmetric_encrypt_stream by exact Hk.
  rewrite length_zip_with, key_stream_length, Nat.min_id by exact Hk.
  rewrite xor_twice; [reflexivity | apply key_stream_length; exact Hk].
Qed.

Lemma hex_val_digit (v : Z) :
  0 <= v < 16 -> Hex.hex_val (Hex.hex_digit v) = Some v.
Proof.
  intros H.
  assert (C : v = 0 \/ v = 1 \/ v = 2 \/ v = 3 \/ v = 4 \/ v = 5 \/ v = 6 \/ v = 7 \/
              v = 8 \/ v = 9 \/ v = 10 \/ v = 11 \/ v = 12 \/ v = 13 \/ v = 14 \/
              v = 15) by lia.
  repeat (destruct C as [-> | C]; [reflexivity |]). subst. reflexivity.
Qed.

Lemma fromhex_hex (b : bytes) :
  Forall is_byte b -> Hex.fromhex (Hex.hex b) = Returns b.
Proof.
  intros Hb. unfold Hex.fromhex.
  assert (G : Hex.fromhex_aux (list_ascii_of_string (Hex.hex b)) None = Some b).
  { induction Hb as [|x b Hx _ IH]; [reflexivity |].
    cbn [Hex.hex list_ascii_of_string Hex.fromhex_aux].
    unfold is_byte in Hx.
    rewrite hex_val_digit
      by (split; [apply Z.div_pos; lia | apply Z.div_lt_upper_bound; lia]).
    rewrite hex_val_digit by (apply Z.mod_pos_bound; lia).
    rewrite IH. f_equal. f_equal.
    pose proof (Z.div_mod x 16 ltac:(lia)). lia. }
  rewrite G. reflexivity.
Qed.

Lemma lxor_is_byte (a b : Z) : is_byte a -> is_byte b -> is_byte (Z.lxor a b).
Proof.
  unfold is_byte. intros Ha Hb. split; [apply Z.lxor_nonneg; lia |].
  destruct (Z.eq_dec (Z.lxor a b) 0) as [E|N]; [lia |].
  change 256 with (2 ^ 8). apply Z.log2_lt_pow2.
  - assert (0 <= Z.lxor a b) by (apply Z.lxor_nonneg; lia). lia.
  - pose proof (Z.log2_lxor a b ltac:(lia) ltac:(lia)).
    assert (Z.log2 a < 8).
    { destruct (Z.eq_dec a 0) as [->|]; [cbn; lia | apply Z.log2_lt_pow2; lia]. }
    assert (Z.log2 b < 8).
    { destruct (Z.eq_dec b 0) as [->|]; [cbn; lia | apply Z.log2_lt_pow2; lia]. }
    lia.
Qed.

Lemma zip_xor_bytes (p k : bytes) :
  Forall is_byte p -> Forall is_byte k -> Forall is_byte (zip_with Z.lxor p k).
Proof.
  intros Hp. revert k. induction Hp as [|x p Hx _ IH]; intros k Hk; [constructor |].
  destruct Hk as [|y k Hy Hk]; [constructor |]. simpl. constructor.
  - apply lxor_is_byte; assumption.
  - apply IH. exact Hk.
Qed.

(** ** quantum_engine.py: session keys *)

Lemma key_stream_head (a : Z) (k : bytes) (n : nat) :
  exists rest, QuantumEngine.key_stream (a :: k) (S n) = a :: rest.
Proof.
  unfold QuantumEngine.key_stream. rewrite Nat.add_1_r.
  cbn [replicate concat app take]. eexists. reflexivity.
Qed.

Lemma lxor_cancel_l (x a b : Z) : Z.lxor (Z.lxor x a) b = x -> a = b.
Proof.
  intros H. apply Z.lxor_eq.
  rewrite Z.lxor_assoc in H. apply (f_equal (Z.lxor x)) in H.
  rewrite <- Z.lxor_assoc, Z.lxor_nilpotent, Z.lxor_0_l in H. exact H.
Qed.

Lemma drawn_head (g : Secrets.rng) (n : nat) :
  exists tl,
    Secrets.drawn g (S n) = Secrets.tape g (Secrets.cursor g) mod 256 :: tl.
Proof.
  unfold Secrets.drawn. cbn [seq map]. rewrite Nat.add_0_r. eexists. reflexivity.
Qed.

Section QuantumRoundTrip.

Variable isoformat : Z -> string.
Variable fromisoformat : string -> result Z.

(** [get_session_key] takes the key id, checksum and QBER from the session
    and draws the key material anew at every call. *)
Lemma get_session_key_fresh_material (e : QuantumEngine.engine)
    (session_id : string) (session : QuantumEngine.session_data)
    (alg : QuantumEngine.QuantumAlgorithm) (created : Z) :
  QuantumEngine.active_sessions e !! session_id = Some session ->
  QuantumEngine.QuantumAlgorithm_of_value (QuantumEngine.s_algorithm session) =
    Returns alg ->
  fromisoformat (QuantumEngine.s_created_at session) = Returns created ->
  QuantumEngine.get_session_key fromisoformat session_id e =
    (Returns
       (Some {| QuantumEngine.key_id := QuantumEngine.s_quantum_key_id session;
                QuantumEngine.key_material :=
                  Secrets.drawn (QuantumEngine.entropy e) 32;
                QuantumEngine.key_size := 256;
                QuantumEngine.key_type := QuantumEngine.SYMMETRIC;
                QuantumEngine.algorithm := alg;
                QuantumEngine.generated_at := created;
                QuantumEngine.checksum :=
                  QuantumEngine.s_quantum_key_checksum session;
                QuantumEngine.qber := QuantumEngine.s_qber session |}),
     QuantumEngine.after_draw e 32).
Proof.
  intros Hs Ha Hc. unfold QuantumEngine.get_session_key, bind, get. rewrite Hs.
  unfold QuantumEngine.rand, zoom. rewrite (token_bytes_draws 32).
  unfold lift_result. rewrite Ha, Hc. reflexivity.
Qed.

(** Encrypting and then decrypting on one session XORs the text with two
    key streams, the first made of the 32 bytes drawn by [quantum_encrypt]
    and the second of the next 32 bytes, drawn by [quantum_decrypt]. *)
Lemma quantum_round_trip_two_draws (e : QuantumEngine.engine)
    (session_id : string) (session : QuantumEngine.session_data)
    (alg : QuantumEngine.QuantumAlgorithm) (created : Z) (plaintext : bytes) :
  QuantumEngine.active_sessions e !! session_id = Some session ->
  QuantumEngine.QuantumAlgorithm_of_value (QuantumEngine.s_algorithm session) =
    Returns alg ->
  fromisoformat (QuantumEngine.s_created_at session) = Returns created ->
  QuantumEngine.qber_too_high (QuantumEngine.s_qber session) = false ->
  Forall is_byte plaintext ->
  (data <- QuantumEngine.quantum_encrypt isoformat fromisoformat session_id plaintext ;;
   QuantumEngine.quantum_decrypt fromisoformat session_id data) e =
    (Returns
       (zip_with Z.lxor
          (zip_with Z.lxor plaintext
             (QuantumEngine.key_stream
                (Secrets.drawn (QuantumEngine.entropy e) 32) (length plaintext)))
          (QuantumEngine.key_stream
             (Secrets.drawn (Secrets.skip (QuantumEngine.entropy e) 32) 32)
             (length plaintext))),
     QuantumEngine.after_draw (QuantumEngine.after_draw e 32) 32).
Proof.
  intros Hs Ha Hc Hq Hp.
  unfold bind at 1. unfold QuantumEngine.quantum_encrypt. unfold bind at 1.
  rewrite (get_session_key_fresh_material e session_id session alg created Hs Ha Hc).
  cbn [QuantumEngine.key_material].
  rewrite symmetric_encrypt_stream by apply drawn_nonempty.
  unfold bind, lift_result, QuantumEngine.utcnow, ret.
  cbn [QuantumEngine.key_id QuantumEngine.algorithm QuantumEngine.qber].
  unfold QuantumEngine.quantum_decrypt, bind.
  rewrite (get_session_key_fresh_material (QuantumEngine.after_draw e 32)
             session_id session alg created Hs Ha Hc).
  cbn [QuantumEngine.key_id QuantumEngine.e_key_id QuantumEngine.qber
       QuantumEngine.e_ciphertext QuantumEngine.key_material].
  rewrite String.eqb_refl. cbn [negb]. rewrite Hq. unfold lift_result.
  rewrite fromhex_hex.
  - unfold QuantumEngine._symmetric_decrypt.
    rewrite symmetric_encrypt_stream by apply drawn_nonempty.
    rewrite length_zip_with, key_stream_length, Nat.min_id by apply drawn_nonempty.
    reflexivity.
  - apply zip_xor_bytes; [exact Hp |].
    unfold QuantumEngine.key_stream. apply Forall_take.
    apply Forall_concat. apply Forall_replicate. apply drawn_is_bytes.
Qed.

(** Whenever the two draws differ in their first byte, a non-empty
    plaintext does not come back. *)
Lemma quantum_round_trip_loses_plaintext (e : QuantumEngine.engine)
    (session_id : string) (session : QuantumEngine.session_data)
    (alg : QuantumEngine.QuantumAlgorithm) (created : Z) (x : Z) (rest : bytes) :
  QuantumEngine.active_sessions e !! session_id = Some session ->
  QuantumEngine.QuantumAlgorithm_of_value (QuantumEngine.s_algorithm session) =
    Returns alg ->
  fromisoformat (QuantumEngine.s_created_at session) = Returns created ->
  QuantumEngine.qber_too_high (QuantumEngine.s_qber session) = false ->
  Forall is_byte (x :: rest) ->
  Secrets.tape (QuantumEngine.entropy e) (Secrets.cursor (QuantumEngine.entropy e))
    mod 256 <>
  Secrets.tape (QuantumEngine.entropy e)
    (Secrets.cursor (QuantumEngine.entropy e) + 32)%nat mod 256 ->
  exists out e',
    (data <- QuantumEngine.quantum_encrypt isoformat fromisoformat session_id
               (x :: rest) ;;
     QuantumEngine.quantum_decrypt fromisoformat session_id data) e =
      (Returns out, e') /\
    out <> x :: rest.
Proof.
  intros Hs Ha Hc Hq Hp Hdiff.
  rewrite (quantum_round_trip_two_draws e session_id session alg created
             (x :: rest) Hs Ha Hc Hq Hp).
  eexists _, _. split; [reflexivity |].
  destruct (drawn_head (QuantumEngine.entropy e) 31) as [t1 D1].
  destruct (drawn_head (Secrets.skip (QuantumEngine.entropy e) 32) 31) as [t2 D2].
  rewrite D1, D2. cbn [length].
  match goal with
  | |- context [QuantumEngine.key_stream (?a :: t1) _] =>
      destruct (key_stream_head a t1 (length rest)) as [r1 E1]; rewrite E1
  end.
  match goal with
  | |- context [QuantumEngine.key_stream (?b :: t2) _] =>
      destruct (key_stream_head b t2 (length rest)) as [r2 E2]; rewrite E2
  end.
  cbn [zip_with]. intros H. inversion H as [[Hx Hrest]].
  apply lxor_cancel_l in Hx. apply Hdiff. exact Hx.
Qed.

End QuantumRoundTrip.

(** C2, evaluated.  On an engine whose [active_sessions] holds the entry
    [Examples.stored_session] under "s1" (QBER 0.04, below the limit), the
    plaintext [b"Hi"] encrypted by [quantum_encrypt] and handed back to
    [quantum_decrypt] with the returned ciphertext and key id comes out as
    [b"hI"]: the two calls of [get_session_key] draw two different
    keys. *)
Theorem quantum_round_trip_returns_other_bytes :
  QuantumEngine.active_sessions Examples.one_session_engine !! "s1"%string =
    Some Examples.stored_session /\
  QuantumEngine.qber_too_high (QuantumEngine.s_qber Examples.stored_session) = false /\
  fst (Examples.session_round_trip "s1" [72; 105] Examples.one_session_engine) =
    Returns [104; 73] /\
  fst (Examples.session_round_trip "s1" [72; 105] Examples.one_session_engine) <>
    Returns [72; 105].
Proof.
  assert (E : fst (Examples.session_round_trip "s1" [72; 105]
                     Examples.one_session_engine) = Returns [104; 73])
    by (vm_compute; reflexivity).
  split; [reflexivity |]. split; [vm_compute; reflexivity |].
  split; [exact E |]. rewrite E. discriminate.
Qed.

(** ** security.py: traffic blinding *)

Lemma count_in_seq (r : Z) : forall (m a : nat),
  length (List.filter (fun j => Z.of_nat j =? r) (seq a m)) =
    if (Z.of_nat a <=? r) && (r <? Z.of_nat a + Z.of_nat m) then 1%nat else 0%nat.
Proof.
  induction m as [|m IH]; intros a; cbn [seq List.filter].
  - destruct (Z.leb_spec (Z.of_nat a) r), (Z.ltb_spec r (Z.of_nat a + Z.of_nat 0));
      simpl; try reflexivity; lia.
  - destruct (Z.eqb_spec (Z.of_nat a) r) as [E|E]; cbn [length]; rewrite IH;
      destruct (Z.leb_spec (Z.of_nat (S a)) r),
               (Z.ltb_spec r (Z.of_nat (S a) + Z.of_nat m)),
               (Z.leb_spec (Z.of_nat a) r),
               (Z.ltb_spec r (Z.of_nat a + Z.of_nat (S m)));
      simpl; try reflexivity; lia.
Qed.

Lemma length_filter_map {A B} (f : B -> bool) (g : A -> B) (l : list A) :
  length (List.filter f (map g l)) = length (List.filter (fun a => f (g a)) l).
Proof.
  induction l as [|a l IH]; [reflexivity |]. cbn [map List.filter].
  destruct (f (g a)); cbn [length]; rewrite IH; reflexivity.
Qed.

(** [randbelow(n)] spreads the raw words evenly: of the words below
    [k * n], exactly [k] give each value of [0, n). *)
Lemma randbelow_spreads_evenly (n r : Z) (k : nat) :
  0 <= r < n -> length (Secrets.words_giving n r k) = k.
Proof.
  intros Hr. unfold Secrets.words_giving.
  induction k as [|k IH]; [reflexivity |].
  replace (S k * Z.to_nat n)%nat with (k * Z.to_nat n + Z.to_nat n)%nat by lia.
  rewrite seq_app, map_app, List.filter_app, length_app, IH.
  cbn [Nat.add].
  replace (seq (k * Z.to_nat n) (Z.to_nat n))
    with (map (Nat.add (k * Z.to_nat n)) (seq 0 (Z.to_nat n)))
    by (etransitivity; [apply (fmap_add_seq (k * Z.to_nat n) 0) | f_equal; lia]).
  rewrite map_map, length_filter_map.
  rewrite (List.filter_ext_in _ (fun j => Z.of_nat j =? r)).
  - rewrite count_in_seq.
    destruct (Z.leb_spec (Z.of_nat 0) r), (Z.ltb_spec r (Z.of_nat 0 + Z.of_nat (Z.to_nat n)));
      simpl; lia.
  - intros j Hj. apply in_seq in Hj.
    rewrite Nat2Z.inj_add, Nat2Z.inj_mul, Z2Nat.id by lia.
    rewrite Z.add_comm, Z.mod_add by lia.
    rewrite Z.mod_small by lia. reflexivity.
Qed.

(** C3, amended.  For a non-empty payload and a noise ratio of at least 2,
    [apply_blinding] returns [noise[:offset] + real + noise[offset:]]:
    [noise] is the next [len(real) * ratio] bytes of the entropy source,
    as [generate_noise_data] draws them, and [offset] is what
    [randbelow(len(noise) - len(real))] makes of the word that follows
    them, a value of that range which the draw reaches evenly; the buffer
    has [len(real) * (ratio + 1)] bytes and holds the payload unmodified
    from [offset] on. *)
Theorem apply_blinding_embeds_payload (real_data : bytes) (noise_ratio : Z)
    (g : Secrets.rng) :
  real_data <> [] -> 2 <= noise_ratio ->
  exists (n : nat) (noise : bytes) (bound : Z) (insert_pos : nat),
    Z.of_nat n = Z.of_nat (length real_data) * noise_ratio /\
    noise = Secrets.drawn g n /\
    bound = Z.of_nat (length noise) - Z.of_nat (length real_data) /\
    Z.of_nat insert_pos = Secrets.tape g (Secrets.cursor g + n)%nat mod bound /\
    Security.generate_noise_data (Z.of_nat (length real_data) * noise_ratio) g =
      (Returns noise, Secrets.skip g n) /\
    Secrets.randbelow bound (Secrets.skip g n) =
      (Returns (Z.of_nat insert_pos), Secrets.skip g (n + 1)) /\
    Security.apply_blinding real_data noise_ratio g =
      (Returns (take insert_pos noise ++ real_data ++ drop insert_pos noise),
       Secrets.skip g (n + 1)) /\
    Z.of_nat (length noise) = Z.of_nat (length real_data) * noise_ratio /\
    Forall is_byte noise /\
    0 <= Z.of_nat insert_pos < bound /\
    (forall (k : nat) (r : Z),
        0 <= r < bound -> length (Secrets.words_giving bound r k) = k) /\
    Z.of_nat (length (take insert_pos noise ++ real_data ++ drop insert_pos noise)) =
      Z.of_nat (length real_data) * (noise_ratio + 1) /\
    (forall i x, real_data !! i = Some x ->
       (take insert_pos noise ++ real_data ++ drop insert_pos noise)
         !! (insert_pos + i)%nat = Some x).
Proof.
  intros Hne Hr.
  assert (Hlen : (0 < length real_data)%nat)
    by (destruct real_data; [congruence | simpl; lia]).
  set (n := Z.to_nat (Z.of_nat (length real_data) * noise_ratio)).
  assert (Hn : Z.of_nat n = Z.of_nat (length real_data) * noise_ratio)
    by (unfold n; rewrite Z2Nat.id; nia).
  set (noise := Secrets.drawn g n).
  assert (Hl : length noise = n) by apply drawn_length.
  set (bound := Z.of_nat (length noise) - Z.of_nat (length real_data)).
  assert (Hb : 0 < bound) by (unfold bound; rewrite Hl; nia).
  set (w := Secrets.tape g (Secrets.cursor g + n)%nat).
  pose proof (Z.mod_pos_bound w bound Hb) as Hw.
  assert (E1 : Security.generate_noise_data
                 (Z.of_nat (length real_data) * noise_ratio) g =
               (Returns noise, Secrets.skip g n)).
  { unfold Security.generate_noise_data. rewrite <- Hn. apply token_bytes_draws. }
  assert (E2 : Secrets.randbelow bound (Secrets.skip g n) =
               (Returns (w mod bound), Secrets.skip g (n + 1))).
  { unfold Secrets.randbelow. destruct (Z.leb_spec bound 0); [lia |].
    unfold bind, Secrets.next, ret, Secrets.skip. cbn [Secrets.tape Secrets.cursor].
    f_equal. f_equal. lia. }
  exists n, noise, bound, (Z.to_nat (w mod bound)).
  rewrite Z2Nat.id by lia.
  split; [exact Hn |]. split; [reflexivity |]. split; [reflexivity |].
  split; [reflexivity |]. split; [exact E1 |]. split; [exact E2 |].
  split.
  { unfold Security.apply_blinding. unfold bind at 1. rewrite E1.
    fold bound. unfold bind. rewrite E2. reflexivity. }
  split; [rewrite Hl; exact Hn |]. split; [apply drawn_is_bytes |].
  split; [exact Hw |].
  split; [intros k r Hk; apply randbelow_spreads_evenly; exact Hk |].
  split.
  - rewrite !length_app, length_take, length_drop. lia.
  - intros i x Hi.
    assert (Ht : length (take (Z.to_nat (w mod bound)) noise) = Z.to_nat (w mod bound))
      by (rewrite length_take; lia).
    rewrite lookup_app_r by lia. rewrite Ht.
    replace (Z.to_nat (w mod bound) + i - Z.to_nat (w mod bound))%nat with i by lia.
    apply lookup_app_l_Some. exact Hi.
Qed.

Lemma apply_blinding_embeds_payload_witness :
  Security.apply_blinding [1; 2; 3] 2 Examples.count_rng =
    (Returns ([] ++ [1; 2; 3] ++ [0; 1; 2; 3; 4; 5]), Secrets.skip Examples.count_rng 7).
Proof.
  destruct (apply_blinding_embeds_payload [1; 2; 3] 2 Examples.count_rng
              ltac:(discriminate) ltac:(lia))
    as (n & noise & bound & pos & Hn & Hnoise & Hbound & Hpos & _ & _ & E & _).
  change (Z.of_nat (length [1; 2; 3]) * 2) with (Z.of_nat 6) in Hn.
  apply Nat2Z.inj in Hn. subst n. subst noise.
  change (Z.of_nat (length (Secrets.drawn Examples.count_rng 6)) -
          Z.of_nat (length [1; 2; 3])) with 3 in Hbound.
  subst bound.
  change (Secrets.tape Examples.count_rng
            (Secrets.cursor Examples.count_rng + 6)%nat mod 3) with (Z.of_nat 0) in Hpos.
  apply Nat2Z.inj in Hpos. subst pos.
  exact E.
Defined.

(** C3 as stated fails on an empty payload and on ratio 1: the bound handed
    to [randbelow] is 0 and the call raises instead of returning a
    buffer. *)
Lemma apply_blinding_degenerate_inputs_raise :
  fst (Security.apply_blinding [] 999 Examples.zero_rng) =
    Raises (ValueError "Upper bound must be positive") /\
  fst (Security.apply_blinding [1; 2; 3] 1 Examples.zero_rng) =
    Raises (ValueError "Upper bound must be positive") /\
  ~ (exists buf g',
       Security.apply_blinding [] 999 Examples.zero_rng = (Returns buf, g')).
Proof.
  split; [reflexivity |]. split; [reflexivity |].
  intros (buf & g' & E). discriminate E.
Qed.

(** Every offset of the range is drawn by some state of the entropy
    source. *)
Lemma apply_blinding_offset_reachable (real_data : bytes) (noise_ratio : Z)
    (pos : nat) :
  Z.of_nat pos < Z.of_nat (length real_data) * (noise_ratio - 1) ->
  exists g noise g',
    Security.apply_blinding real_data noise_ratio g =
      (Returns (take pos noise ++ real_data ++ drop pos noise), g').
Proof.
  intros Hp.
  set (g := {| Secrets.tape := fun _ => Z.of_nat pos; Secrets.cursor := 0 |}).
  assert (Hlen : (0 < length real_data)%nat) by (destruct real_data; simpl in *; lia).
  assert (Hr : 2 <= noise_ratio) by nia.
  set (n := Z.to_nat (Z.of_nat (length real_data) * noise_ratio)).
  exists g, (Secrets.drawn g n), (Secrets.skip (Secrets.skip g n) 1).
  unfold Security.apply_blinding, Security.generate_noise_data, bind.
  replace (Z.of_nat (length real_data) * noise_ratio) with (Z.of_nat n)
    by (unfold n; rewrite Z2Nat.id; nia).
  rewrite token_bytes_draws, drawn_length.
  unfold Secrets.randbelow.
  destruct (Z.leb_spec (Z.of_nat n - Z.of_nat (length real_data)) 0) as [H|H];
    [unfold n in H; rewrite Z2Nat.id in H; nia |].
  unfold bind, Secrets.next, ret. cbn [Secrets.tape Secrets.cursor Secrets.skip g].
  rewrite Z.mod_small by (unfold n; rewrite Z2Nat.id; nia).
  rewrite Nat2Z.id. unfold Secrets.skip, g. cbn [Secrets.tape Secrets.cursor].
  repeat f_equal. lia.
Qed.

(** ** security.py: access tokens *)

(** C4.  A token made by [create_access_token] for a [str] id and
    verified at once yields claims with that id as subject and the role's
    value as role.  A token that has expired, is no token, or was signed
    under another key does not make [verify_token] return [None]: the
    handler [except jwt.JWTError] names a class the module does not have,
    so the call raises AttributeError; [verify_token] never returns
    [None]. *)
Theorem verify_token_raises_on_rejected_tokens (secret_key : string) (now : Z) :
  (forall user_id r,
      exists t payload,
        Security.create_access_token secret_key now (Jwt.Str user_id) r =
          Returns t /\
        Security.verify_token secret_key now t = Returns (Some payload) /\
        Jwt.sub payload = user_id /\
        Jwt.role payload = Models.role_value r) /\
  (forall t, Jwt.expired now t \/ Jwt.malformed secret_key t ->
             Security.verify_token secret_key now t =
               Raises (AttributeError "module 'jwt' has no attribute 'JWTError'")) /\
  (forall t, Security.verify_token secret_key now t <> Returns None).
Proof.
  split; [| split].
  - intros user_id r. eexists _, _.
    unfold Security.verify_token, Security.create_access_token.
    cbn [Jwt.encode Jwt.te_sub Jwt.te_role Jwt.te_exp Jwt.te_iat].
    split; [reflexivity |].
    cbn [Jwt.decode Jwt.exp]. rewrite String.eqb_refl. cbn [negb].
    destruct (Z.ltb_spec (now + Security.ACCESS_TOKEN_EXPIRE_MINUTES * 60) now)
      as [H|H].
    + unfold Security.ACCESS_TOKEN_EXPIRE_MINUTES in H. lia.
    + split; [reflexivity |]. split; reflexivity.
  - intros [payload k | text] H; unfold Security.verify_token; cbn [Jwt.decode].
    + destruct (String.eqb_spec k secret_key) as [->|Hk]; cbn [negb]; [| reflexivity].
      destruct H as [H | H]; [| contradiction H; reflexivity].
      simpl in H. destruct (Z.ltb_spec (Jwt.exp payload) now); [reflexivity | lia].
    + reflexivity.
  - intros t. unfold Security.verify_token.
    destruct (Jwt.decode t secret_key now); discriminate.
Qed.

Lemma verify_token_raises_on_rejected_tokens_witness :
  Jwt.expired 1000000 Fixtures.alice_token /\
  Security.verify_token "s3cret" 1000000 Fixtures.alice_token =
    Raises (AttributeError "module 'jwt' has no attribute 'JWTError'") /\
  Security.verify_token "s3cret" 1000000 (Jwt.Garbage "not.a.token") =
    Raises (AttributeError "module 'jwt' has no attribute 'JWTError'").
Proof.
  pose proof (verify_token_raises_on_rejected_tokens "s3cret" 1000000)
    as (_ & Hbad & _).
  assert (X : Jwt.expired 1000000 Fixtures.alice_token) by (cbn; lia).
  split; [exact X |]. split; apply Hbad.
  - left. exact X.
  - right. exact I.
Defined.

(** ** auth.py: login and the current user *)

(** C9.  [login] looks at the user row and the password only and never
    reads [is_active]; but for a user whose password matches, active or
    not, it returns no access token: [create_access_token] is handed the
    [uuid.UUID] of the row and [jwt.encode] raises TypeError.  What the
    claim says of the other endpoints holds: a token that carries the id
    of an inactive user is rejected by [get_current_user] with 401 "User
    not found or inactive". *)
Theorem login_raises_before_issuing_token (secret_key : string)
    (pwd_verify : string -> string -> result bool) (users : list Models.User)
    (now : Z) (login_data : Auth.LoginRequest) (u : Models.User) :
  List.filter
    (fun v => String.eqb (Models.u_username v) (Auth.lr_username login_data)
              || String.eqb (Models.u_email v) (Auth.lr_username login_data))
    users = [u] ->
  pwd_verify (Auth.lr_password login_data) (Models.u_password_hash u) =
    Returns true ->
  Auth.login secret_key pwd_verify users now login_data =
    Raises (TypeError "Object of type UUID is not JSON serializable") /\
  (Models.u_is_active u = false ->
   List.filter (fun v => String.eqb (Models.u_id v) (Models.u_id u)) users = [u] ->
   forall payload now',
     Jwt.sub payload = Models.u_id u -> now' <= Jwt.exp payload ->
     Auth.get_current_user secret_key users now' (Jwt.Signed payload secret_key) =
       Raises (HTTPException 401 "User not found or inactive")).
Proof.
  intros Hsel Hpw. split.
  - unfold Auth.login. rewrite Hsel. cbn [Models.scalar_one_or_none].
    unfold Security.verify_password. rewrite Hpw. reflexivity.
  - intros Hinactive Hid payload now' Hsub Hexp.
    unfold Auth.get_current_user, Security.verify_token. cbn [Jwt.decode].
    rewrite String.eqb_refl. cbn [negb].
    destruct (Z.ltb_spec (Jwt.exp payload) now'); [lia |].
    rewrite Hsub, Hid. cbn [Models.scalar_one_or_none].
    rewrite Hinactive. reflexivity.
Qed.

Lemma login_raises_before_issuing_token_witness :
  Models.u_is_active Examples.bob = false /\
  Auth.login "s3cret" Examples.bcrypt_check Examples.users 1000 Examples.bob_login =
    Raises (TypeError "Object of type UUID is not JSON serializable") /\
  Auth.login "s3cret" Examples.bcrypt_check Examples.users 1000
    Examples.alice_login =
    Raises (TypeError "Object of type UUID is not JSON serializable").
Proof.
  split; [reflexivity |]. split.
  - apply (login_raises_before_issuing_token "s3cret" Examples.bcrypt_check
             Examples.users 1000 Examples.bob_login Examples.bob eq_refl eq_refl).
  - apply (login_raises_before_issuing_token "s3cret" Examples.bcrypt_check
             Examples.users 1000 Examples.alice_login Examples.alice eq_refl eq_refl).
Defined.

(** ** redis_client.py: the rate limiter *)

Lemma live_store_eq (s : Redis.server) (key : string) (e : Redis.entry) :
  Redis.live (Redis.store s key e) key =
    if Redis.expired (Redis.time s) e then None else Some e.
Proof. unfold Redis.live, Redis.store. cbn. rewrite lookup_insert_eq. reflexivity. Qed.

(** One request on a connected client whose key holds a counter. *)
Lemma check_rate_limit_step (s : Redis.server) (key : string) (limit window n : Z) :
  Redis.counter s key = Some n -> n < Redis.INT64_MAX ->
  exists s',
    RedisClient.check_rate_limit key limit window {| RedisClient.redis := Some s |} =
      (Returns (n + 1 <=? limit), {| RedisClient.redis := Some s' |}) /\
    Redis.keyspace s' !! key =
      Some {| Redis.value := Redis.RInt (n + 1);
              Redis.expires_at :=
                if n + 1 =? 1 then Some (Redis.time s + window)
                else Redis.expiry s key |} /\
    Redis.time s' = Redis.time s /\
    (forall other, other <> key ->
                   Redis.keyspace s' !! other = Redis.keyspace s !! other).
Proof.
  intros Hc Hmax. unfold Redis.counter in Hc. unfold Redis.expiry.
  unfold RedisClient.check_rate_limit, RedisClient.on_server, bind, Redis.incr.
  cbn [RedisClient.redis].
  destruct (Redis.live s key) as [e|] eqn:Hlive.
  - destruct e as [[m|str] ex]; cbn [Redis.value Redis.expires_at] in *;
      [| discriminate].
    inversion Hc; subst m; clear Hc.
    destruct (Z.leb_spec Redis.INT64_MAX n); [lia |].
    cbn [RedisClient.redis]. unfold Redis.expire.
    destruct (Z.eqb_spec (n + 1) 1) as [H1|H1].
    + cbn [RedisClient.redis]. rewrite live_store_eq.
      unfold Redis.live in Hlive.
      destruct (Redis.keyspace s !! key) as [e0|]; [| discriminate].
      destruct (Redis.expired (Redis.time s) e0) eqn:Hex; [discriminate |].
      inversion Hlive; subst e0.
      unfold Redis.expired in *. cbn [Redis.expires_at] in *. rewrite Hex.
      cbn. eexists. split; [reflexivity |]. cbn.
      split; [rewrite lookup_insert_eq; reflexivity |]. split; [reflexivity |].
      intros other Hne. rewrite !lookup_insert_ne by congruence. reflexivity.
    + cbn. eexists. split; [reflexivity |]. cbn.
      split; [rewrite lookup_insert_eq; reflexivity |]. split; [reflexivity |].
      intros other Hne. rewrite !lookup_insert_ne by congruence. reflexivity.
  - inversion Hc; subst n; clear Hc. cbn [RedisClient.redis].
    cbn [Z.add Z.eqb Pos.eqb].
    unfold Redis.expire. cbn [RedisClient.redis]. rewrite live_store_eq. cbn.
    eexists. split; [reflexivity |]. cbn.
    split; [rewrite lookup_insert_eq; reflexivity |]. split; [reflexivity |].
    intros other Hne. rewrite !lookup_insert_ne by congruence. reflexivity.
Qed.

Lemma counter_after_advance (s : Redis.server) (key : string) (m T d : Z) :
  Redis.keyspace s !! key =
    Some {| Redis.value := Redis.RInt m; Redis.expires_at := Some T |} ->
  Redis.time s + d < T ->
  Redis.counter (Redis.advance d s) key = Some m /\
  Redis.expiry (Redis.advance d s) key = Some T.
Proof.
  intros Hk Ht. unfold Redis.counter, Redis.expiry, Redis.live, Redis.advance. cbn.
  rewrite Hk. unfold Redis.expired. cbn.
  destruct (Z.leb_spec T (Redis.time s + d)); [lia |]. split; reflexivity.
Qed.

Lemma four_calls_fresh_key (s : Redis.server) (key : string) (window d1 d2 d3 : Z) :
  Redis.live s key = None ->
  0 < window -> 0 <= d1 -> 0 <= d2 -> 0 <= d3 -> d1 + d2 + d3 < window ->
  fst (RedisClient.four_calls key 3 window d1 d2 d3
         {| RedisClient.redis := Some s |}) =
    Returns [true; true; true; false].
Proof.
  intros Hfresh Hw H1 H2 H3 Hsum.
  assert (C0 : Redis.counter s key = Some 0)
    by (unfold Redis.counter; rewrite Hfresh; reflexivity).
  destruct (check_rate_limit_step s key 3 window 0 C0
              ltac:(unfold Redis.INT64_MAX; lia))
    as (s1 & E1 & K1 & T1 & _).
  cbn [Z.add Z.eqb Pos.eqb] in K1.
  destruct (counter_after_advance s1 key 1 (Redis.time s + window) d1 K1 ltac:(lia))
    as [C1 X1].
  destruct (check_rate_limit_step _ key 3 window 1 C1
              ltac:(unfold Redis.INT64_MAX; lia))
    as (s2 & E2 & K2 & T2 & _).
  rewrite X1 in K2. cbn [Z.add Z.eqb Pos.add Pos.succ Pos.eqb] in K2.
  cbn [Redis.advance Redis.time] in T2.
  destruct (counter_after_advance s2 key 2 (Redis.time s + window) d2 K2 ltac:(lia))
    as [C2 X2].
  destruct (check_rate_limit_step _ key 3 window 2 C2
              ltac:(unfold Redis.INT64_MAX; lia))
    as (s3 & E3 & K3 & T3 & _).
  rewrite X2 in K3. cbn [Z.add Z.eqb Pos.add Pos.succ Pos.eqb] in K3.
  cbn [Redis.advance Redis.time] in T3.
  destruct (counter_after_advance s3 key 3 (Redis.time s + window) d3 K3 ltac:(lia))
    as [C3 X3].
  destruct (check_rate_limit_step _ key 3 window 3 C3
              ltac:(unfold Redis.INT64_MAX; lia))
    as (s4 & E4 & _).
  unfold RedisClient.four_calls, bind, RedisClient.tick, RedisClient.on_server.
  rewrite E1. cbn [RedisClient.redis]. rewrite E2. cbn [RedisClient.redis].
  rewrite E3. cbn [RedisClient.redis]. rewrite E4. reflexivity.
Qed.

(** C5.  On a connected client, a request on a key that holds the counter
    [n] (0 when the key is absent) stores [n + 1], sets the expiry to
    [window] seconds from now when [n + 1 = 1] and leaves it as it was
    otherwise, touches no other key, and answers [n + 1 <= limit]; so on
    a fresh key with limit 3, four requests inside one window answer
    true, true, true, false. *)
Theorem check_rate_limit_fixed_window :
  (forall (s : Redis.server) (key : string) (limit window n : Z),
      Redis.counter s key = Some n -> n < Redis.INT64_MAX ->
      exists s',
        RedisClient.check_rate_limit key limit window
          {| RedisClient.redis := Some s |} =
          (Returns (n + 1 <=? limit), {| RedisClient.redis := Some s' |}) /\
        Redis.keyspace s' !! key =
          Some {| Redis.value := Redis.RInt (n + 1);
                  Redis.expires_at :=
                    if n + 1 =? 1 then Some (Redis.time s + window)
                    else Redis.expiry s key |} /\
        Redis.time s' = Redis.time s /\
        (forall other, other <> key ->
                       Redis.keyspace s' !! other = Redis.keyspace s !! other)) /\
  (forall (s : Redis.server) (key : string) (window d1 d2 d3 : Z),
      Redis.live s key = None ->
      0 < window -> 0 <= d1 -> 0 <= d2 -> 0 <= d3 -> d1 + d2 + d3 < window ->
      fst (RedisClient.four_calls key 3 window d1 d2 d3
             {| RedisClient.redis := Some s |}) =
        Returns [true; true; true; false]).
Proof.
  split.
  - exact check_rate_limit_step.
  - exact four_calls_fresh_key.
Qed.

Lemma check_rate_limit_fixed_window_witness :
  fst (RedisClient.check_rate_limit "rl:login:alice" 3 60
         {| RedisClient.redis := Some Examples.empty_server |}) = Returns true /\
  fst (RedisClient.four_calls "rl:login:alice" 3 60 10 20 29
         {| RedisClient.redis := Some Examples.empty_server |}) =
    Returns [true; true; true; false].
Proof.
  split.
  - destruct (proj1 check_rate_limit_fixed_window Examples.empty_server
                "rl:login:alice"%string 3 60 0 eq_refl eq_refl)
      as (s' & E & _).
    rewrite E. reflexivity.
  - apply (proj2 check_rate_limit_fixed_window Examples.empty_server
             "rl:login:alice"%string 60 10 20 29); [reflexivity | lia ..].
Defined.

(** ** scans.py: cancelling a scan *)

(** C6.  For a scan that the caller owns, [cancel_scan] succeeds and
    leaves the scan [cancelled] when its status is [pending] or
    [running]; for every other status (completed, failed, cancelled) it
    raises 400 "Scan cannot be cancelled" and the database, hence the
    status, is as before. *)
Theorem cancel_scan_status_transition (db : Scans.database) (scan_id : string)
    (current_user : Models.User) (scan : Models.Scan) :
  Scans.scans db !! scan_id = Some scan ->
  Models.user_id scan = Models.u_id current_user ->
  (Models.status scan = Models.PENDING \/ Models.status scan = Models.RUNNING ->
   exists db',
     Scans.cancel_scan scan_id current_user db =
       (Returns "Scan cancelled successfully"%string, db') /\
     exists scan',
       Scans.scans db' !! scan_id = Some scan' /\
       Models.status scan' = Models.CANCELLED) /\
  (Models.status scan <> Models.PENDING /\ Models.status scan <> Models.RUNNING ->
   Scans.cancel_scan scan_id current_user db =
     (Raises (HTTPException 400 "Scan cannot be cancelled"), db) /\
   (Models.status scan = Models.COMPLETED \/ Models.status scan = Models.FAILED \/
    Models.status scan = Models.CANCELLED)).
Proof.
  intros Hlook Hown.
  assert (Hsel : Scans.select_owned db scan_id current_user = Some scan).
  { unfold Scans.select_owned. rewrite Hlook, Hown, String.eqb_refl. reflexivity. }
  unfold Scans.cancel_scan, bind, get. rewrite Hsel. split.
  - intros Hst. eexists. split.
    + destruct Hst as [-> | ->]; reflexivity.
    + eexists. split; [cbn; apply lookup_insert_eq | reflexivity].
  - intros [Hp Hr]. destruct (Models.status scan) eqn:E; try congruence;
      (split; [reflexivity | auto]).
Qed.

Lemma cancel_scan_status_transition_witness :
  (exists db',
     Scans.cancel_scan "scan-1" Examples.alice Examples.example_db =
       (Returns "Scan cancelled successfully"%string, db') /\
     exists scan',
       Scans.scans db' !! "scan-1"%string = Some scan' /\
       Models.status scan' = Models.CANCELLED) /\
  Scans.cancel_scan "scan-2" Examples.alice Examples.example_db =
    (Raises (HTTPException 400 "Scan cannot be cancelled"), Examples.example_db).
Proof.
  split.
  - apply (cancel_scan_status_transition Examples.example_db "scan-1"
             Examples.alice Examples.pending_scan eq_refl eq_refl).
    left. reflexivity.
  - apply (cancel_scan_status_transition Examples.example_db "scan-2"
             Examples.alice Examples.completed_scan eq_refl eq_refl).
    split; discriminate.
Defined.

(** C10, amended.  A successful cancel rewrites the scan's row as the old
    row with [status] set to [cancelled] and [updated_at] set to the
    database clock by the commit; name, scan type, targets, ports, config,
    [started_at], [completed_at] and the three totals (and the creation
    time, owner, project and options) are as before, and no other row
    changes. *)
Theorem cancel_scan_frame (db : Scans.database) (scan_id : string)
    (current_user : Models.User) (scan : Models.Scan) (msg : string)
    (db' : Scans.database) :
  Scans.scans db !! scan_id = Some scan ->
  Scans.cancel_scan scan_id current_user db = (Returns msg, db') ->
  exists scan',
    Scans.scans db' !! scan_id = Some scan' /\
    scan' = Scans.touch (Scans.db_now db) (Scans.set_status scan Models.CANCELLED) /\
    Models.status scan' = Models.CANCELLED /\
    Models.updated_at scan' = Scans.db_now db /\
    Models.name scan' = Models.name scan /\
    Models.scan_type scan' = Models.scan_type scan /\
    Models.targets scan' = Models.targets scan /\
    Models.ports scan' = Models.ports scan /\
    Models.config scan' = Models.config scan /\
    Models.started_at scan' = Models.started_at scan /\
    Models.completed_at scan' = Models.completed_at scan /\
    Models.total_hosts scan' = Models.total_hosts scan /\
    Models.total_services scan' = Models.total_services scan /\
    Models.vulnerabilities_found scan' = Models.vulnerabilities_found scan /\
    Models.created_at scan' = Models.created_at scan /\
    Models.user_id scan' = Models.user_id scan /\
    Models.project_id scan' = Models.project_id scan /\
    Models.options scan' = Models.options scan /\
    (forall other, other <> scan_id ->
                   Scans.scans db' !! other = Scans.scans db !! other).
Proof.
  intros Hlook Hrun.
  unfold Scans.cancel_scan, bind, get, Scans.select_owned in Hrun.
  rewrite Hlook in Hrun.
  destruct (String.eqb (Models.user_id scan) (Models.u_id current_user));
    [| discriminate Hrun].
  destruct (negb _); [discriminate Hrun |].
  cbn in Hrun. inversion Hrun; subst; clear Hrun. cbn [Scans.scans].
  eexists. split; [apply lookup_insert_eq |].
  repeat (split; [reflexivity |]).
  intros other Hne. apply lookup_insert_ne. congruence.
Qed.

Lemma cancel_scan_frame_witness :
  exists db' scan',
    Scans.cancel_scan "scan-1" Examples.alice Examples.example_db =
      (Returns "Scan cancelled successfully"%string, db') /\
    Scans.scans db' !! "scan-1"%string = Some scan' /\
    Models.status scan' = Models.CANCELLED /\
    Models.completed_at scan' = None /\
    Models.name scan' = "perimeter"%string.
Proof.
  assert (E : Scans.cancel_scan "scan-1" Examples.alice Examples.example_db =
              (Returns "Scan cancelled successfully"%string,
               snd (Scans.cancel_scan "scan-1" Examples.alice Examples.example_db)))
    by reflexivity.
  destruct (cancel_scan_frame Examples.example_db "scan-1" Examples.alice
              Examples.pending_scan _ _ eq_refl E)
    as (scan' & Hlook & _ & Hst & _ & Hname & _ & _ & _ & _ & _ & Hdone & _).
  exists (snd (Scans.cancel_scan "scan-1" Examples.alice Examples.example_db)), scan'.
  split; [exact E |]. split; [exact Hlook |]. split; [exact Hst |].
  split; [rewrite Hdone; reflexivity | rewrite Hname; reflexivity].
Defined.

(** C10 as stated fails: cancelling changes a second field.  The scan of
    [Examples.example_db] was last updated at 100; after the cancel at
    database time 200 its [updated_at] is 200, so the row is not the old
    row with only the status replaced. *)
Lemma cancel_scan_refreshes_updated_at :
  exists db' scan',
    Scans.cancel_scan "scan-1" Examples.alice Examples.example_db =
      (Returns "Scan cancelled successfully"%string, db') /\
    Scans.scans db' !! "scan-1"%string = Some scan' /\
    Models.updated_at Examples.pending_scan = 100 /\
    Models.updated_at scan' = 200 /\
    scan' <> Scans.set_status Examples.pending_scan Models.CANCELLED.
Proof.
  eexists _, _. split; [reflexivity |]. split; [reflexivity |].
  split; [reflexivity |]. split; [reflexivity |].
  intros H. apply (f_equal Models.updated_at) in H. discriminate H.
Qed.

(** ** nats_client.py: the key-value read *)

Section KvGet.

Variable json : Type.
Variable json_loads : bytes -> result json.

(** C7, amended.  For a bucket name that is registered in [kv_stores],
    [kv_get] never raises: it returns [None] when the bucket is not found
    on the server, when the bucket holds no such key, and when the stored
    payload does not decode, and the decoded document otherwise. *)
Theorem kv_get_registered_bucket (cl : NatsClient.client)
    (bucket key handle : string) :
  NatsClient.kv_stores cl !! bucket = Some handle ->
  (exists r, NatsClient.kv_get json json_loads bucket key cl = (Returns r, cl)) /\
  (NatsClient.server_buckets cl !! handle = None ->
   NatsClient.kv_get json json_loads bucket key cl = (Returns None, cl)) /\
  (forall b, NatsClient.server_buckets cl !! handle = Some b -> b !! key = None ->
   NatsClient.kv_get json json_loads bucket key cl = (Returns None, cl)) /\
  (forall b v, NatsClient.server_buckets cl !! handle = Some b -> b !! key = Some v ->
   NatsClient.kv_get json json_loads bucket key cl =
     (Returns (match json_loads v with
               | Returns doc => Some doc
               | Raises _ => None
               end), cl)).
Proof.
  intros Hreg. unfold NatsClient.kv_get, NatsClient.KeyValue_get. rewrite Hreg.
  repeat split.
  - destruct (NatsClient.server_buckets cl !! handle) as [b|]; [| eauto].
    destruct (b !! key) as [v|]; [| eauto].
    destruct (json_loads v) as [doc|e]; [eauto |]. destruct e; eauto.
  - intros ->. reflexivity.
  - intros b -> ->. reflexivity.
  - intros b v -> ->. destruct (json_loads v) as [doc|e]; [reflexivity |].
    destruct e; reflexivity.
Qed.

(** A bucket name that is not registered makes [kv_get] raise. *)
Lemma kv_get_unregistered_raises (cl : NatsClient.client) (bucket key : string) :
  NatsClient.kv_stores cl !! bucket = None ->
  NatsClient.kv_get json json_loads bucket key cl =
    (Raises (ValueError ("KV store '" +:+ bucket +:+ "' not found")), cl).
Proof. intros H. unfold NatsClient.kv_get. rewrite H. reflexivity. Qed.

End KvGet.

Lemma kv_get_registered_bucket_witness :
  NatsClient.kv_get bytes (fun b => Returns b) "telemetry" "cpu"
    Examples.standard_client = (Returns None, Examples.standard_client) /\
  NatsClient.kv_get bytes (fun b => Returns b) "cache" "cpu"
    Examples.standard_client = (Returns None, Examples.standard_client).
Proof.
  split.
  - apply (kv_get_registered_bucket bytes (fun b => Returns b)
             Examples.standard_client "telemetry" "cpu" "telemetry" eq_refl).
    reflexivity.
  - apply (proj1 (proj2 (proj2
             (kv_get_registered_bucket bytes (fun b => Returns b)
                Examples.standard_client "cache" "cpu" "cache" eq_refl)))
             ∅); reflexivity.
Defined.

(** C7 as stated fails: for a bucket name the client has not registered,
    [kv_get] raises ValueError instead of returning an absent value. *)
Lemma kv_get_unknown_bucket_raises :
  NatsClient.kv_get bytes (fun b => Returns b) "users" "alice"
    Examples.standard_client =
    (Raises (ValueError "KV store 'users' not found"), Examples.standard_client) /\
  ~ (exists r cl',
       NatsClient.kv_get bytes (fun b => Returns b) "users" "alice"
         Examples.standard_client = (Returns r, cl')).
Proof.
  assert (E : NatsClient.kv_get bytes (fun b => Returns b) "users" "alice"
                Examples.standard_client =
              (Raises (ValueError "KV store 'users' not found"),
               Examples.standard_client)) by reflexivity.
  split; [exact E |]. intros (r & cl' & H). rewrite E in H. discriminate H.
Qed.

(** ** scans.py: the nmap parser *)

Lemma last_cons_default {A} (a d : A) (l : list A) :
  List.last (a :: l) d = List.last l a.
Proof.
  revert a d. induction l as [|b l IH]; intros a d; [reflexivity |].
  change (List.last (a :: b :: l) d) with (List.last (b :: l) d).
  rewrite (IH b d). symmetry. apply IH.
Qed.

Section Parser.

Variable fromstring : string -> result ET.element.
Variable py_int : string -> result Z.

(** The inner loop appends the open ports among those it reads. *)
Lemma loop_ports_spec (ps : list ET.element) :
  forall (h : Scans.host_data) (pds : list Scans.port_data),
    mapR (Scans.read_port py_int) ps = Returns pds ->
    Scans.loop_ports py_int ps h =
      Returns {| Scans.hd_address := Scans.hd_address h;
                 Scans.hd_hostname := Scans.hd_hostname h;
                 Scans.hd_ports := Scans.hd_ports h ++ List.filter Scans.is_open pds;
                 Scans.hd_os := Scans.hd_os h |}.
Proof.
  induction ps as [|p ps IH]; intros h pds H; simpl in *.
  - inversion H; subst. simpl. rewrite app_nil_r. destruct h; reflexivity.
  - destruct (Scans.read_port py_int p) as [pd|e]; [| discriminate].
    destruct (mapR (Scans.read_port py_int) ps) as [r|e] eqn:E; [| discriminate].
    inversion H; subst. rewrite (IH _ r eq_refl). simpl. unfold Scans.is_open at 2.
    destruct (String.eqb (Scans.pd_state pd) "open"); simpl.
    + rewrite <- app_assoc. reflexivity.
    + reflexivity.
Qed.

(** The outer loop keeps the last address it meets and the open ports of
    all hosts. *)
Lemma loop_hosts_spec (hs : list ET.element) :
  forall (h : Scans.host_data) (pds : list Scans.port_data),
    mapR (Scans.read_port py_int)
         (flat_map (fun host => ET.findall2 host "ports" "port") hs) = Returns pds ->
    Scans.loop_hosts py_int hs h =
      Returns {| Scans.hd_address := List.last (ET.addresses hs) (Scans.hd_address h);
                 Scans.hd_hostname := Scans.hd_hostname h;
                 Scans.hd_ports := Scans.hd_ports h ++ List.filter Scans.is_open pds;
                 Scans.hd_os := Scans.hd_os h |}.
Proof.
  induction hs as [|host hs IH]; intros h pds H.
  - simpl in *. inversion H; subst. simpl. rewrite app_nil_r.
    destruct h; reflexivity.
  - cbn [flat_map] in H. apply mapR_app in H.
    destruct H as (r1 & r2 & E1 & E2 & ->).
    cbn [Scans.loop_hosts ET.addresses]. unfold ET.host_address.
    destruct (ET.find host "address") as [a|];
      rewrite (loop_ports_spec _ _ r1 E1), (IH _ r2 E2);
      cbn [Scans.hd_address Scans.hd_hostname Scans.hd_ports Scans.hd_os
           Scans.set_address];
      rewrite List.filter_app, app_assoc; [rewrite last_cons_default |];
      reflexivity.
Qed.

(** What the loop computes.  For a well-formed document whose port numbers
    are numerals, [parse_nmap_xml] returns the address of the last host that
    has an [address] element (the empty string when none has) together
    with exactly the ports, of all hosts and in document order, whose
    state is "open", each with port number, protocol, service name and
    version as read from its element; when the document has one host,
    the address is that host's. *)
Theorem parse_nmap_xml_open_ports (xml_data : string) (root : ET.element)
    (pds : list Scans.port_data) :
  fromstring xml_data = Returns root ->
  mapR (Scans.read_port py_int) (ET.all_ports root) = Returns pds ->
  exists h,
    Scans.parse_nmap_xml fromstring py_int xml_data = Scans.Host h /\
    Scans.hd_address h = List.last (ET.addresses (ET.findall root "host")) ""%string /\
    Scans.hd_ports h = List.filter Scans.is_open pds /\
    (forall p, In p (Scans.hd_ports h) <->
               In p pds /\ Scans.pd_state p = "open"%string) /\
    (forall host, ET.findall root "host" = [host] ->
       Scans.hd_address h =
         match ET.find host "address" with
         | Some address => ET.get address "addr" ""
         | None => ""%string
         end).
Proof.
  intros Hparse Hports. unfold Scans.parse_nmap_xml. rewrite Hparse.
  unfold ET.all_ports in Hports. rewrite (loop_hosts_spec _ _ pds Hports).
  eexists. split; [reflexivity |]. cbn.
  split; [reflexivity |]. split; [reflexivity |]. split.
  - intros p. rewrite filter_In. unfold Scans.is_open.
    destruct (String.eqb_spec (Scans.pd_state p) "open"); intuition congruence.
  - intros host ->. cbn [ET.addresses]. unfold ET.host_address.
    destruct (ET.find host "address"); reflexivity.
Qed.

End Parser.

Lemma parse_nmap_xml_open_ports_witness :
  exists h,
    Scans.parse_nmap_xml
      (Examples.parsed_as Examples.single_host_xml Examples.single_host_doc)
      Examples.decimal Examples.single_host_xml = Scans.Host h /\
    Scans.hd_address h = "192.168.1.10"%string /\
    Scans.hd_ports h =
      [{| Scans.pd_port := 22; Scans.pd_protocol := "tcp";
          Scans.pd_state := "open"; Scans.pd_service := "ssh";
          Scans.pd_version := "8.9" |}].
Proof.
  destruct (parse_nmap_xml_open_ports
              (Examples.parsed_as Examples.single_host_xml Examples.single_host_doc)
              Examples.decimal Examples.single_host_xml Examples.single_host_doc
              [{| Scans.pd_port := 22; Scans.pd_protocol := "tcp";
                  Scans.pd_state := "open"; Scans.pd_service := "ssh";
                  Scans.pd_version := "8.9" |};
               {| Scans.pd_port := 23; Scans.pd_protocol := "tcp";
                  Scans.pd_state := "closed"; Scans.pd_service := "telnet";
                  Scans.pd_version := "" |}]
              eq_refl eq_refl)
    as (h & Hrun & Haddr & Hports & _).
  exists h. split; [exact Hrun |]. split; [exact Haddr | exact Hports].
Defined.

(** C8, evaluated.  On a document with two hosts the one [host_data]
    dictionary that the loop over the hosts shares is overwritten and
    extended by the second host: the address returned is the second
    host's, not the first's, and the ports returned are those of both
    hosts under that one address. *)
Lemma parse_nmap_xml_two_hosts :
  Scans.parse_nmap_xml
    (Examples.parsed_as Examples.two_hosts_xml Examples.two_hosts_doc)
    Examples.decimal Examples.two_hosts_xml =
    Scans.Host
      {| Scans.hd_address := "10.0.0.2";
         Scans.hd_hostname := "";
         Scans.hd_ports :=
           [{| Scans.pd_port := 22; Scans.pd_protocol := "tcp";
               Scans.pd_state := "open"; Scans.pd_service := "ssh";
               Scans.pd_version := "8.9" |};
            {| Scans.pd_port := 80; Scans.pd_protocol := "tcp";
               Scans.pd_state := "open"; Scans.pd_service := "http";
               Scans.pd_version := "2.4" |}];
         Scans.hd_os := "" |} /\
  ET.findall Examples.two_hosts_doc "host" =
    [Examples.first_host; Examples.second_host] /\
  ET.host_address Examples.first_host = Some "10.0.0.1"%string /\
  "10.0.0.2"%string <> "10.0.0.1"%string.
Proof.
  split; [reflexivity |]. split; [reflexivity |]. split; [reflexivity |].
  discriminate.
Qed.

(** ** security.py: the role hierarchy *)

(** X1.  [check_permission] orders the four roles as viewer < operator <
    researcher < admin: it is reflexive, transitive and total, two roles
    that satisfy each other are equal, admin satisfies every requirement
    and only admin satisfies an admin requirement.  A user value outside
    the table satisfies no role of the table, while a required value
    outside the table is satisfied by everyone. *)
Theorem check_permission_follows_hierarchy :
  (forall r, SecurityManager.check_permission r r = true) /\
  (forall a b c,
      SecurityManager.check_permission a b = true ->
      SecurityManager.check_permission b c = true ->
      SecurityManager.check_permission a c = true) /\
  (forall a b,
      SecurityManager.check_permission a b = true \/
      SecurityManager.check_permission b a = true) /\
  (forall a b : Models.UserRole,
      SecurityManager.check_permission (Some a) (Some b) = true ->
      SecurityManager.check_permission (Some b) (Some a) = true -> a = b) /\
  (forall r, SecurityManager.check_permission (Some Models.ADMIN) r = true) /\
  (forall r : Models.UserRole,
      SecurityManager.check_permission (Some r) (Some Models.ADMIN) = true ->
      r = Models.ADMIN) /\
  SecurityManager.check_permission (Some Models.VIEWER) (Some Models.OPERATOR) = false /\
  SecurityManager.check_permission (Some Models.OPERATOR) (Some Models.RESEARCHER) = false /\
  SecurityManager.check_permission (Some Models.RESEARCHER) (Some Models.ADMIN) = false /\
  (forall r : Models.UserRole,
      SecurityManager.check_permission None (Some r) = false) /\
  (forall r, SecurityManager.check_permission r None = true).
Proof.
  unfold SecurityManager.check_permission.
  repeat match goal with |- _ /\ _ => split end.
  - intros r. apply Z.leb_refl.
  - intros a b c H1 H2. apply Z.leb_le in H1, H2. apply Z.leb_le. lia.
  - intros a b. rewrite !Z.leb_le. lia.
  - intros [] []; cbn; intros H1 H2; try reflexivity; discriminate.
  - intros [[]|]; reflexivity.
  - intros []; cbn; intros H; try reflexivity; discriminate.
  - reflexivity.
  - reflexivity.
  - reflexivity.
  - intros []; reflexivity.
  - intros [[]|]; reflexivity.
Qed.

(** ** quantum_engine.py: the bit order of packed keys *)

Lemma testbit_one (n : Z) : Z.testbit 1 n = (n =? 0).
Proof.
  destruct n as [|p|p]; [reflexivity | | reflexivity].
  destruct p; reflexivity.
Qed.

Lemma testbit_shifted_bit (b : Z) (j : nat) (k : Z) :
  is_bit b -> 0 <= k ->
  Z.testbit (Z.shiftl b (7 - Z.of_nat j)) k = (b =? 1) && (k =? 7 - Z.of_nat j).
Proof.
  intros Hb Hk. rewrite Z.shiftl_spec by exact Hk.
  destruct Hb as [-> | ->].
  - rewrite Z.bits_0. reflexivity.
  - rewrite testbit_one. cbn [Z.eqb Pos.eqb andb].
    destruct (Z.eqb_spec (k - (7 - Z.of_nat j)) 0), (Z.eqb_spec k (7 - Z.of_nat j));
      try reflexivity; lia.
Qed.

Lemma testbit_pack_fold (f : nat -> Z) (js : list nat) (acc k : Z) :
  Z.testbit
    (fold_left (fun byte j => Z.lor byte (Z.shiftl (f j) (7 - Z.of_nat j))) js acc) k =
  Z.testbit acc k ||
  existsb (fun j => Z.testbit (Z.shiftl (f j) (7 - Z.of_nat j)) k) js.
Proof.
  revert acc. induction js as [|j js IH]; intros acc; cbn [fold_left existsb].
  - rewrite orb_false_r. reflexivity.
  - rewrite IH, Z.lor_spec, orb_assoc. reflexivity.
Qed.

Lemma existsb_seq_pick (g : nat -> bool) (j0 m : nat) :
  existsb (fun j => g j && (j =? j0)%nat) (seq 0 m) = (j0 <? m)%nat && g j0.
Proof.
  induction m as [|m IH].
  - reflexivity.
  - rewrite seq_S, existsb_app, IH. cbn [existsb Nat.add]. rewrite orb_false_r.
    destruct (Nat.ltb_spec j0 m), (Nat.ltb_spec j0 (S m)), (Nat.eqb_spec m j0);
      try lia; subst; cbn; rewrite ?andb_false_r, ?andb_true_r, ?orb_false_r;
      try reflexivity; destruct (g j0); reflexivity.
Qed.

Lemma existsb_pointwise {A} (f g : A -> bool) (l : list A) :
  (forall a, f a = g a) -> existsb f l = existsb g l.
Proof.
  intros H. induction l as [|a l IH]; cbn [existsb]; [reflexivity |].
  rewrite H, IH. reflexivity.
Qed.

Lemma testbit_pack_byte (bits : list Z) (i j0 : nat) :
  Forall is_bit bits -> (j0 < 8)%nat ->
  Z.testbit (QuantumEngine.pack_byte bits i) (7 - Z.of_nat j0) =
    (nth (i + j0) bits 0 =? 1).
Proof.
  intros Hb Hj. unfold QuantumEngine.pack_byte.
  rewrite (testbit_pack_fold (fun j => nth (i + j) bits 0)).
  rewrite Z.bits_0. cbn [orb].
  assert (Hbit : forall n, is_bit (nth n bits 0)).
  { intros n. destruct (nth_in_or_default n bits 0) as [Hin | ->]; [| left; reflexivity].
    rewrite List.Forall_forall in Hb. apply Hb. exact Hin. }
  rewrite (existsb_pointwise _ (fun j => (nth (i + j) bits 0 =? 1) && (j =? j0)%nat)).
  - rewrite existsb_seq_pick.
    destruct (Nat.ltb_spec j0 (Nat.min 8 (length bits - i))) as [H|H]; [reflexivity |].
    cbn [andb]. rewrite nth_overflow by lia. reflexivity.
  - intros j. rewrite testbit_shifted_bit by (auto; lia). f_equal.
    destruct (Z.eqb_spec (7 - Z.of_nat j0) (7 - Z.of_nat j)), (Nat.eqb_spec j j0);
      try reflexivity; lia.
Qed.

Lemma mapR_total {A B} (f : A -> B) (g : A -> result B) (l : list A) :
  (forall a, In a l -> g a = Returns (f a)) -> mapR g l = Returns (map f l).
Proof.
  induction l as [|a l IH]; intros H; cbn [mapR map]; [reflexivity |].
  rewrite (H a) by (left; reflexivity). rewrite IH; [reflexivity |].
  intros b Hb. apply H. right. exact Hb.
Qed.

Lemma bits_to_bytes_map (bits : list Z) :
  Forall is_bit bits ->
  QuantumEngine._bits_to_bytes bits =
    Returns (map (fun c => QuantumEngine.pack_byte bits (8 * c))
                 (seq 0 ((length bits + 7) / 8)%nat)).
Proof.
  intros Hb. unfold QuantumEngine._bits_to_bytes. apply mapR_total.
  intros c _. apply append_check_returns, pack_byte_below_256. exact Hb.
Qed.

(** X2.  On a list of bits [_bits_to_bytes] returns
    [ceil(len(bits) / 8)] bytes, most significant bit first: bit [i] of
    the input is bit [7 - i mod 8] of byte [i / 8], and the positions
    past the end of the input, in the last byte, are zero. *)
Theorem bits_to_bytes_msb_first (bits : list Z) :
  Forall is_bit bits ->
  exists out,
    QuantumEngine._bits_to_bytes bits = Returns out /\
    length out = ((length bits + 7) / 8)%nat /\
    Forall is_byte out /\
    forall i, (i < 8 * length out)%nat ->
      Z.testbit (nth (i / 8) out 0) (7 - Z.of_nat (i mod 8)) = (nth i bits 0 =? 1).
Proof.
  intros Hb. eexists. split; [apply bits_to_bytes_map; exact Hb |].
  split; [rewrite length_map, length_seq; reflexivity |]. split.
  - apply List.Forall_forall. intros x Hx. apply in_map_iff in Hx.
    destruct Hx as (c & <- & _). apply pack_byte_below_256. exact Hb.
  - intros i Hi. rewrite length_map, length_seq in Hi.
    assert (Hc : (i / 8 < (length bits + 7) / 8)%nat)
      by (apply Nat.Div0.div_lt_upper_bound; lia).
    rewrite (nth_indep _ 0 (QuantumEngine.pack_byte bits (8 * 0)))
      by (rewrite length_map, length_seq; exact Hc).
    rewrite (map_nth (fun c => QuantumEngine.pack_byte bits (8 * c))).
    rewrite seq_nth by exact Hc. cbn [Nat.add].
    rewrite testbit_pack_byte by (auto; apply Nat.mod_upper_bound; lia).
    rewrite <- Nat.div_mod_eq. reflexivity.
Qed.

Lemma bits_to_bytes_msb_first_witness :
  QuantumEngine._bits_to_bytes [1; 0; 1; 0; 0; 0; 0; 1; 1; 1] = Returns [161; 192].
Proof.
  destruct (bits_to_bytes_msb_first [1; 0; 1; 0; 0; 0; 0; 1; 1; 1]) as (out & E & _).
  - repeat constructor; (left; reflexivity) || (right; reflexivity).
  - rewrite E. vm_compute in E. exact (eq_sym E).
Defined.

(** ** quantum_engine.py: the repeating-key XOR *)

Lemma nth_concat_replicate (key : bytes) (k i : nat) :
  (i < k * length key)%nat ->
  nth i (concat (replicate k key)) 0 = nth (i mod length key) key 0.
Proof.
  revert i. induction k as [|k IH]; intros i Hi; [simpl in Hi; lia |].
  cbn [replicate concat]. destruct (Nat.lt_ge_cases i (length key)) as [H|H].
  - rewrite app_nth1 by exact H. rewrite Nat.mod_small by exact H. reflexivity.
  - rewrite app_nth2 by exact H. rewrite IH by (simpl in Hi; lia).
    f_equal. replace i with ((i - length key) + 1 * length key)%nat at 2 by lia.
    rewrite Nat.Div0.mod_add. reflexivity.
Qed.

Lemma nth_key_stream (key : bytes) (n i : nat) :
  key <> [] -> (i < n)%nat ->
  nth i (QuantumEngine.key_stream key n) 0 = nth (i mod length key) key 0.
Proof.
  intros Hk Hi. unfold QuantumEngine.key_stream.
  assert (0 < length key)%nat by (destruct key; [congruence | simpl; lia]).
  rewrite nth_firstn. destruct (Nat.ltb_spec i n); [| lia].
  apply nth_concat_replicate.
  pose proof (Nat.div_mod_eq n (length key)).
  pose proof (Nat.mod_upper_bound n (length key) ltac:(lia)). nia.
Qed.

Lemma nth_zip_with_lxor (p k : list Z) (i : nat) :
  (i < length p)%nat -> (i < length k)%nat ->
  nth i (zip_with Z.lxor p k) 0 = Z.lxor (nth i p 0) (nth i k 0).
Proof.
  revert k i. induction p as [|x p IH]; intros [|y k] i Hp Hk; simpl in *; try lia.
  destruct i as [|i]; [reflexivity |]. apply IH; lia.
Qed.

(** X3.  With an empty key [_symmetric_encrypt] raises ZeroDivisionError,
    whatever the text.  With a non-empty key it returns a text of the
    same length whose byte [i] is the input byte [i] XOR the key byte
    [i mod len(key)], and [_symmetric_decrypt] under the same key gives
    the input back. *)
Theorem symmetric_encrypt_cycles_key :
  (forall plaintext,
      QuantumEngine._symmetric_encrypt [] plaintext = Raises ZeroDivisionError) /\
  (forall key plaintext,
      key <> [] ->
      exists ciphertext,
        QuantumEngine._symmetric_encrypt key plaintext = Returns ciphertext /\
        length ciphertext = length plaintext /\
        (forall i, (i < length plaintext)%nat ->
           nth i ciphertext 0 =
             Z.lxor (nth i plaintext 0) (nth (i mod length key) key 0)) /\
        QuantumEngine._symmetric_decrypt key ciphertext = Returns plaintext).
Proof.
  split; [reflexivity |]. intros key plaintext Hk.
  pose proof (key_stream_length key (length plaintext) Hk) as Hl.
  exists (zip_with Z.lxor plaintext (QuantumEngine.key_stream key (length plaintext))).
  split; [apply symmetric_encrypt_stream; exact Hk |].
  split; [rewrite length_zip_with, Hl; apply Nat.min_id |]. split.
  - intros i Hi. rewrite nth_zip_with_lxor by lia.
    rewrite nth_key_stream by assumption. reflexivity.
  - unfold QuantumEngine._symmetric_decrypt.
    rewrite symmetric_encrypt_stream by exact Hk.
    rewrite length_zip_with, Hl, Nat.min_id.
    rewrite xor_twice by exact Hl. reflexivity.
Qed.

Lemma symmetric_encrypt_cycles_key_witness :
  QuantumEngine._symmetric_encrypt [1; 2] [16; 32; 48] = Returns [17; 34; 49] /\
  QuantumEngine._symmetric_decrypt [1; 2] [17; 34; 49] = Returns [16; 32; 48].
Proof.
  destruct (proj2 symmetric_encrypt_cycles_key [1; 2] [16; 32; 48]) as (c & E & _ & _ & D);
    [discriminate |].
  assert (Hc : c = [17; 34; 49]) by (cbv in E; congruence).
  subst c. split; [exact E | exact D].
Defined.

(** ** quantum_engine.py: the simulated KEM *)

Lemma rand_token_bytes (n : nat) (e : QuantumEngine.engine) :
  QuantumEngine.rand (Secrets.token_bytes (Z.of_nat n)) e =
    (Returns (Secrets.drawn (QuantumEngine.entropy e) n), QuantumEngine.after_draw e n).
Proof.
  unfold QuantumEngine.rand, zoom. rewrite token_bytes_draws. reflexivity.
Qed.

Lemma after_draw_add (e : QuantumEngine.engine) (a b : nat) :
  QuantumEngine.after_draw (QuantumEngine.after_draw e a) b =
    QuantumEngine.after_draw e (a + b).
Proof.
  unfold QuantumEngine.after_draw, Secrets.skip. cbn. do 2 f_equal. lia.
Qed.

(** X4.  [pqc_decrypt] never looks at the key or at the contents of the
    ciphertext: it returns the next [len(ciphertext) - 32] bytes of the
    entropy source and raises ValueError on a ciphertext shorter than 32
    bytes.  So decrypting what [pqc_encrypt] made of a plaintext returns
    [len(plaintext)] fresh random bytes, the same for every plaintext of
    that length and every pair of keys. *)
Theorem pqc_decrypt_returns_fresh_bytes :
  (forall (e : QuantumEngine.engine) (public_key private_key plaintext : bytes)
          (alg alg' : QuantumEngine.QuantumAlgorithm),
      (ciphertext <- QuantumSecurity.pqc_encrypt public_key plaintext alg ;;
       QuantumSecurity.pqc_decrypt private_key ciphertext alg') e =
        (Returns (Secrets.drawn
                    (Secrets.skip (QuantumEngine.entropy e) (64 + length plaintext))
                    (length plaintext)),
         QuantumEngine.after_draw e (64 + length plaintext + length plaintext))) /\
  (forall (e : QuantumEngine.engine) (private_key ciphertext : bytes)
          (alg : QuantumEngine.QuantumAlgorithm),
      QuantumSecurity.pqc_decrypt private_key ciphertext alg e =
        if (length ciphertext <? 32)%nat
        then (Raises (ValueError "negative argument not allowed"), e)
        else (Returns (Secrets.drawn (QuantumEngine.entropy e) (length ciphertext - 32)),
              QuantumEngine.after_draw e (length ciphertext - 32))).
Proof.
  split.
  - intros e public_key private_key plaintext alg alg'.
    unfold QuantumSecurity.pqc_encrypt, QuantumSecurity.pqc_decrypt.
    unfold bind at 1. unfold bind at 1.
    rewrite (rand_token_bytes 32).
    replace (Z.of_nat (length plaintext) + 32) with (Z.of_nat (length plaintext + 32))
      by lia.
    unfold bind at 1. rewrite rand_token_bytes. unfold ret at 1.
    rewrite drawn_length.
    replace (Z.of_nat (length plaintext + 32) - 32) with (Z.of_nat (length plaintext))
      by lia.
    unfold bind. rewrite rand_token_bytes. unfold ret.
    rewrite !after_draw_add. cbn [QuantumEngine.after_draw QuantumEngine.entropy].
    f_equal.
    + f_equal. f_equal. unfold Secrets.skip. cbn. f_equal. lia.
    + f_equal. lia.
  - intros e private_key ciphertext alg. unfold QuantumSecurity.pqc_decrypt, bind.
    destruct (Nat.ltb_spec (length ciphertext) 32) as [H|H].
    + unfold QuantumEngine.rand, zoom, Secrets.token_bytes.
      destruct (Z.ltb_spec (Z.of_nat (length ciphertext) - 32) 0); [| lia].
      unfold raise. destruct e; reflexivity.
    + replace (Z.of_nat (length ciphertext) - 32)
        with (Z.of_nat (length ciphertext - 32)) by lia.
      rewrite rand_token_bytes. reflexivity.
Qed.

(** ** quantum_engine.py: keys and sessions *)

Section QuantumKeys.

Variable sha256_hexdigest : bytes -> string.
Variable urlsafe_b64 : bytes -> string.
Variable isoformat : Z -> string.
Variable fromisoformat : string -> result Z.

Lemma generate_quantum_key_run (n : nat) (key_size : Z) (e : QuantumEngine.engine) :
  key_size / 8 = Z.of_nat n ->
  QuantumEngine.generate_quantum_key sha256_hexdigest urlsafe_b64 key_size e =
    (Raises (AttributeError "module 'secrets' has no attribute 'uniform'"),
     QuantumEngine.after_draw e (n + 16)).
Proof.
  intros Hn. unfold QuantumEngine.generate_quantum_key.
  unfold bind at 1. rewrite Hn, rand_token_bytes.
  unfold bind at 1. unfold QuantumEngine.rand at 1, zoom, QuantumEngine.token_urlsafe.
  unfold bind at 1. rewrite (token_bytes_draws 16). unfold ret at 1.
  unfold bind at 1. unfold QuantumEngine.rand, zoom, Secrets.uniform, raise.
  cbn [QuantumEngine.entropy QuantumEngine.clock QuantumEngine.active_sessions
       QuantumEngine.after_draw].
  f_equal. unfold QuantumEngine.after_draw, Secrets.skip. cbn. do 2 f_equal. lia.
Qed.

(** X5.  [generate_quantum_key] returns no key.  For a non-negative
    [key_size] it draws the [key_size // 8] bytes of key material and the
    16 bytes of the key id, and then raises AttributeError at
    [secrets.uniform]; for a negative [key_size] it raises ValueError
    before anything is drawn.  The sessions are untouched either way. *)
Theorem generate_quantum_key_always_raises :
  (forall (key_size : Z) (e : QuantumEngine.engine),
      0 <= key_size ->
      QuantumEngine.generate_quantum_key sha256_hexdigest urlsafe_b64 key_size e =
        (Raises (AttributeError "module 'secrets' has no attribute 'uniform'"),
         QuantumEngine.after_draw e (Z.to_nat (key_size / 8) + 16))) /\
  (forall (key_size : Z) (e : QuantumEngine.engine),
      key_size < 0 ->
      QuantumEngine.generate_quantum_key sha256_hexdigest urlsafe_b64 key_size e =
        (Raises (ValueError "negative argument not allowed"), e)) /\
  (forall (key_size : Z) (e : QuantumEngine.engine) r e',
      QuantumEngine.generate_quantum_key sha256_hexdigest urlsafe_b64 key_size e =
        (r, e') ->
      (forall k, r <> Returns k) /\
      QuantumEngine.active_sessions e' = QuantumEngine.active_sessions e).
Proof.
  assert (Hpos : forall key_size e, 0 <= key_size ->
            QuantumEngine.generate_quantum_key sha256_hexdigest urlsafe_b64 key_size e =
              (Raises (AttributeError "module 'secrets' has no attribute 'uniform'"),
               QuantumEngine.after_draw e (Z.to_nat (key_size / 8) + 16))).
  { intros key_size e Hk. apply generate_quantum_key_run.
    rewrite Z2Nat.id; [reflexivity | apply Z.div_pos; lia]. }
  assert (Hneg : forall key_size e, key_size < 0 ->
            QuantumEngine.generate_quantum_key sha256_hexdigest urlsafe_b64 key_size e =
              (Raises (ValueError "negative argument not allowed"), e)).
  { intros key_size e Hk. unfold QuantumEngine.generate_quantum_key, bind.
    unfold QuantumEngine.rand, zoom, Secrets.token_bytes.
    destruct (Z.ltb_spec (key_size / 8) 0) as [H|H].
    + unfold raise. destruct e; reflexivity.
    + exfalso. assert (key_size / 8 < 0) by (apply Z.div_lt_upper_bound; lia). lia. }
  split; [exact Hpos |]. split; [exact Hneg |].
  intros key_size e r e' H.
  destruct (Z.lt_ge_cases key_size 0) as [Hk|Hk].
  - rewrite (Hneg _ _ Hk) in H. inversion H; subst.
    split; [intros k; discriminate | reflexivity].
  - rewrite (Hpos _ _ Hk) in H. inversion H; subst.
    split; [intros k; discriminate | reflexivity].
Qed.

Lemma generate_pqc_keypair_draws (alg : QuantumEngine.QuantumAlgorithm)
    (e : QuantumEngine.engine) :
  exists npub npriv,
    (npub, npriv) =
      match alg with
      | QuantumEngine.KYBER512 | QuantumEngine.KYBER768 | QuantumEngine.KYBER1024 =>
          (32, 32)%nat
      | QuantumEngine.DILITHIUM2 | QuantumEngine.DILITHIUM3
      | QuantumEngine.DILITHIUM5 => (32, 64)%nat
      | QuantumEngine.FALCON512 | QuantumEngine.FALCON1024 => (24, 48)%nat
      end /\
    QuantumEngine.generate_pqc_keypair alg e =
      (Returns (Secrets.drawn (Secrets.skip (QuantumEngine.entropy e) npriv) npub,
                Secrets.drawn (QuantumEngine.entropy e) npriv),
       QuantumEngine.after_draw e (npriv + npub)).
Proof.
  destruct alg; eexists _, _; (split; [reflexivity |]);
    unfold QuantumEngine.generate_pqc_keypair;
    repeat match goal with
    | |- context [Secrets.token_bytes (Zpos ?p)] =>
        let n := eval cbv in (Z.to_nat (Zpos p)) in
        change (Secrets.token_bytes (Zpos p)) with (Secrets.token_bytes (Z.of_nat n))
    end;
    unfold bind at 1; rewrite rand_token_bytes;
    unfold bind at 1; rewrite rand_token_bytes;
    rewrite after_draw_add; reflexivity.
Qed.

(** X6.  [create_quantum_session] registers no session: for every
    algorithm it draws the key pair (64 bytes for Kyber, 96 for Dilithium,
    72 for Falcon) and the 48 bytes that [generate_quantum_key] reads, and
    then raises the AttributeError of [secrets.uniform], before
    [active_sessions] is written.  So on an engine that had no entry for
    the session id, [get_session_key] still returns [None] afterwards,
    [quantum_encrypt] raises ValueError "No quantum key found for session
    <id>" and [quantum_decrypt] raises ValueError "Invalid quantum
    key". *)
Theorem create_quantum_session_never_registers (session_id : string)
    (alg : QuantumEngine.QuantumAlgorithm) (e : QuantumEngine.engine) :
  exists e',
    QuantumEngine.create_quantum_session sha256_hexdigest urlsafe_b64 isoformat
      session_id alg e =
      (Raises (AttributeError "module 'secrets' has no attribute 'uniform'"), e') /\
    e' = QuantumEngine.after_draw e
           (match alg with
            | QuantumEngine.KYBER512 | QuantumEngine.KYBER768
            | QuantumEngine.KYBER1024 => 64
            | QuantumEngine.DILITHIUM2 | QuantumEngine.DILITHIUM3
            | QuantumEngine.DILITHIUM5 => 96
            | QuantumEngine.FALCON512 | QuantumEngine.FALCON1024 => 72
            end + 48)%nat /\
    QuantumEngine.active_sessions e' = QuantumEngine.active_sessions e /\
    (QuantumEngine.active_sessions e !! session_id = None ->
     QuantumEngine.get_session_key fromisoformat session_id e' = (Returns None, e') /\
     (forall plaintext,
         QuantumEngine.quantum_encrypt isoformat fromisoformat session_id plaintext e' =
           (Raises (ValueError ("No quantum key found for session " +:+ session_id)),
            e')) /\
     (forall data,
         QuantumEngine.quantum_decrypt fromisoformat session_id data e' =
           (Raises (ValueError "Invalid quantum key"), e'))).
Proof.
  destruct (generate_pqc_keypair_draws alg e) as (npub & npriv & Hlen & Ek).
  pose proof (generate_quantum_key_run 32 256
                (QuantumEngine.after_draw e (npriv + npub)) eq_refl) as Eq.
  eexists. split.
  { unfold QuantumEngine.create_quantum_session.
    unfold bind at 1. rewrite Ek. unfold bind at 1. rewrite Eq. reflexivity. }
  split.
  { rewrite after_draw_add. f_equal.
    destruct alg; inversion Hlen; subst; reflexivity. }
  split; [reflexivity |].
  intros Hnone.
  assert (G : QuantumEngine.get_session_key fromisoformat session_id
                (QuantumEngine.after_draw
                   (QuantumEngine.after_draw e (npriv + npub)) (32 + 16)) =
              (Returns None,
               QuantumEngine.after_draw
                 (QuantumEngine.after_draw e (npriv + npub)) (32 + 16))).
  { unfold QuantumEngine.get_session_key, bind, get.
    cbn [QuantumEngine.after_draw QuantumEngine.active_sessions]. rewrite Hnone.
    reflexivity. }
  split; [exact G |]. split.
  - intros plaintext. unfold QuantumEngine.quantum_encrypt, bind. rewrite G.
    reflexivity.
  - intros data. unfold QuantumEngine.quantum_decrypt, bind. rewrite G.
    reflexivity.
Qed.

End QuantumKeys.

Lemma generate_quantum_key_always_raises_witness :
  QuantumEngine.generate_quantum_key Examples.no_digest Examples.fixed_token
    256 Examples.fresh_engine =
    (Raises (AttributeError "module 'secrets' has no attribute 'uniform'"),
     QuantumEngine.after_draw Examples.fresh_engine 48) /\
  QuantumEngine.generate_quantum_key Examples.no_digest Examples.fixed_token
    (-1) Examples.fresh_engine =
    (Raises (ValueError "negative argument not allowed"), Examples.fresh_engine).
Proof.
  pose proof (generate_quantum_key_always_raises Examples.no_digest
                Examples.fixed_token) as (Hpos & Hneg & _).
  split.
  - apply (Hpos 256 Examples.fresh_engine). lia.
  - apply Hneg. lia.
Defined.

Lemma create_quantum_session_never_registers_witness :
  exists e',
    QuantumEngine.create_quantum_session Examples.no_digest Examples.fixed_token
      Examples.no_text "s1" QuantumEngine.FALCON512 Examples.fresh_engine =
      (Raises (AttributeError "module 'secrets' has no attribute 'uniform'"), e') /\
    QuantumEngine.active_sessions e' = ∅ /\
    QuantumEngine.quantum_encrypt Examples.no_text Examples.any_instant "s1" [72; 105]
      e' = (Raises (ValueError "No quantum key found for session s1"), e').
Proof.
  destruct (create_quantum_session_never_registers Examples.no_digest
              Examples.fixed_token Examples.no_text Examples.any_instant
              "s1" QuantumEngine.FALCON512 Examples.fresh_engine)
    as (e' & E & _ & Hs & Hk).
  destruct (Hk eq_refl) as (_ & Henc & _).
  exists e'. split; [exact E |]. split; [exact Hs |]. apply Henc.
Defined.

Lemma above_threshold_nonzero (x : float) :
  PrimFloat.ltb QuantumEngine.QBER_THRESHOLD x = true ->
  PrimFloat.eqb x PrimFloat.zero = false.
Proof.
  rewrite FloatAxioms.ltb_spec, FloatAxioms.eqb_spec.
  assert (T : Prim2SF QuantumEngine.QBER_THRESHOLD =
              Prim2SF QuantumEngine.QBER_THRESHOLD) by reflexivity.
  revert T. generalize (Prim2SF QuantumEngine.QBER_THRESHOLD) at 2 3.
  intros t T. vm_compute in T. subst t.
  change (Prim2SF 0) with (SpecFloat.S754_zero false).
  destruct (Prim2SF x) as [s | s | | s m e]; cbn; try discriminate;
    try reflexivity; destruct s; intros; reflexivity || discriminate.
Qed.

Section QuantumGuards.

Variable isoformat : Z -> string.
Variable fromisoformat : string -> result Z.

(** X7.  On a session id that has no entry, [quantum_encrypt] raises
    ValueError "No quantum key found for session <id>" and
    [quantum_decrypt] raises ValueError "Invalid quantum key", the engine
    unchanged.  On an existing session, [quantum_decrypt] raises "Invalid
    quantum key" when the envelope names another key id, and "Quantum key
    compromised - QBER too high" when the session's QBER is above 0.11,
    in both cases after 32 bytes were drawn; [quantum_encrypt] has no
    QBER check, it returns an envelope with the session's key id, QBER and
    algorithm whatever the QBER is. *)
Theorem quantum_session_guards :
  (forall (e : QuantumEngine.engine) (session_id : string) (plaintext : bytes),
      QuantumEngine.active_sessions e !! session_id = None ->
      QuantumEngine.quantum_encrypt isoformat fromisoformat session_id plaintext e =
        (Raises (ValueError ("No quantum key found for session " +:+ session_id)), e)) /\
  (forall (e : QuantumEngine.engine) (session_id : string)
          (data : QuantumEngine.encrypted_data),
      QuantumEngine.active_sessions e !! session_id = None ->
      QuantumEngine.quantum_decrypt fromisoformat session_id data e =
        (Raises (ValueError "Invalid quantum key"), e)) /\
  (forall (e : QuantumEngine.engine) (session_id : string)
          (session : QuantumEngine.session_data)
          (alg : QuantumEngine.QuantumAlgorithm) (created : Z)
          (data : QuantumEngine.encrypted_data),
      QuantumEngine.active_sessions e !! session_id = Some session ->
      QuantumEngine.QuantumAlgorithm_of_value (QuantumEngine.s_algorithm session) =
        Returns alg ->
      fromisoformat (QuantumEngine.s_created_at session) = Returns created ->
      (QuantumEngine.e_key_id data <> QuantumEngine.s_quantum_key_id session ->
       QuantumEngine.quantum_decrypt fromisoformat session_id data e =
         (Raises (ValueError "Invalid quantum key"), QuantumEngine.after_draw e 32)) /\
      (forall q,
          QuantumEngine.e_key_id data = QuantumEngine.s_quantum_key_id session ->
          QuantumEngine.s_qber session = Some q ->
          PrimFloat.ltb QuantumEngine.QBER_THRESHOLD q = true ->
          QuantumEngine.quantum_decrypt fromisoformat session_id data e =
            (Raises (ValueError "Quantum key compromised - QBER too high"),
             QuantumEngine.after_draw e 32)) /\
      (forall plaintext,
          exists encrypted e',
            QuantumEngine.quantum_encrypt isoformat fromisoformat session_id
              plaintext e = (Returns encrypted, e') /\
            QuantumEngine.e_key_id encrypted =
              QuantumEngine.s_quantum_key_id session /\
            QuantumEngine.e_qber encrypted = QuantumEngine.s_qber session /\
            QuantumEngine.e_algorithm encrypted = QuantumEngine.s_algorithm session)).
Proof.
  split; [| split].
  - intros e session_id plaintext Hs.
    unfold QuantumEngine.quantum_encrypt, QuantumEngine.get_session_key, bind, get.
    rewrite Hs. reflexivity.
  - intros e session_id data Hs.
    unfold QuantumEngine.quantum_decrypt, QuantumEngine.get_session_key, bind, get.
    rewrite Hs. reflexivity.
  - intros e session_id session alg created data Hs Ha Hc.
    pose proof (get_session_key_fresh_material fromisoformat e session_id session
                  alg created Hs Ha Hc) as Ek.
    split; [| split].
    + intros Hne. unfold QuantumEngine.quantum_decrypt, bind. rewrite Ek.
      cbn [QuantumEngine.key_id].
      destruct (String.eqb_spec (QuantumEngine.s_quantum_key_id session)
                  (QuantumEngine.e_key_id data)) as [E|E]; [congruence |].
      reflexivity.
    + intros q Hid Hq Hgt. unfold QuantumEngine.quantum_decrypt, bind. rewrite Ek.
      cbn [QuantumEngine.key_id QuantumEngine.qber]. rewrite Hid, String.eqb_refl.
      cbn [negb]. rewrite Hq. unfold QuantumEngine.qber_too_high.
      rewrite Hgt, (above_threshold_nonzero q Hgt). reflexivity.
    + intros plaintext. unfold QuantumEngine.quantum_encrypt. unfold bind at 1.
      rewrite Ek. cbn [QuantumEngine.key_material].
      rewrite symmetric_encrypt_stream by apply drawn_nonempty.
      unfold bind, lift_result, QuantumEngine.utcnow, ret.
      eexists _, _. split; [reflexivity |].
      cbn [QuantumEngine.e_key_id QuantumEngine.e_qber QuantumEngine.e_algorithm
           QuantumEngine.key_id QuantumEngine.qber QuantumEngine.algorithm].
      split; [reflexivity |]. split; [reflexivity |].
      unfold QuantumEngine.QuantumAlgorithm_of_value in Ha.
      destruct (List.find _ _) as [a|] eqn:F; [| discriminate].
      inversion Ha; subst a. apply find_some in F. destruct F as [_ F].
      apply String.eqb_eq in F. exact F.
Qed.

End QuantumGuards.

Lemma quantum_session_guards_witness :
  QuantumEngine.quantum_encrypt Examples.no_text Examples.any_instant "s9" [1; 2]
    Fixtures.session_engine =
    (Raises (ValueError "No quantum key found for session s9"),
     Fixtures.session_engine) /\
  QuantumEngine.quantum_decrypt Examples.any_instant "s2"
    (Fixtures.envelope "qk_one" "00") Fixtures.session_engine =
    (Raises (ValueError "Invalid quantum key"),
     QuantumEngine.after_draw Fixtures.session_engine 32) /\
  QuantumEngine.quantum_decrypt Examples.any_instant "s2"
    (Fixtures.envelope "qk_two" "00") Fixtures.session_engine =
    (Raises (ValueError "Quantum key compromised - QBER too high"),
     QuantumEngine.after_draw Fixtures.session_engine 32) /\
  exists encrypted e',
    QuantumEngine.quantum_encrypt Examples.no_text Examples.any_instant "s2" [1; 2]
      Fixtures.session_engine = (Returns encrypted, e') /\
    QuantumEngine.e_key_id encrypted = "qk_two"%string.
Proof.
  pose proof (quantum_session_guards Examples.no_text Examples.any_instant)
    as (Hmissing & _ & Hknown).
  split; [apply (Hmissing Fixtures.session_engine "s9"%string); reflexivity |].
  destruct (Hknown Fixtures.session_engine "s2"%string Fixtures.noisy_session
              QuantumEngine.FALCON512 0 (Fixtures.envelope "qk_one" "00")
              eq_refl eq_refl eq_refl) as (Hid & _ & _).
  destruct (Hknown Fixtures.session_engine "s2"%string Fixtures.noisy_session
              QuantumEngine.FALCON512 0 (Fixtures.envelope "qk_two" "00")
              eq_refl eq_refl eq_refl) as (_ & Hqber & Henc).
  split; [apply Hid; discriminate |].
  split; [apply (Hqber 0x1p-1%float); reflexivity |].
  destruct (Henc [1; 2]) as (encrypted & e' & E & Hk & _).
  exists encrypted, e'. split; [exact E | exact Hk].
Defined.

(** ** quantum_engine.py: the security report *)

Lemma algorithm_secure_iff (v : string) :
  existsb (String.eqb v) (map QuantumEngine.algorithm_value QuantumEngine.all_algorithms)
    = true <->
  exists alg, QuantumEngine.QuantumAlgorithm_of_value v = Returns alg.
Proof.
  unfold QuantumEngine.QuantumAlgorithm_of_value. split.
  - intros H. apply existsb_exists in H. destruct H as (w & Hw & E).
    apply in_map_iff in Hw. destruct Hw as (a & <- & Ha).
    destruct (List.find _ _) as [b|] eqn:F; [eauto |].
    exfalso. pose proof (find_none _ _ F a Ha) as N. cbn beta in N.
    rewrite String.eqb_sym in N. congruence.
  - intros [alg H]. destruct (List.find _ _) as [b|] eqn:F; [| discriminate].
    apply find_some in F. destruct F as [Hin E].
    apply existsb_exists. exists (QuantumEngine.algorithm_value b).
    split; [apply in_map; exact Hin | rewrite String.eqb_sym; exact E].
Qed.

(** X8.  [verify_quantum_security] returns the "Session not found" answer
    for a session id without entry.  For an entry with a stored QBER it
    never changes the engine and reports [valid] exactly when the session
    is active, the QBER is strictly below 0.11 and the algorithm name is
    a value of [QuantumAlgorithm]; [key_verified] and [timestamp_valid]
    are always true; the recommendations name the QBER exactly when it is
    not below 0.11 and the inactive session exactly when it is inactive,
    so an unknown algorithm makes the report invalid without any
    recommendation. *)
Theorem verify_quantum_security_report :
  (forall (e : QuantumEngine.engine) (session_id : string),
      QuantumEngine.active_sessions e !! session_id = None ->
      QuantumSecurity.verify_quantum_security session_id e =
        (Returns QuantumSecurity.SessionNotFound, e)) /\
  (forall (e : QuantumEngine.engine) (session_id : string)
          (session : QuantumEngine.session_data) (q : float),
      QuantumEngine.active_sessions e !! session_id = Some session ->
      QuantumEngine.s_qber session = Some q ->
      exists valid checks recommendations,
        QuantumSecurity.verify_quantum_security session_id e =
          (Returns (QuantumSecurity.Report valid checks recommendations), e) /\
        (valid = true <->
         QuantumEngine.s_is_active session = true /\
         PrimFloat.ltb q QuantumEngine.QBER_THRESHOLD = true /\
         exists alg,
           QuantumEngine.QuantumAlgorithm_of_value (QuantumEngine.s_algorithm session)
             = Returns alg) /\
        QuantumSecurity.key_verified checks = true /\
        QuantumSecurity.timestamp_valid checks = true /\
        (In "QBER too high - possible eavesdropping detected"%string recommendations
         <-> PrimFloat.ltb q QuantumEngine.QBER_THRESHOLD = false) /\
        (In "Session inactive - regenerate quantum key"%string recommendations
         <-> QuantumEngine.s_is_active session = false) /\
        (recommendations = [] <->
         QuantumEngine.s_is_active session = true /\
         PrimFloat.ltb q QuantumEngine.QBER_THRESHOLD = true)).
Proof.
  split.
  - intros e session_id Hs.
    unfold QuantumSecurity.verify_quantum_security, bind, get. rewrite Hs. reflexivity.
  - intros e session_id session q Hs Hq.
    unfold QuantumSecurity.verify_quantum_security, bind, get. rewrite Hs, Hq.
    eexists _, _, _. split; [reflexivity |].
    unfold QuantumSecurity.all_valid, QuantumSecurity._get_security_recommendations.
    cbn [QuantumSecurity.session_active QuantumSecurity.qber_valid
         QuantumSecurity.key_verified QuantumSecurity.algorithm_secure
         QuantumSecurity.timestamp_valid forallb id].
    pose proof (algorithm_secure_iff (QuantumEngine.s_algorithm session)) as Ha.
    destruct (existsb _ _); destruct (QuantumEngine.s_is_active session);
      destruct (PrimFloat.ltb q QuantumEngine.QBER_THRESHOLD);
      cbn; intuition (try discriminate; try reflexivity).
Qed.

Section ThresholdBoundary.

Variable fromisoformat : string -> result Z.

(** X9.  The two QBER checks of the engine do not meet at the threshold:
    for a session whose stored QBER is neither below nor above 0.11 (that
    is 0.11 itself), [verify_quantum_security] reports the session
    invalid with the recommendation "QBER too high - possible
    eavesdropping detected", while [quantum_decrypt] does not reject the
    key and returns a text for every envelope that names the session's
    key id and holds hexadecimal text. *)
Theorem qber_threshold_checks_disagree (e : QuantumEngine.engine)
    (session_id : string) (session : QuantumEngine.session_data) (q : float)
    (alg : QuantumEngine.QuantumAlgorithm) (created : Z)
    (data : QuantumEngine.encrypted_data) (ciphertext : bytes) :
  QuantumEngine.active_sessions e !! session_id = Some session ->
  QuantumEngine.s_qber session = Some q ->
  PrimFloat.ltb q QuantumEngine.QBER_THRESHOLD = false ->
  PrimFloat.ltb QuantumEngine.QBER_THRESHOLD q = false ->
  QuantumEngine.QuantumAlgorithm_of_value (QuantumEngine.s_algorithm session) =
    Returns alg ->
  fromisoformat (QuantumEngine.s_created_at session) = Returns created ->
  QuantumEngine.e_key_id data = QuantumEngine.s_quantum_key_id session ->
  Hex.fromhex (QuantumEngine.e_ciphertext data) = Returns ciphertext ->
  (exists checks recommendations,
      QuantumSecurity.verify_quantum_security session_id e =
        (Returns (QuantumSecurity.Report false checks recommendations), e) /\
      QuantumSecurity.qber_valid checks = false /\
      In "QBER too high - possible eavesdropping detected"%string recommendations) /\
  (exists plaintext,
      QuantumEngine.quantum_decrypt fromisoformat session_id data e =
        (Returns plaintext, QuantumEngine.after_draw e 32)).
Proof.
  intros Hs Hq Hlt Hgt Ha Hc Hid Hx. split.
  - unfold QuantumSecurity.verify_quantum_security, bind, get. rewrite Hs, Hq.
    unfold QuantumSecurity.all_valid, QuantumSecurity._get_security_recommendations.
    cbn [QuantumSecurity.session_active QuantumSecurity.qber_valid
         QuantumSecurity.key_verified QuantumSecurity.algorithm_secure
         QuantumSecurity.timestamp_valid forallb id].
    rewrite Hlt. cbn [negb andb]. rewrite andb_false_r.
    eexists _, _. split; [reflexivity |]. split; [reflexivity |].
    left. reflexivity.
  - unfold QuantumEngine.quantum_decrypt, bind.
    rewrite (get_session_key_fresh_material fromisoformat e session_id session
               alg created Hs Ha Hc).
    cbn [QuantumEngine.key_id QuantumEngine.qber QuantumEngine.key_material].
    rewrite Hid, String.eqb_refl. cbn [negb]. rewrite Hq.
    unfold QuantumEngine.qber_too_high. rewrite Hgt, andb_false_r.
    unfold lift_result. rewrite Hx. unfold QuantumEngine._symmetric_decrypt.
    rewrite symmetric_encrypt_stream by apply drawn_nonempty.
    eexists. reflexivity.
Qed.

End ThresholdBoundary.

Lemma verify_quantum_security_report_witness :
  QuantumSecurity.verify_quantum_security "s9" Fixtures.session_engine =
    (Returns QuantumSecurity.SessionNotFound, Fixtures.session_engine) /\
  exists checks,
    QuantumSecurity.verify_quantum_security "s2" Fixtures.session_engine =
      (Returns (QuantumSecurity.Report false checks
                  ["QBER too high - possible eavesdropping detected"%string]),
       Fixtures.session_engine).
Proof.
  pose proof verify_quantum_security_report as [Hmissing Hknown].
  split; [apply Hmissing; reflexivity |].
  destruct (Hknown Fixtures.session_engine "s2"%string Fixtures.noisy_session
              0x1p-1%float eq_refl eq_refl)
    as (valid & checks & recs & E & _).
  exists checks. rewrite E. vm_compute in E. inversion E. reflexivity.
Defined.

Lemma qber_threshold_checks_disagree_witness :
  (exists checks recommendations,
      QuantumSecurity.verify_quantum_security "s1" Fixtures.session_engine =
        (Returns (QuantumSecurity.Report false checks recommendations),
         Fixtures.session_engine) /\
      QuantumSecurity.qber_valid checks = false) /\
  exists plaintext,
    QuantumEngine.quantum_decrypt Examples.any_instant "s1"
      (Fixtures.envelope "qk_one" "0a0b") Fixtures.session_engine =
      (Returns plaintext, QuantumEngine.after_draw Fixtures.session_engine 32).
Proof.
  destruct (qber_threshold_checks_disagree Examples.any_instant
              Fixtures.session_engine "s1" Fixtures.boundary_session
              QuantumEngine.QBER_THRESHOLD QuantumEngine.KYBER768 0
              (Fixtures.envelope "qk_one" "0a0b") [10; 11]
              eq_refl eq_refl eq_refl eq_refl eq_refl eq_refl eq_refl eq_refl)
    as [(checks & recs & E & Hq & _) Hd].
  split; [exists checks, recs; split; [exact E | exact Hq] | exact Hd].
Defined.

(** ** redis_client.py: more on the rate limiter *)

Lemma tick_connected (d : Z) (s : Redis.server) :
  RedisClient.tick d {| RedisClient.redis := Some s |} =
    (Returns tt, {| RedisClient.redis := Some (Redis.advance d s) |}).
Proof. reflexivity. Qed.

(** Requests inside a running window: the counter [c] grows by one per
    request and the expiry stays. *)
Lemma requests_in_window (key : string) (limit window : Z) (delays : list Z) :
  forall (s : Redis.server) (c T : Z),
    Redis.keyspace s !! key =
      Some {| Redis.value := Redis.RInt c; Redis.expires_at := Some T |} ->
    1 <= c -> c + Z.of_nat (length delays) < Redis.INT64_MAX ->
    Forall (fun d => 0 <= d) delays ->
    Redis.time s + fold_right Z.add 0 delays < T ->
    exists s',
      RateLimiter.requests key limit window delays {| RedisClient.redis := Some s |} =
        (Returns (map (fun i => c + Z.of_nat i + 1 <=? limit) (seq 0 (length delays))),
         {| RedisClient.redis := Some s' |}) /\
      Redis.keyspace s' !! key =
        Some {| Redis.value := Redis.RInt (c + Z.of_nat (length delays));
                Redis.expires_at := Some T |} /\
      Redis.time s' = Redis.time s + fold_right Z.add 0 delays.
Proof.
  induction delays as [|d ds IH]; intros s c T Hk Hc Hmax Hpos Hsum.
  - exists s. cbn. rewrite Z.add_0_r. split; [reflexivity |].
    split; [exact Hk | lia].
  - inversion Hpos as [|? ? Hd Hds]; subst. cbn [fold_right length] in *.
    assert (Hrest : 0 <= fold_right Z.add 0 ds).
    { clear -Hds. induction Hds; cbn; lia. }
    destruct (counter_after_advance s key c T d Hk ltac:(lia)) as [C X].
    destruct (check_rate_limit_step (Redis.advance d s) key limit window c C
                ltac:(lia)) as (s1 & E1 & K1 & T1 & _).
    rewrite X in K1.
    destruct (Z.eqb_spec (c + 1) 1) as [H1|H1]; [lia |].
    destruct (IH s1 (c + 1) T K1 ltac:(lia) ltac:(lia) Hds) as (s' & E & K & Tm).
    { rewrite T1. cbn [Redis.advance Redis.time]. lia. }
    exists s'. cbn [RateLimiter.requests]. unfold bind at 1. rewrite tick_connected.
    unfold bind at 1. rewrite E1. unfold bind at 1. rewrite E. unfold ret.
    split; [| split].
    + f_equal. f_equal. cbn [seq map]. rewrite Z.add_0_r. f_equal.
      rewrite <- seq_shift, map_map. apply map_ext. intros i. f_equal. lia.
    + rewrite K. do 3 f_equal. lia.
    + rewrite Tm, T1. cbn [Redis.advance Redis.time]. lia.
Qed.

Lemma sum_delays_nonneg (delays : list Z) :
  Forall (fun d => 0 <= d) delays -> 0 <= fold_right Z.add 0 delays.
Proof. intros H. induction H; cbn; lia. Qed.

(** X11.  On a key that is absent or expired, with a positive window:
    of the requests that arrive before the window of the first one ends,
    the [i]-th is admitted exactly when [i <= limit]; the first request
    at or after the end of the window is counted as number 1 again, is
    admitted whenever [1 <= limit], and starts a new window of the same
    length. *)
Theorem fixed_window_counts_and_resets (s : Redis.server) (key : string)
    (limit window : Z) (delays : list Z) (d : Z) :
  Redis.live s key = None ->
  0 < window ->
  Forall (fun d => 0 <= d) delays ->
  fold_right Z.add 0 delays < window ->
  window <= fold_right Z.add 0 delays + d ->
  Z.of_nat (length delays) + 1 < Redis.INT64_MAX ->
  exists s',
    (first <- RedisClient.check_rate_limit key limit window ;;
     rest <- RateLimiter.requests key limit window delays ;;
     RedisClient.tick d ;;;
     next <- RedisClient.check_rate_limit key limit window ;;
     ret (first :: rest, next)) {| RedisClient.redis := Some s |} =
      (Returns (map (fun i => Z.of_nat i + 1 <=? limit) (seq 0 (S (length delays))),
                1 <=? limit),
       {| RedisClient.redis := Some s' |}) /\
    Redis.keyspace s' !! key =
      Some {| Redis.value := Redis.RInt 1;
              Redis.expires_at :=
                Some (Redis.time s + fold_right Z.add 0 delays + d + window) |}.
Proof.
  intros Hfresh Hw Hpos Hsum Hd Hmax.
  assert (C0 : Redis.counter s key = Some 0)
    by (unfold Redis.counter; rewrite Hfresh; reflexivity).
  destruct (check_rate_limit_step s key limit window 0 C0
              ltac:(unfold Redis.INT64_MAX; lia)) as (s1 & E1 & K1 & T1 & _).
  cbn [Z.add Z.eqb Pos.eqb] in K1.
  destruct (requests_in_window key limit window delays s1 1 (Redis.time s + window)
              K1 ltac:(lia) ltac:(lia) Hpos ltac:(lia)) as (s2 & E2 & K2 & T2).
  assert (C2 : Redis.counter (Redis.advance d s2) key = Some 0).
  { unfold Redis.counter, Redis.live, Redis.advance. cbn. rewrite K2.
    unfold Redis.expired. cbn.
    destruct (Z.leb_spec (Redis.time s + window) (Redis.time s2 + d)); [reflexivity | lia]. }
  destruct (check_rate_limit_step (Redis.advance d s2) key limit window 0 C2
              ltac:(unfold Redis.INT64_MAX; lia)) as (s3 & E3 & K3 & _).
  cbn [Z.add Z.eqb Pos.eqb] in K3.
  exists s3. unfold bind at 1. rewrite E1. unfold bind at 1. rewrite E2.
  unfold bind at 1. rewrite tick_connected. unfold bind, ret. rewrite E3.
  split.
  - do 3 f_equal. cbn [seq map]. f_equal.
    rewrite <- seq_shift, map_map. apply map_ext. intros i. f_equal. lia.
  - rewrite K3. do 3 f_equal. cbn [Redis.advance Redis.time]. lia.
Qed.

Lemma fixed_window_counts_and_resets_witness :
  fst ((first <- RedisClient.check_rate_limit "rl:login:alice" 2 60 ;;
        rest <- RateLimiter.requests "rl:login:alice" 2 60 [10; 20; 5] ;;
        RedisClient.tick 25 ;;;
        next <- RedisClient.check_rate_limit "rl:login:alice" 2 60 ;;
        ret (first :: rest, next))
         {| RedisClient.redis := Some Examples.empty_server |}) =
    Returns ([true; true; false; false], true).
Proof.
  destruct (fixed_window_counts_and_resets Examples.empty_server
              "rl:login:alice" 2 60 [10; 20; 5] 25 eq_refl ltac:(lia)
              ltac:(repeat constructor; lia) ltac:(cbn; lia) ltac:(cbn; lia)
              ltac:(cbn; unfold Redis.INT64_MAX; lia))
    as (s' & E & _).
  rewrite E. reflexivity.
Defined.

(** X12.  A key that holds a counter [c >= 1] and no expiry never gets
    one from [check_rate_limit], which calls [EXPIRE] only when [INCR]
    answers 1: whatever time passes between the requests, the [i]-th of
    them answers [c + i <= limit] and the key still has no expiry; once
    [limit <= c], every later request is refused. *)
Theorem rate_limit_key_without_expiry_never_resets (key : string)
    (limit window : Z) (delays : list Z) :
  forall (s : Redis.server) (c : Z),
    Redis.keyspace s !! key =
      Some {| Redis.value := Redis.RInt c; Redis.expires_at := None |} ->
    1 <= c -> c + Z.of_nat (length delays) < Redis.INT64_MAX ->
    exists s',
      RateLimiter.requests key limit window delays {| RedisClient.redis := Some s |} =
        (Returns (map (fun i => c + Z.of_nat i + 1 <=? limit) (seq 0 (length delays))),
         {| RedisClient.redis := Some s' |}) /\
      Redis.keyspace s' !! key =
        Some {| Redis.value := Redis.RInt (c + Z.of_nat (length delays));
                Redis.expires_at := None |} /\
      (limit <= c ->
       map (fun i => c + Z.of_nat i + 1 <=? limit) (seq 0 (length delays)) =
         repeat false (length delays)).
Proof.
  induction delays as [|d ds IH]; intros s c Hk Hc Hmax.
  - exists s. cbn. rewrite Z.add_0_r. split; [reflexivity |].
    split; [exact Hk | reflexivity].
  - cbn [length] in *.
    assert (C : Redis.counter (Redis.advance d s) key = Some c /\
                Redis.expiry (Redis.advance d s) key = None).
    { unfold Redis.counter, Redis.expiry, Redis.live, Redis.advance. cbn.
      rewrite Hk. cbn. split; reflexivity. }
    destruct C as [C X].
    destruct (check_rate_limit_step (Redis.advance d s) key limit window c C
                ltac:(lia)) as (s1 & E1 & K1 & T1 & _).
    rewrite X in K1.
    destruct (Z.eqb_spec (c + 1) 1) as [H1|H1]; [lia |].
    destruct (IH s1 (c + 1) K1 ltac:(lia) ltac:(lia)) as (s' & E & K & Hall).
    exists s'. cbn [RateLimiter.requests]. unfold bind at 1. rewrite tick_connected.
    unfold bind at 1. rewrite E1. unfold bind at 1. rewrite E. unfold ret.
    assert (Hshift :
              map (fun i => c + Z.of_nat i + 1 <=? limit) (seq 0 (S (length ds))) =
              (c + 1 <=? limit) ::
              map (fun i => c + 1 + Z.of_nat i + 1 <=? limit) (seq 0 (length ds))).
    { cbn [seq map]. rewrite Z.add_0_r. f_equal.
      rewrite <- seq_shift, map_map. apply map_ext. intros i. f_equal. lia. }
    split; [| split].
    + rewrite Hshift. reflexivity.
    + rewrite K. do 3 f_equal. lia.
    + intros Hl. rewrite Hshift, Hall by lia. cbn [repeat]. f_equal.
      destruct (Z.leb_spec (c + 1) limit); [lia | reflexivity].
Qed.

Lemma rate_limit_key_without_expiry_never_resets_witness :
  fst (RateLimiter.requests "rl:api" 5 60 [0; 100000; 100000]
         {| RedisClient.redis := Some Fixtures.stuck_server |}) =
    Returns [false; false; false].
Proof.
  destruct (rate_limit_key_without_expiry_never_resets "rl:api" 5 60
              [0; 100000; 100000] Fixtures.stuck_server 5 eq_refl ltac:(lia)
              ltac:(cbn; unfold Redis.INT64_MAX; lia))
    as (s' & E & _ & Hall).
  rewrite E, Hall by lia. reflexivity.
Defined.

(** X13.  With a window of zero or fewer seconds the limiter does not
    limit: the [EXPIRE] that follows the first [INCR] removes the key at
    once, so every request on a fresh key is counted as number 1 and is
    admitted whenever [1 <= limit]. *)
Theorem rate_limit_nonpositive_window_never_limits (key : string)
    (limit window : Z) (delays : list Z) :
  window <= 0 ->
  Forall (fun d => 0 <= d) delays ->
  forall s : Redis.server,
    Redis.live s key = None ->
    exists s',
      RateLimiter.requests key limit window delays {| RedisClient.redis := Some s |} =
        (Returns (repeat (1 <=? limit) (length delays)),
         {| RedisClient.redis := Some s' |}) /\
      Redis.live s' key = None.
Proof.
  intros Hw Hpos. induction Hpos as [|d ds Hd Hds IH]; intros s Hfresh.
  - exists s. split; [reflexivity | exact Hfresh].
  - assert (Hlive : Redis.live (Redis.advance d s) key = None).
    { unfold Redis.live, Redis.advance in *. cbn.
      destruct (Redis.keyspace s !! key) as [e|]; [| reflexivity].
      unfold Redis.expired in *. destruct (Redis.expires_at e) as [T|]; [| discriminate].
      destruct (Z.leb_spec T (Redis.time s)); [| discriminate].
      destruct (Z.leb_spec T (Redis.time s + d)); [reflexivity | lia]. }
    assert (C0 : Redis.counter (Redis.advance d s) key = Some 0)
      by (unfold Redis.counter; rewrite Hlive; reflexivity).
    destruct (check_rate_limit_step (Redis.advance d s) key limit window 0 C0
                ltac:(unfold Redis.INT64_MAX; lia)) as (s1 & E1 & K1 & T1 & _).
    change (0 + 1 =? 1) with true in K1. cbv iota in K1.
    assert (Hgone : Redis.live s1 key = None).
    { unfold Redis.live. rewrite K1. unfold Redis.expired. cbn [Redis.expires_at].
      rewrite T1.
      assert (X : (Redis.time (Redis.advance d s) + window <=?
                   Redis.time (Redis.advance d s)) = true) by (apply Z.leb_le; lia).
      rewrite X. reflexivity. }
    destruct (IH s1 Hgone) as (s' & E & Hend).
    exists s'. cbn [RateLimiter.requests]. unfold bind at 1. rewrite tick_connected.
    unfold bind at 1. rewrite E1. unfold bind at 1. rewrite E. unfold ret.
    split; [reflexivity | exact Hend].
Qed.

Lemma rate_limit_nonpositive_window_never_limits_witness :
  fst (RateLimiter.requests "rl:login:alice" 1 0 [0; 0; 0; 0]
         {| RedisClient.redis := Some Examples.empty_server |}) =
    Returns [true; true; true; true].
Proof.
  destruct (rate_limit_nonpositive_window_never_limits "rl:login:alice" 1 0
              [0; 0; 0; 0] ltac:(lia) ltac:(repeat constructor; lia)
              Examples.empty_server eq_refl) as (s' & E & _).
  rewrite E. reflexivity.
Defined.

(** ** redis_client.py: the cache and the sessions *)

Lemma to_text_of_text (s : string) :
  RedisStrings.to_text (RedisStrings.of_text s) = s.
Proof.
  unfold RedisStrings.of_text, RedisStrings.canonical_int.
  destruct (DecimalString.NilZero.int_of_string s) as [d|] eqn:E; [| reflexivity].
  destruct (Decimal.int_beq (Decimal.norm d) d) eqn:N; [| reflexivity].
  destruct (_ <=? _); [| reflexivity]. destruct (_ <=? _); [| reflexivity].
  cbn. apply Decimal.internal_int_dec_bl in N.
  rewrite DecimalZ.to_of, N. apply DecimalString.NilZero.sis. exact E.
Qed.

Lemma live_advance_store (s : Redis.server) (key : string) (e : Redis.entry) (d : Z) :
  Redis.live (Redis.advance d (Redis.store s key e)) key =
    if Redis.expired (Redis.time s + d) e then None else Some e.
Proof.
  unfold Redis.live, Redis.advance, Redis.store. cbn. rewrite lookup_insert_eq.
  reflexivity.
Qed.

Lemma live_advance_store_ne (s : Redis.server) (key other : string)
    (e : Redis.entry) (d : Z) :
  other <> key ->
  Redis.live (Redis.advance d (Redis.store s key e)) other =
    Redis.live (Redis.advance d s) other.
Proof.
  intros H. unfold Redis.live, Redis.advance, Redis.store. cbn.
  rewrite lookup_insert_ne by congruence. reflexivity.
Qed.

Section CacheProperties.

Variable A : Type.
Variable str : A -> string.

(** X14.  [cache_get] returns [str(value)] for a key that [cache_set]
    wrote less than [expire] seconds ago, whatever the text (numerals
    included), and nothing from [expire] seconds on; [cache_delete]
    reports one key deleted, after which [cache_get] returns nothing;
    [cache_set] with [expire <= 0] is answered with an error by the
    server and stores nothing. *)
Theorem cache_entry_lives_for_expire :
  (forall (s : Redis.server) (key : string) (v : A) (expire elapsed : Z),
      0 < expire -> 0 <= elapsed < expire ->
      fst ((RedisHelpers.cache_set A str key v expire ;;;
            RedisClient.tick elapsed ;;;
            RedisHelpers.cache_get key) {| RedisClient.redis := Some s |}) =
        Returns (Some (str v))) /\
  (forall (s : Redis.server) (key : string) (v : A) (expire elapsed : Z),
      0 < expire -> expire <= elapsed ->
      fst ((RedisHelpers.cache_set A str key v expire ;;;
            RedisClient.tick elapsed ;;;
            RedisHelpers.cache_get key) {| RedisClient.redis := Some s |}) =
        Returns None) /\
  (forall (s : Redis.server) (key : string) (v : A) (expire : Z),
      expire <= 0 ->
      RedisHelpers.cache_set A str key v expire {| RedisClient.redis := Some s |} =
        (Raises (ResponseError "invalid expire time in 'set' command"),
         {| RedisClient.redis := Some s |})) /\
  (forall (s : Redis.server) (key : string) (v : A) (expire elapsed : Z),
      0 < expire -> 0 <= elapsed < expire ->
      fst ((RedisHelpers.cache_set A str key v expire ;;;
            RedisClient.tick elapsed ;;;
            deleted <- RedisHelpers.cache_delete key ;;
            found <- RedisHelpers.cache_get key ;;
            ret (deleted, found)) {| RedisClient.redis := Some s |}) =
        Returns (1, None)).
Proof.
  repeat match goal with |- _ /\ _ => split end.
  - intros s key v expire elapsed He Hel.
    unfold RedisHelpers.cache_set, RedisHelpers.cache_get, RedisHelpers.set,
      RedisHelpers.get, RedisClient.tick, RedisClient.on_server, bind,
      RedisStrings.SET, RedisStrings.GET.
    cbn [RedisClient.redis]. destruct (Z.leb_spec expire 0); [lia |].
    cbn [RedisClient.redis]. rewrite live_advance_store.
    unfold Redis.expired. cbn [Redis.expires_at].
    destruct (Z.leb_spec (Redis.time s + expire) (Redis.time s + elapsed)); [lia |].
    cbn. rewrite to_text_of_text. reflexivity.
  - intros s key v expire elapsed He Hel.
    unfold RedisHelpers.cache_set, RedisHelpers.cache_get, RedisHelpers.set,
      RedisHelpers.get, RedisClient.tick, RedisClient.on_server, bind,
      RedisStrings.SET, RedisStrings.GET.
    cbn [RedisClient.redis]. destruct (Z.leb_spec expire 0); [lia |].
    cbn [RedisClient.redis]. rewrite live_advance_store.
    unfold Redis.expired. cbn [Redis.expires_at].
    destruct (Z.leb_spec (Redis.time s + expire) (Redis.time s + elapsed)); [| lia].
    reflexivity.
  - intros s key v expire He.
    unfold RedisHelpers.cache_set, RedisHelpers.set, RedisClient.on_server,
      RedisStrings.SET.
    cbn [RedisClient.redis]. destruct (Z.leb_spec expire 0); [reflexivity | lia].
  - intros s key v expire elapsed He Hel.
    unfold RedisHelpers.cache_set, RedisHelpers.cache_get, RedisHelpers.cache_delete,
      RedisHelpers.set, RedisHelpers.get, RedisHelpers.delete, RedisClient.tick,
      RedisClient.on_server, bind, RedisStrings.SET, RedisStrings.GET,
      RedisStrings.DEL.
    cbn [RedisClient.redis]. destruct (Z.leb_spec expire 0); [lia |].
    cbn [RedisClient.redis]. rewrite live_advance_store.
    unfold Redis.expired. cbn [Redis.expires_at].
    destruct (Z.leb_spec (Redis.time s + expire) (Redis.time s + elapsed)); [lia |].
    cbn [RedisClient.redis]. unfold Redis.live at 1. cbn [Redis.keyspace].
    rewrite lookup_delete_eq. reflexivity.
Qed.

End CacheProperties.

Lemma cache_entry_lives_for_expire_witness :
  fst ((RedisHelpers.cache_set string Fixtures.as_is "answer" "42" 300 ;;;
        RedisClient.tick 299 ;;;
        RedisHelpers.cache_get "answer")
         {| RedisClient.redis := Some Examples.empty_server |}) =
    Returns (Some "42"%string) /\
  fst ((RedisHelpers.cache_set string Fixtures.as_is "answer" "42" 300 ;;;
        RedisClient.tick 300 ;;;
        RedisHelpers.cache_get "answer")
         {| RedisClient.redis := Some Examples.empty_server |}) = Returns None /\
  RedisHelpers.cache_set string Fixtures.as_is "answer" "42" 0
    {| RedisClient.redis := Some Examples.empty_server |} =
    (Raises (ResponseError "invalid expire time in 'set' command"),
     {| RedisClient.redis := Some Examples.empty_server |}).
Proof.
  pose proof (cache_entry_lives_for_expire string Fixtures.as_is)
    as (Hlive & Hgone & Hbad & _).
  split; [apply Hlive; lia |]. split; [apply Hgone; lia | apply Hbad; lia].
Defined.

Section SessionProperties.

Variable value : Type.
Variable json_dumps : gmap string value -> string.
Variable json_loads : string -> result (gmap string value).

Lemma session_key_ne (a b : string) : "session:" +:+ a <> "user_session:" +:+ b.
Proof. discriminate. Qed.

(** A JSON text is never empty: [json.dumps] writes at least the braces. *)
Lemma get_json_after_set (s : Redis.server) (key : string)
    (data : gmap string value) (seconds elapsed : Z) :
  json_loads (json_dumps data) = Returns data ->
  0 < seconds -> 0 <= elapsed < seconds ->
  exists s1,
    RedisHelpers.set_json value json_dumps key data (Some seconds)
      {| RedisClient.redis := Some s |} =
      (Returns true, {| RedisClient.redis := Some s1 |}) /\
    Redis.keyspace s1 !! key =
      Some {| Redis.value := RedisStrings.of_text (json_dumps data);
              Redis.expires_at := Some (Redis.time s + seconds) |} /\
    Redis.time s1 = Redis.time s /\
    (forall other, other <> key ->
                   Redis.keyspace s1 !! other = Redis.keyspace s !! other) /\
    (json_dumps data <> ""%string ->
     RedisHelpers.get_json value json_loads key
       {| RedisClient.redis := Some (Redis.advance elapsed s1) |} =
       (Returns (Some data), {| RedisClient.redis := Some (Redis.advance elapsed s1) |})).
Proof.
  intros Hrt Hs Hel.
  unfold RedisHelpers.set_json, RedisHelpers.set, RedisClient.on_server,
    RedisStrings.SET.
  cbn [RedisClient.redis]. destruct (Z.leb_spec seconds 0); [lia |].
  eexists. split; [reflexivity |]. split; [cbn; apply lookup_insert_eq |].
  split; [reflexivity |]. split.
  - intros other Hne. cbn. apply lookup_insert_ne. congruence.
  - intros Hne.
    unfold RedisHelpers.get_json, RedisHelpers.get, RedisClient.on_server, bind,
      RedisStrings.GET.
    cbn [RedisClient.redis]. rewrite live_advance_store.
    unfold Redis.expired. cbn [Redis.expires_at].
    destruct (Z.leb_spec (Redis.time s + seconds) (Redis.time s + elapsed)); [lia |].
    cbn [Redis.value]. rewrite to_text_of_text.
    destruct (json_dumps data) eqn:E; [congruence |].
    unfold lift_result. rewrite Hrt. reflexivity.
Qed.


(** X15.  [update_session] on a live session whose dictionary is not
    empty writes back the old dictionary updated with the new entries
    (the new ones win, the others stay), returns true, and sets the expiry
    to 24 hours from the update, whatever [expire_hours] the session was
    created with; [get_session] then returns the merged dictionary.  On a
    session whose dictionary is empty, and on a session that is absent or
    expired, it returns false and changes nothing. *)
Theorem update_session_merges_and_resets_expiry :
  (forall (s : Redis.server) (session_id : string)
          (old new : gmap string value) (expire_hours elapsed : Z),
      json_loads (json_dumps old) = Returns old ->
      json_dumps old <> ""%string ->
      old <> ∅ ->
      0 < expire_hours -> 0 <= elapsed < expire_hours * 3600 ->
      exists s',
        (RedisHelpers.create_session value json_dumps session_id old expire_hours ;;;
         RedisClient.tick elapsed ;;;
         RedisHelpers.update_session value json_dumps json_loads session_id new)
          {| RedisClient.redis := Some s |} =
          (Returns true, {| RedisClient.redis := Some s' |}) /\
        Redis.keyspace s' !! ("session:" +:+ session_id) =
          Some {| Redis.value := RedisStrings.of_text (json_dumps (new ∪ old));
                  Redis.expires_at := Some (Redis.time s + elapsed + 86400) |} /\
        (forall k v, new !! k = Some v -> (new ∪ old) !! k = Some v) /\
        (forall k, new !! k = None -> (new ∪ old) !! k = old !! k) /\
        (json_loads (json_dumps (new ∪ old)) = Returns (new ∪ old) ->
         json_dumps (new ∪ old) <> ""%string ->
         fst (RedisHelpers.get_session value json_loads session_id
                {| RedisClient.redis := Some s' |}) = Returns (Some (new ∪ old)))) /\
  (forall (s : Redis.server) (session_id : string) (new : gmap string value)
          (expire_hours elapsed : Z),
      json_loads (json_dumps ∅) = Returns ∅ ->
      0 < expire_hours -> 0 <= elapsed < expire_hours * 3600 ->
      exists s1,
        RedisHelpers.create_session value json_dumps session_id ∅ expire_hours
          {| RedisClient.redis := Some s |} =
          (Returns true, {| RedisClient.redis := Some s1 |}) /\
        RedisHelpers.update_session value json_dumps json_loads session_id new
          {| RedisClient.redis := Some (Redis.advance elapsed s1) |} =
          (Returns false, {| RedisClient.redis := Some (Redis.advance elapsed s1) |})) /\
  (forall (s : Redis.server) (session_id : string) (new : gmap string value),
      Redis.live s ("session:" +:+ session_id) = None ->
      RedisHelpers.update_session value json_dumps json_loads session_id new
        {| RedisClient.redis := Some s |} =
        (Returns false, {| RedisClient.redis := Some s |})).
Proof.
  split; [| split].
  - intros s session_id old new expire_hours elapsed Hrt Hne Hold Hh Hel.
    destruct (get_json_after_set s ("session:" +:+ session_id) old
                (expire_hours * 3600) elapsed Hrt ltac:(lia) Hel)
      as (s1 & E1 & K1 & T1 & _ & G1).
    specialize (G1 Hne).
    unfold RedisHelpers.create_session. unfold bind at 1. rewrite E1.
    unfold bind at 1. unfold RedisClient.tick at 1, RedisClient.on_server at 1.
    cbn [RedisClient.redis].
    unfold RedisHelpers.update_session, RedisHelpers.get_session. unfold bind at 1.
    rewrite G1.
    assert (Hsz : (size old =? 0)%nat = false).
    { apply Nat.eqb_neq. intros Hz. apply Hold. apply map_size_empty_iff. exact Hz. }
    rewrite Hsz.
    unfold RedisHelpers.create_session, RedisHelpers.set_json, RedisHelpers.set,
      RedisClient.on_server, RedisStrings.SET.
    cbn [RedisClient.redis]. change (24 * 3600 <=? 0) with false. cbv iota.
    eexists. split; [reflexivity |].
    split; [| split; [| split]].
    + cbn. rewrite lookup_insert_eq. do 3 f_equal. lia.
    + intros k v Hk. apply lookup_union_Some_l. exact Hk.
    + intros k Hk. apply lookup_union_r. exact Hk.
    + intros Hrt2 Hne2.
      unfold RedisHelpers.get_session, RedisHelpers.get_json, RedisHelpers.get,
        RedisClient.on_server, bind, RedisStrings.GET.
      cbn [RedisClient.redis]. rewrite live_store_eq.
      unfold Redis.expired. cbn [Redis.expires_at Redis.advance Redis.time].
      destruct (Z.leb_spec (Redis.time s1 + elapsed + 24 * 3600)
                  (Redis.time s1 + elapsed)); [lia |].
      cbn [Redis.value]. rewrite to_text_of_text.
      destruct (json_dumps (new ∪ old)) eqn:E; [congruence |].
      unfold lift_result. rewrite Hrt2. reflexivity.
  - intros s session_id new expire_hours elapsed Hrt Hh Hel.
    unfold RedisHelpers.create_session, RedisHelpers.set_json, RedisHelpers.set,
      RedisClient.on_server, RedisStrings.SET.
    cbn [RedisClient.redis]. destruct (Z.leb_spec (expire_hours * 3600) 0); [lia |].
    eexists. split; [reflexivity |].
    unfold RedisHelpers.update_session, RedisHelpers.get_session,
      RedisHelpers.get_json, RedisHelpers.get, RedisClient.on_server, bind,
      RedisStrings.GET.
    cbn [RedisClient.redis]. rewrite live_advance_store.
    unfold Redis.expired. cbn [Redis.expires_at].
    destruct (Z.leb_spec (Redis.time s + expire_hours * 3600) (Redis.time s + elapsed));
      [lia |].
    cbn [Redis.value]. rewrite to_text_of_text.
    destruct (json_dumps ∅) eqn:E; [reflexivity |].
    unfold lift_result. rewrite Hrt. cbn. reflexivity.
  - intros s session_id new Hl.
    unfold RedisHelpers.update_session, RedisHelpers.get_session,
      RedisHelpers.get_json, RedisHelpers.get, RedisClient.on_server, bind,
      RedisStrings.GET.
    cbn [RedisClient.redis]. rewrite Hl. reflexivity.
Qed.

End SessionProperties.

Lemma update_session_merges_and_resets_expiry_witness :
  exists s',
    (RedisHelpers.create_session unit Fixtures.toy_dumps "abc" Fixtures.one_key 1 ;;;
     RedisClient.tick 3000 ;;;
     RedisHelpers.update_session unit Fixtures.toy_dumps Fixtures.toy_loads "abc" ∅)
      {| RedisClient.redis := Some Examples.empty_server |} =
      (Returns true, {| RedisClient.redis := Some s' |}) /\
    Redis.expires_at <$> Redis.keyspace s' !! "session:abc"%string =
      Some (Some (1000 + 3000 + 86400)) /\
    fst (RedisHelpers.get_session unit Fixtures.toy_loads "abc"
           {| RedisClient.redis := Some s' |}) = Returns (Some (∅ ∪ Fixtures.one_key)).
Proof.
  destruct (proj1 (update_session_merges_and_resets_expiry unit Fixtures.toy_dumps
                     Fixtures.toy_loads)
              Examples.empty_server "abc"%string Fixtures.one_key ∅ 1 3000
              eq_refl ltac:(discriminate) ltac:(discriminate) ltac:(lia) ltac:(lia))
    as (s' & E & K & _ & _ & G).
  exists s'. split; [exact E |]. split.
  - change ("session:" +:+ "abc")%string with "session:abc"%string in K.
    rewrite K. reflexivity.
  - apply G; [reflexivity | discriminate].
Defined.

Section Namespaces.

Variable value : Type.
Variable json_dumps : gmap string value -> string.
Variable json_loads : string -> result (gmap string value).
Variable A : Type.
Variable str : A -> string.

Lemma get_after_set_other (s : Redis.server) (key other text : string) (ex : option Z) :
  other <> key ->
  forall s' r,
    RedisHelpers.set key text ex {| RedisClient.redis := Some s |} =
      (Returns r, {| RedisClient.redis := Some s' |}) ->
    RedisStrings.GET other s' = (fst (RedisStrings.GET other s), s').
Proof.
  intros Hne s' r. unfold RedisHelpers.set, RedisClient.on_server, RedisStrings.SET.
  cbn [RedisClient.redis].
  assert (G : forall e,
             RedisStrings.GET other (Redis.store s key e) =
               (fst (RedisStrings.GET other s), Redis.store s key e)).
  { intros e. unfold RedisStrings.GET, Redis.live, Redis.store. cbn.
    rewrite lookup_insert_ne by congruence.
    destruct (Redis.keyspace s !! other) as [e0|]; [| reflexivity].
    destruct (Redis.expired (Redis.time s) e0); reflexivity. }
  destruct ex as [n|].
  - destruct (n <=? 0); intros H; inversion H; subst. apply G.
  - intros H; inversion H; subst. apply G.
Qed.

Lemma get_json_after_set_other (s : Redis.server) (key other text : string)
    (ex : option Z) :
  other <> key ->
  forall s' r,
    RedisHelpers.set key text ex {| RedisClient.redis := Some s |} =
      (Returns r, {| RedisClient.redis := Some s' |}) ->
    fst (RedisHelpers.get_json value json_loads other {| RedisClient.redis := Some s' |}) =
    fst (RedisHelpers.get_json value json_loads other {| RedisClient.redis := Some s |}).
Proof.
  intros Hne s' r H. pose proof (get_after_set_other s key other text ex Hne s' r H) as G.
  unfold RedisHelpers.get_json, RedisHelpers.get, RedisClient.on_server, bind.
  cbn [RedisClient.redis]. rewrite G.
  destruct (RedisStrings.GET other s) as [[[[|c t]|]|e] s0]; cbn; try reflexivity.
  unfold lift_result, ret. destruct (json_loads (String c t)); reflexivity.
Qed.

(** X16.  The key prefixes keep the helpers apart: writing a session
    changes no user session and no cache entry, writing a user session
    changes no session and no cache entry, and writing a cache entry
    changes no session and no user session, whatever the identifiers. *)
Theorem helper_namespaces_do_not_collide (s : Redis.server) :
  (forall session_id data expire_hours s' r,
      RedisHelpers.create_session value json_dumps session_id data expire_hours
        {| RedisClient.redis := Some s |} =
        (Returns r, {| RedisClient.redis := Some s' |}) ->
      (forall user_id,
          fst (RedisHelpers.get_user_session value json_loads user_id
                 {| RedisClient.redis := Some s' |}) =
          fst (RedisHelpers.get_user_session value json_loads user_id
                 {| RedisClient.redis := Some s |})) /\
      (forall key,
          fst (RedisHelpers.cache_get key {| RedisClient.redis := Some s' |}) =
          fst (RedisHelpers.cache_get key {| RedisClient.redis := Some s |}))) /\
  (forall user_id data s' r,
      RedisHelpers.set_user_session value json_dumps user_id data
        {| RedisClient.redis := Some s |} =
        (Returns r, {| RedisClient.redis := Some s' |}) ->
      (forall session_id,
          fst (RedisHelpers.get_session value json_loads session_id
                 {| RedisClient.redis := Some s' |}) =
          fst (RedisHelpers.get_session value json_loads session_id
                 {| RedisClient.redis := Some s |})) /\
      (forall key,
          fst (RedisHelpers.cache_get key {| RedisClient.redis := Some s' |}) =
          fst (RedisHelpers.cache_get key {| RedisClient.redis := Some s |}))) /\
  (forall key v expire s' r,
      RedisHelpers.cache_set A str key v expire {| RedisClient.redis := Some s |} =
        (Returns r, {| RedisClient.redis := Some s' |}) ->
      (forall session_id,
          fst (RedisHelpers.get_session value json_loads session_id
                 {| RedisClient.redis := Some s' |}) =
          fst (RedisHelpers.get_session value json_loads session_id
                 {| RedisClient.redis := Some s |})) /\
      (forall user_id,
          fst (RedisHelpers.get_user_session value json_loads user_id
                 {| RedisClient.redis := Some s' |}) =
          fst (RedisHelpers.get_user_session value json_loads user_id
                 {| RedisClient.redis := Some s |}))).
Proof.
  split; [| split].
  - intros session_id data expire_hours s' r H. split.
    + intros user_id. eapply get_json_after_set_other; [| exact H]. discriminate.
    + intros key. unfold RedisHelpers.cache_get, RedisHelpers.get,
        RedisClient.on_server. cbn [RedisClient.redis].
      erewrite get_after_set_other; [| | exact H]; [| discriminate].
      destruct (RedisStrings.GET _ s). reflexivity.
  - intros user_id data s' r H. split.
    + intros session_id. eapply get_json_after_set_other; [| exact H]. discriminate.
    + intros key. unfold RedisHelpers.cache_get, RedisHelpers.get,
        RedisClient.on_server. cbn [RedisClient.redis].
      erewrite get_after_set_other; [| | exact H]; [| discriminate].
      destruct (RedisStrings.GET _ s). reflexivity.
  - intros key v expire s' r H. split.
    + intros session_id. eapply get_json_after_set_other; [| exact H]. discriminate.
    + intros user_id. eapply get_json_after_set_other; [| exact H]. discriminate.
Qed.

End Namespaces.

Lemma helper_namespaces_do_not_collide_witness :
  exists s',
    RedisHelpers.set_user_session unit Fixtures.toy_dumps "abc" Fixtures.one_key
      {| RedisClient.redis := Some Examples.empty_server |} =
      (Returns true, {| RedisClient.redis := Some s' |}) /\
    fst (RedisHelpers.get_session unit Fixtures.toy_loads "abc"
           {| RedisClient.redis := Some s' |}) = Returns None.
Proof.
  eexists. split; [reflexivity |].
  rewrite (proj1 (proj1 (proj2 (helper_namespaces_do_not_collide unit
                                   Fixtures.toy_dumps Fixtures.toy_loads
                                   string Fixtures.as_is Examples.empty_server))
                          "abc"%string Fixtures.one_key _ true eq_refl)).
  reflexivity.
Defined.

(** ** nats_client.py: writing and deleting keys *)

Section KvWrites.

Variable json : Type.
Variable json_dumps : json -> bytes.
Variable json_loads : bytes -> result json.
Variable no_stream : exn.

(** X17.  [kv_put] and [kv_delete] raise ValueError "KV store '<name>'
    not found" for a bucket name that is not registered, the client
    unchanged.  On a registered bucket that exists on the server, a value
    whose JSON text reads back as the value is returned by [kv_get] after
    [kv_put], the other keys of the bucket read as before, and after
    [kv_delete] the key reads as absent.  When the bucket is gone on the
    server, [kv_put] and [kv_delete] pass the server's error on to the
    caller, where [kv_get] returns an absent value. *)
Theorem kv_put_get_delete (cl : NatsClient.client) (bucket key : string) :
  (NatsClient.kv_stores cl !! bucket = None ->
   (forall value,
       NatsKV.kv_put json json_dumps no_stream bucket key value cl =
         (Raises (ValueError ("KV store '" +:+ bucket +:+ "' not found")), cl)) /\
   NatsKV.kv_delete no_stream bucket key cl =
     (Raises (ValueError ("KV store '" +:+ bucket +:+ "' not found")), cl)) /\
  (forall handle b value,
      NatsClient.kv_stores cl !! bucket = Some handle ->
      NatsClient.server_buckets cl !! handle = Some b ->
      json_loads (json_dumps value) = Returns value ->
      exists cl',
        NatsKV.kv_put json json_dumps no_stream bucket key value cl = (Returns tt, cl') /\
        NatsClient.kv_get json json_loads bucket key cl' = (Returns (Some value), cl') /\
        (forall other,
            other <> key ->
            NatsClient.kv_get json json_loads bucket other cl' =
              (fst (NatsClient.kv_get json json_loads bucket other cl), cl')) /\
        exists cl'',
          NatsKV.kv_delete no_stream bucket key cl' = (Returns tt, cl'') /\
          NatsClient.kv_get json json_loads bucket key cl'' = (Returns None, cl'')) /\
  (forall handle,
      NatsClient.kv_stores cl !! bucket = Some handle ->
      NatsClient.server_buckets cl !! handle = None ->
      (forall value,
          NatsKV.kv_put json json_dumps no_stream bucket key value cl =
            (Raises no_stream, cl)) /\
      NatsKV.kv_delete no_stream bucket key cl = (Raises no_stream, cl) /\
      NatsClient.kv_get json json_loads bucket key cl = (Returns None, cl)).
Proof.
  split; [| split].
  - intros H. unfold NatsKV.kv_put, NatsKV.kv_delete. rewrite H. split; reflexivity.
  - intros handle b value Hreg Hb Hrt.
    unfold NatsKV.kv_put, NatsKV.KeyValue_put. rewrite Hreg, Hb.
    eexists. split; [reflexivity |].
    unfold NatsClient.kv_get, NatsClient.KeyValue_get, NatsKV.with_bucket.
    cbn [NatsClient.kv_stores NatsClient.server_buckets].
    rewrite Hreg, lookup_insert_eq. split; [| split].
    + rewrite lookup_insert_eq, Hrt. reflexivity.
    + intros other Hne. rewrite lookup_insert_ne by congruence. rewrite Hb.
      destruct (b !! other) as [v|]; [| reflexivity].
      destruct (json_loads v) as [doc|e]; [reflexivity | destruct e; reflexivity].
    + unfold NatsKV.kv_delete, NatsKV.KeyValue_delete, NatsKV.with_bucket.
      cbn [NatsClient.kv_stores NatsClient.server_buckets].
      rewrite Hreg, lookup_insert_eq.
      eexists. split; [reflexivity |].
      cbn [NatsClient.kv_stores NatsClient.server_buckets].
      rewrite Hreg, lookup_insert_eq, lookup_delete_eq. reflexivity.
  - intros handle Hreg Hb. split; [| split].
    + intros value. unfold NatsKV.kv_put, NatsKV.KeyValue_put.
      rewrite Hreg, Hb. reflexivity.
    + unfold NatsKV.kv_delete, NatsKV.KeyValue_delete. rewrite Hreg, Hb. reflexivity.
    + unfold NatsClient.kv_get, NatsClient.KeyValue_get. rewrite Hreg, Hb. reflexivity.
Qed.

End KvWrites.

Lemma kv_put_get_delete_witness :
  NatsKV.kv_put bytes (fun b => b) KeyNotFoundError "users" "alice" [1]
    Examples.standard_client =
    (Raises (ValueError "KV store 'users' not found"), Examples.standard_client) /\
  (exists cl',
      NatsKV.kv_put bytes (fun b => b) KeyNotFoundError "sessions" "abc" [123; 125]
        Examples.standard_client = (Returns tt, cl') /\
      NatsClient.kv_get bytes (fun b => Returns b) "sessions" "abc" cl' =
        (Returns (Some [123; 125]), cl')) /\
  NatsKV.kv_put bytes (fun b => b) KeyNotFoundError "telemetry" "cpu" [1]
    Examples.standard_client = (Raises KeyNotFoundError, Examples.standard_client).
Proof.
  split; [| split].
  - apply (proj1 (kv_put_get_delete bytes (fun b => b) (fun b => Returns b)
                    KeyNotFoundError Examples.standard_client "users" "alice")).
    reflexivity.
  - destruct (proj1 (proj2 (kv_put_get_delete bytes (fun b => b) (fun b => Returns b)
                              KeyNotFoundError Examples.standard_client
                              "sessions" "abc"))
                "sessions"%string ∅ [123; 125] eq_refl eq_refl eq_refl)
      as (cl' & Hput & Hget & _).
    exists cl'. split; [exact Hput | exact Hget].
  - apply (proj2 (proj2 (kv_put_get_delete bytes (fun b => b) (fun b => Returns b)
                           KeyNotFoundError Examples.standard_client
                           "telemetry" "cpu"))
             "telemetry"%string eq_refl eq_refl).
Defined.

(** ** scans.py: whose scan it is *)

(** X18.  For a scan id that names no scan, and for a scan that belongs
    to another user, [get_scan], [cancel_scan] and [delete_scan] all
    raise 404 "Scan not found" and leave the tables as they were: another
    user's scan is indistinguishable from a missing one. *)
Theorem scan_endpoints_are_owner_only (w : ScanExecution.world) (scan_id : string)
    (current_user : Models.User) :
  (Scans.scans (ScanExecution.w_database w) !! scan_id = None \/
   exists scan, Scans.scans (ScanExecution.w_database w) !! scan_id = Some scan /\
                Models.user_id scan <> Models.u_id current_user) ->
  ScanEndpoints.get_scan scan_id current_user (ScanExecution.w_database w) =
    (Raises (HTTPException 404 "Scan not found"), ScanExecution.w_database w) /\
  Scans.cancel_scan scan_id current_user (ScanExecution.w_database w) =
    (Raises (HTTPException 404 "Scan not found"), ScanExecution.w_database w) /\
  ScanExecution.delete_scan scan_id current_user w =
    (Raises (HTTPException 404 "Scan not found"), w).
Proof.
  intros H.
  assert (Hsel : Scans.select_owned (ScanExecution.w_database w) scan_id current_user =
                 None).
  { unfold Scans.select_owned. destruct H as [-> | (scan & -> & Hne)]; [reflexivity |].
    destruct (String.eqb_spec (Models.user_id scan) (Models.u_id current_user));
      [contradiction | reflexivity]. }
  unfold ScanEndpoints.get_scan, Scans.cancel_scan, ScanExecution.delete_scan,
    bind, get.
  rewrite Hsel. repeat split.
Qed.

Lemma scan_endpoints_are_owner_only_witness :
  ScanEndpoints.get_scan "scan-1" Examples.bob Examples.example_db =
    (Raises (HTTPException 404 "Scan not found"), Examples.example_db) /\
  Scans.cancel_scan "scan-1" Examples.bob Examples.example_db =
    (Raises (HTTPException 404 "Scan not found"), Examples.example_db) /\
  ScanExecution.delete_scan "scan-7" Examples.alice Fixtures.scanned_world =
    (Raises (HTTPException 404 "Scan not found"), Fixtures.scanned_world).
Proof.
  destruct (scan_endpoints_are_owner_only Fixtures.scanned_world "scan-1" Examples.bob)
    as (Hget & Hcancel & _).
  { right. exists Examples.pending_scan. split; [reflexivity | discriminate]. }
  destruct (scan_endpoints_are_owner_only Fixtures.scanned_world "scan-7"
              Examples.alice) as (_ & _ & Hdelete).
  { left. reflexivity. }
  split; [exact Hget |]. split; [exact Hcancel | exact Hdelete].
Defined.

(** X19.  [delete_scan] by the owner has no condition on the status.  It
    removes the scan's row and, through the cascade of the two
    relationships, exactly the rows of [scan_results] and
    [vulnerabilities] that carry the scan's id; the other scans and their
    rows stay, in their order.  Before it [get_scan] returns the row's
    projection without changing the database; after it [get_scan],
    [cancel_scan] and a second [delete_scan] raise 404 "Scan not
    found". *)
Theorem delete_scan_cascades (w : ScanExecution.world) (scan_id : string)
    (current_user : Models.User) (scan : Models.Scan) :
  Scans.scans (ScanExecution.w_database w) !! scan_id = Some scan ->
  Models.user_id scan = Models.u_id current_user ->
  exists w',
    ScanExecution.delete_scan scan_id current_user w =
      (Returns "Scan deleted successfully"%string, w') /\
    Scans.scans (ScanExecution.w_database w') !! scan_id = None /\
    (forall other, other <> scan_id ->
       Scans.scans (ScanExecution.w_database w') !! other =
       Scans.scans (ScanExecution.w_database w) !! other) /\
    (forall r, In r (ScanExecution.w_scan_results w') <->
               In r (ScanExecution.w_scan_results w) /\
               ScanExecution.sr_scan_id r <> scan_id) /\
    (forall v, In v (ScanExecution.w_vulnerabilities w') <->
               In v (ScanExecution.w_vulnerabilities w) /\
               ScanExecution.v_scan_id v <> scan_id) /\
    sublist (ScanExecution.w_scan_results w') (ScanExecution.w_scan_results w) /\
    sublist (ScanExecution.w_vulnerabilities w') (ScanExecution.w_vulnerabilities w) /\
    ScanExecution.w_tools w' = ScanExecution.w_tools w /\
    ScanEndpoints.get_scan scan_id current_user (ScanExecution.w_database w) =
      (Returns (ScanEndpoints.to_response scan_id scan), ScanExecution.w_database w) /\
    ScanEndpoints.get_scan scan_id current_user (ScanExecution.w_database w') =
      (Raises (HTTPException 404 "Scan not found"), ScanExecution.w_database w') /\
    Scans.cancel_scan scan_id current_user (ScanExecution.w_database w') =
      (Raises (HTTPException 404 "Scan not found"), ScanExecution.w_database w') /\
    ScanExecution.delete_scan scan_id current_user w' =
      (Raises (HTTPException 404 "Scan not found"), w').
Proof.
  intros Hlook Hown.
  assert (Hsel : Scans.select_owned (ScanExecution.w_database w) scan_id current_user =
                 Some scan).
  { unfold Scans.select_owned. rewrite Hlook, Hown, String.eqb_refl. reflexivity. }
  assert (Hkeep : forall (A : Type) (key : A -> string) (l : list A) (x : A),
             In x (List.filter (fun y => negb (String.eqb (key y) scan_id)) l) <->
             In x l /\ key x <> scan_id).
  { intros A key l x. rewrite filter_In.
    destruct (String.eqb_spec (key x) scan_id); cbn [negb]; intuition congruence. }
  assert (Hsub : forall (A : Type) (f : A -> bool) (l : list A),
             sublist (List.filter f l) l).
  { intros A f l. induction l as [|a l IH]; cbn [List.filter]; [constructor |].
    destruct (f a); [apply sublist_skip | apply sublist_cons]; exact IH. }
  unfold ScanExecution.delete_scan at 1. unfold bind, get. rewrite Hsel.
  eexists. split; [reflexivity |].
  cbn [ScanExecution.w_database ScanExecution.w_scan_results
       ScanExecution.w_vulnerabilities ScanExecution.w_tools Scans.scans].
  split; [apply lookup_delete_eq |].
  split; [intros other Hne; apply lookup_delete_ne; congruence |].
  split; [intros r; apply (Hkeep _ ScanExecution.sr_scan_id) |].
  split; [intros v; apply (Hkeep _ ScanExecution.v_scan_id) |].
  split; [apply Hsub |]. split; [apply Hsub |]. split; [reflexivity |].
  unfold ScanEndpoints.get_scan, Scans.cancel_scan, ScanExecution.delete_scan,
    bind, get.
  rewrite Hsel. split; [reflexivity |].
  unfold Scans.select_owned. cbn [ScanExecution.w_database Scans.scans].
  rewrite lookup_delete_eq. repeat split.
Qed.

Lemma delete_scan_cascades_witness :
  exists w',
    ScanExecution.delete_scan "scan-1" Examples.alice Fixtures.scanned_world =
      (Returns "Scan deleted successfully"%string, w') /\
    Scans.scans (ScanExecution.w_database w') !! "scan-1"%string = None /\
    Scans.scans (ScanExecution.w_database w') !! "scan-2"%string =
      Some Examples.completed_scan /\
    ~ In (Fixtures.host_row "scan-1" "10.0.0.1") (ScanExecution.w_scan_results w') /\
    In (Fixtures.host_row "scan-2" "10.0.0.9") (ScanExecution.w_scan_results w') /\
    ~ In (Fixtures.ssh_row "scan-1") (ScanExecution.w_vulnerabilities w').
Proof.
  destruct (delete_scan_cascades Fixtures.scanned_world "scan-1" Examples.alice
              Examples.pending_scan eq_refl eq_refl)
    as (w' & E & Hgone & Hframe & Hres & Hvul & _).
  exists w'. split; [exact E |]. split; [exact Hgone |].
  split; [rewrite Hframe by discriminate; reflexivity |].
  split; [intros H; apply Hres in H; destruct H as [_ H]; apply H; reflexivity |].
  split; [apply Hres; split; [right; left; reflexivity | discriminate] |].
  intros H. apply Hvul in H. destruct H as [_ H]. apply H. reflexivity.
Defined.

(** ** scans.py: what the nmap parser rejects *)

Lemma mapR_raises_iff {A B} (f : A -> result B) (l : list A) :
  (exists e, mapR f l = Raises e) <->
  (exists a e, In a l /\ f a = Raises e).
Proof.
  induction l as [|a l IH]; cbn [mapR].
  - split; [intros [e H]; discriminate | intros (a & e & [] & _)].
  - destruct (f a) as [b|e] eqn:E.
    + destruct (mapR f l) as [r|e'] eqn:El.
      * split; [intros [e H]; discriminate |].
        intros (x & e & [<- | Hin] & Hx); [congruence |].
        destruct (proj2 IH) as [e0 H0]; [eauto | discriminate].
      * split; [| eauto]. intros _.
        destruct (proj1 IH) as (x & e0 & Hin & Hx); [eauto |].
        exists x, e0. split; [right; exact Hin | exact Hx].
    + split; [| eauto]. intros _. exists a, e. split; [left; reflexivity | exact E].
Qed.

Section ParserFailure.

Variable fromstring : string -> result ET.element.
Variable py_int : string -> result Z.

Lemma loop_ports_raises (ps : list ET.element) :
  forall (h : Scans.host_data) (e : exn),
    mapR (Scans.read_port py_int) ps = Raises e ->
    exists e', Scans.loop_ports py_int ps h = Raises e'.
Proof.
  induction ps as [|p ps IH]; intros h e H; cbn [mapR Scans.loop_ports] in *;
    [discriminate |].
  destruct (Scans.read_port py_int p) as [pd|e0]; [| eauto].
  destruct (mapR (Scans.read_port py_int) ps) as [r|e1] eqn:E; [discriminate |].
  eapply IH. reflexivity.
Qed.

Lemma loop_hosts_raises (hs : list ET.element) :
  forall (h : Scans.host_data) (e : exn),
    mapR (Scans.read_port py_int)
         (flat_map (fun host => ET.findall2 host "ports" "port") hs) = Raises e ->
    exists e', Scans.loop_hosts py_int hs h = Raises e'.
Proof.
  induction hs as [|host hs IH]; intros h e H; [discriminate |].
  cbn [flat_map Scans.loop_hosts] in *.
  destruct (mapR (Scans.read_port py_int) (ET.findall2 host "ports" "port"))
    as [r1|e1] eqn:E1.
  - rewrite (loop_ports_spec py_int _ _ r1 E1).
    destruct (mapR (Scans.read_port py_int)
                (flat_map (fun host => ET.findall2 host "ports" "port") hs))
      as [r2|e2] eqn:E2.
    + exfalso.
      assert (F : exists e0, mapR (Scans.read_port py_int)
                    (ET.findall2 host "ports" "port" ++
                     flat_map (fun host => ET.findall2 host "ports" "port") hs) =
                    Raises e0) by eauto.
      apply mapR_raises_iff in F. destruct F as (a & e0 & Hin & Ha).
      apply in_app_or in Hin. destruct Hin as [Hin | Hin].
      * assert (G : exists e', mapR (Scans.read_port py_int)
                       (ET.findall2 host "ports" "port") = Raises e')
          by (apply mapR_raises_iff; eauto).
        destruct G as [e' G]. congruence.
      * assert (G : exists e', mapR (Scans.read_port py_int)
                       (flat_map (fun host => ET.findall2 host "ports" "port") hs) =
                       Raises e')
          by (apply mapR_raises_iff; eauto).
        destruct G as [e' G]. congruence.
    + eapply IH. reflexivity.
  - destruct (loop_ports_raises _
                (match ET.find host "address" with
                 | Some address => Scans.set_address h (ET.get address "addr" "")
                 | None => h
                 end) e1 E1) as [e' E'].
    rewrite E'. eauto.
Qed.

(** X20.  [parse_nmap_xml] never raises; it returns the error dictionary
    exactly when the text is no XML document or when some port element of
    some host, open or not, carries a [portid] that [int] rejects; the
    message is always "Failed to parse nmap output", and the ports read
    before the offending one are lost with it. *)
Theorem parse_nmap_xml_failure_cases (xml_data : string) :
  (Scans.parse_nmap_xml fromstring py_int xml_data =
     Scans.Error "Failed to parse nmap output" <->
   (exists e, fromstring xml_data = Raises e) \/
   (exists root port portid e,
       fromstring xml_data = Returns root /\
       In port (ET.all_ports root) /\
       ET.get_opt port "portid" = Some portid /\
       py_int portid = Raises e)) /\
  (forall message,
      Scans.parse_nmap_xml fromstring py_int xml_data = Scans.Error message ->
      message = "Failed to parse nmap output"%string).
Proof.
  unfold Scans.parse_nmap_xml. split.
  - destruct (fromstring xml_data) as [root|e0] eqn:Ef.
    + destruct (mapR (Scans.read_port py_int) (ET.all_ports root)) as [pds|e1] eqn:Em.
      * unfold ET.all_ports in Em. rewrite (loop_hosts_spec py_int _ _ pds Em).
        split; [discriminate |].
        intros [[e H] | (root' & port & portid & e & Hr & Hin & Hid & Hint)];
          [discriminate |].
        inversion Hr; subst root'.
        assert (F : exists e', mapR (Scans.read_port py_int) (ET.all_ports root) =
                               Raises e').
        { apply mapR_raises_iff. exists port, e. split; [exact Hin |].
          unfold Scans.read_port. rewrite Hid, Hint. reflexivity. }
        destruct F as [e' F]. unfold ET.all_ports in F. congruence.
      * pose proof Em as Em'. unfold ET.all_ports in Em'.
        destruct (loop_hosts_raises _
                    {| Scans.hd_address := ""; Scans.hd_hostname := "";
                       Scans.hd_ports := []; Scans.hd_os := "" |} e1 Em') as [e' E'].
        rewrite E'. split; [| reflexivity]. intros _. right.
        assert (F : exists e0, mapR (Scans.read_port py_int) (ET.all_ports root) =
                               Raises e0) by eauto.
        apply mapR_raises_iff in F. destruct F as (port & e0 & Hin & Hp).
        unfold Scans.read_port in Hp.
        destruct (ET.get_opt port "portid") as [portid|] eqn:Hid; [| discriminate].
        destruct (py_int portid) as [n|e2] eqn:Hint; [discriminate |].
        exists root, port, portid, e2. auto.
    + split; [| reflexivity]. intros _. left. eauto.
  - intros message.
    destruct (match fromstring xml_data with
              | Returns root => _
              | Raises e => Raises e
              end); intros H; inversion H; reflexivity.
Qed.

End ParserFailure.

Lemma parse_nmap_xml_failure_cases_witness :
  Scans.parse_nmap_xml
    (Examples.parsed_as Fixtures.named_port_xml Fixtures.named_port_doc)
    Examples.decimal Fixtures.named_port_xml =
    Scans.Error "Failed to parse nmap output" /\
  Scans.parse_nmap_xml
    (Examples.parsed_as Fixtures.named_port_xml Fixtures.named_port_doc)
    Examples.decimal "<nmaprun" = Scans.Error "Failed to parse nmap output".
Proof.
  split.
  - apply (proj1 (parse_nmap_xml_failure_cases
                    (Examples.parsed_as Fixtures.named_port_xml Fixtures.named_port_doc)
                    Examples.decimal Fixtures.named_port_xml)).
    right.
    exists Fixtures.named_port_doc, Fixtures.named_port, "http"%string,
      (ValueError "invalid literal for int() with base 10").
    split; [reflexivity |]. split; [right; left; reflexivity |].
    split; reflexivity.
  - apply (proj1 (parse_nmap_xml_failure_cases
                    (Examples.parsed_as Fixtures.named_port_xml Fixtures.named_port_doc)
                    Examples.decimal "<nmaprun")).
    left. exists ParseError. reflexivity.
Defined.

(** ** auth.py: who a token stands for *)

Lemma scalar_one_or_none_some {A} (rows : list A) (r : A) :
  Models.scalar_one_or_none rows = Returns (Some r) -> rows = [r].
Proof.
  destruct rows as [|a [|b rows]]; cbn; intros H; inversion H; reflexivity.
Qed.

(** X21.  Whenever [get_current_user] returns a user, that user is a row
    of the table, is active, is the only row with its id, and the
    credentials are a token signed under the secret key, not expired,
    whose subject is the user's id.  A token that has expired, is no
    token, or was signed under another key is not answered with the 401
    "Invalid or expired token" of the code: [verify_token] raises
    AttributeError, and so does [get_current_user].  Whenever it raises,
    the error is that AttributeError, one of the two 401s, or the query's
    MultipleResultsFound.  The role claim of the token plays no part: two
    tokens that agree on subject and expiry give the same answer. *)
Theorem get_current_user_is_sound (secret_key : string) (users : list Models.User)
    (now : Z) (credentials : Jwt.token) :
  (forall u,
      Auth.get_current_user secret_key users now credentials = Returns u ->
      In u users /\
      Models.u_is_active u = true /\
      (forall v, In v users -> Models.u_id v = Models.u_id u -> v = u) /\
      exists payload,
        credentials = Jwt.Signed payload secret_key /\
        Jwt.sub payload = Models.u_id u /\
        now <= Jwt.exp payload) /\
  (Jwt.expired now credentials \/ Jwt.malformed secret_key credentials ->
   Auth.get_current_user secret_key users now credentials =
     Raises (AttributeError "module 'jwt' has no attribute 'JWTError'")) /\
  (forall e,
      Auth.get_current_user secret_key users now credentials = Raises e ->
      e = AttributeError "module 'jwt' has no attribute 'JWTError'" \/
      e = HTTPException 401 "Invalid or expired token" \/
      e = HTTPException 401 "User not found or inactive" \/
      e = MultipleResultsFound) /\
  (forall payload payload' key,
      credentials = Jwt.Signed payload key ->
      Jwt.sub payload' = Jwt.sub payload ->
      Jwt.exp payload' = Jwt.exp payload ->
      Auth.get_current_user secret_key users now (Jwt.Signed payload' key) =
      Auth.get_current_user secret_key users now credentials).
Proof.
  split; [| split; [| split]].
  - intros u H. unfold Auth.get_current_user, Security.verify_token in H.
    destruct credentials as [payload k | text]; cbn [Jwt.decode] in H;
      [| discriminate].
    destruct (String.eqb_spec k secret_key) as [->|Hk]; cbn [negb] in H;
      [| discriminate].
    destruct (Z.ltb_spec (Jwt.exp payload) now) as [Hexp|Hexp]; [discriminate |].
    destruct (Models.scalar_one_or_none _) as [[v|]|e] eqn:Hsel; try discriminate.
    destruct (Models.u_is_active v) eqn:Hact; cbn [negb] in H; [| discriminate].
    inversion H; subst v; clear H.
    apply scalar_one_or_none_some in Hsel.
    assert (Hin : In u (List.filter
                          (fun w => String.eqb (Models.u_id w) (Jwt.sub payload))
                          users)) by (rewrite Hsel; left; reflexivity).
    apply filter_In in Hin. destruct Hin as [Hin Hid]. apply String.eqb_eq in Hid.
    split; [exact Hin |]. split; [exact Hact |]. split.
    + intros v Hv Hvid.
      assert (Hv' : In v (List.filter
                            (fun w => String.eqb (Models.u_id w) (Jwt.sub payload))
                            users)).
      { apply filter_In. split; [exact Hv |]. apply String.eqb_eq. congruence. }
      rewrite Hsel in Hv'. destruct Hv' as [<- | []]. reflexivity.
    + exists payload. split; [reflexivity |]. split; [auto | exact Hexp].
  - intros H. unfold Auth.get_current_user, Security.verify_token.
    destruct credentials as [payload k | text]; cbn [Jwt.decode]; [| reflexivity].
    destruct (String.eqb_spec k secret_key) as [->|Hk]; cbn [negb]; [| reflexivity].
    destruct H as [H | H]; [| contradiction H; reflexivity].
    simpl in H. destruct (Z.ltb_spec (Jwt.exp payload) now); [reflexivity | lia].
  - intros e H. unfold Auth.get_current_user, Security.verify_token in H.
    destruct credentials as [payload k | text]; cbn [Jwt.decode] in H.
    + destruct (negb (String.eqb k secret_key)); [inversion H; auto |].
      destruct (Jwt.exp payload <? now); [inversion H; auto |].
      destruct (List.filter (fun u => String.eqb (Models.u_id u) (Jwt.sub payload))
                            users) as [|a [|b rows]]; cbn in H.
      * inversion H; auto.
      * destruct (negb (Models.u_is_active a)); inversion H; auto.
      * inversion H; auto.
    + inversion H; auto.
  - intros payload payload' key -> Hsub Hexp.
    unfold Auth.get_current_user, Security.verify_token. cbn [Jwt.decode].
    rewrite Hexp. destruct (negb (String.eqb key secret_key)); [reflexivity |].
    destruct (Jwt.exp payload <? now); [reflexivity |]. rewrite Hsub. reflexivity.
Qed.

(** X22.  [login] never returns a response.  It answers an unknown name
    and a wrong password with the same error, 401 "Invalid credentials";
    its other errors are the query's MultipleResultsFound, what the
    password check itself raises, and, whenever the password verifies, the
    TypeError of [create_access_token] on the row's [uuid.UUID]. *)
Theorem login_never_returns (secret_key : string)
    (pwd_verify : string -> string -> result bool) (users : list Models.User)
    (now : Z) (login_data : Auth.LoginRequest) :
  (List.filter
     (fun v => String.eqb (Models.u_username v) (Auth.lr_username login_data)
               || String.eqb (Models.u_email v) (Auth.lr_username login_data))
     users = [] ->
   Auth.login secret_key pwd_verify users now login_data =
     Raises (HTTPException 401 "Invalid credentials")) /\
  (forall u,
      List.filter
        (fun v => String.eqb (Models.u_username v) (Auth.lr_username login_data)
                  || String.eqb (Models.u_email v) (Auth.lr_username login_data))
        users = [u] ->
      pwd_verify (Auth.lr_password login_data) (Models.u_password_hash u) =
        Returns false ->
      Auth.login secret_key pwd_verify users now login_data =
        Raises (HTTPException 401 "Invalid credentials")) /\
  (forall e,
      Auth.login secret_key pwd_verify users now login_data = Raises e ->
      e = HTTPException 401 "Invalid credentials" \/
      e = MultipleResultsFound \/
      (exists u, In u users /\
                 pwd_verify (Auth.lr_password login_data) (Models.u_password_hash u) =
                   Raises e) \/
      (e = TypeError "Object of type UUID is not JSON serializable" /\
       exists u, In u users /\
                 (Models.u_username u = Auth.lr_username login_data \/
                  Models.u_email u = Auth.lr_username login_data) /\
                 pwd_verify (Auth.lr_password login_data) (Models.u_password_hash u) =
                   Returns true)) /\
  (forall resp,
      Auth.login secret_key pwd_verify users now login_data <> Returns resp).
Proof.
  unfold Auth.login, Security.verify_password.
  split; [| split; [| split]].
  - intros ->. reflexivity.
  - intros u Hf Hp. rewrite Hf. cbn [Models.scalar_one_or_none]. rewrite Hp.
    reflexivity.
  - intros e H.
    destruct (List.filter
                (fun v => String.eqb (Models.u_username v) (Auth.lr_username login_data)
                          || String.eqb (Models.u_email v) (Auth.lr_username login_data))
                users) as [|a [|b rows]] eqn:F; cbn in H.
    + inversion H; auto.
    + assert (Hin : In a users /\
                    (Models.u_username a = Auth.lr_username login_data \/
                     Models.u_email a = Auth.lr_username login_data)).
      { assert (Ha : In a (List.filter
                  (fun v => String.eqb (Models.u_username v) (Auth.lr_username login_data)
                            || String.eqb (Models.u_email v) (Auth.lr_username login_data))
                  users)) by (rewrite F; left; reflexivity).
        apply filter_In in Ha. destruct Ha as [Ha Hm]. split; [exact Ha |].
        apply orb_true_iff in Hm.
        destruct Hm as [Hm|Hm]; apply String.eqb_eq in Hm; auto. }
      destruct (pwd_verify (Auth.lr_password login_data) (Models.u_password_hash a))
        as [[|]|e'] eqn:P; inversion H; subst.
      * right. right. right. split; [reflexivity |].
        exists a. split; [apply Hin |]. split; [apply Hin | exact P].
      * auto.
      * right. right. left. exists a. split; [apply Hin | exact P].
    + inversion H; auto.
  - intros resp.
    destruct (Models.scalar_one_or_none _) as [[a|]|e]; try discriminate.
    destruct (pwd_verify _ _) as [[|]|e']; discriminate.
Qed.

(** X23.  The refresh endpoint issues no token: for credentials that
    [get_current_user] accepts it raises the TypeError of
    [create_access_token] on the user's [uuid.UUID], and for the others
    the error of [get_current_user].  The verify endpoint returns the
    payload of a token that is signed under the secret key and has not
    expired; for every other token it raises AttributeError, not the 401
    "Invalid or expired token" of the code. *)
Theorem refresh_and_verify_endpoints (secret_key : string)
    (users : list Models.User) (now : Z) (credentials : Jwt.token) :
  (forall u,
      Auth.get_current_user secret_key users now credentials = Returns u ->
      AuthEndpoints.refresh_token secret_key users now credentials =
        Raises (TypeError "Object of type UUID is not JSON serializable")) /\
  (forall e,
      Auth.get_current_user secret_key users now credentials = Raises e ->
      AuthEndpoints.refresh_token secret_key users now credentials = Raises e) /\
  (forall resp,
      AuthEndpoints.refresh_token secret_key users now credentials <> Returns resp) /\
  (forall payload,
      credentials = Jwt.Signed payload secret_key -> now <= Jwt.exp payload ->
      AuthEndpoints.verify_token secret_key now credentials = Returns payload) /\
  (Jwt.expired now credentials \/ Jwt.malformed secret_key credentials ->
   AuthEndpoints.verify_token secret_key now credentials =
     Raises (AttributeError "module 'jwt' has no attribute 'JWTError'")).
Proof.
  split; [| split; [| split; [| split]]].
  - intros u H. unfold AuthEndpoints.refresh_token. rewrite H. reflexivity.
  - intros e H. unfold AuthEndpoints.refresh_token. rewrite H. reflexivity.
  - intros resp. unfold AuthEndpoints.refresh_token.
    destruct (Auth.get_current_user secret_key users now credentials);
      discriminate.
  - intros payload -> Hexp.
    unfold AuthEndpoints.verify_token, Security.verify_token. cbn [Jwt.decode].
    rewrite String.eqb_refl. cbn [negb].
    destruct (Z.ltb_spec (Jwt.exp payload) now); [lia | reflexivity].
  - intros H. unfold AuthEndpoints.verify_token, Security.verify_token.
    destruct credentials as [payload k | text]; cbn [Jwt.decode]; [| reflexivity].
    destruct (String.eqb_spec k secret_key) as [->|Hk]; cbn [negb]; [| reflexivity].
    destruct H as [H | H]; [| contradiction H; reflexivity].
    simpl in H. destruct (Z.ltb_spec (Jwt.exp payload) now); [reflexivity | lia].
Qed.

Lemma get_current_user_is_sound_witness :
  Auth.get_current_user "s3cret" Examples.users 2000 Fixtures.alice_token =
    Returns Examples.alice /\
  In Examples.alice Examples.users /\
  Models.u_is_active Examples.alice = true /\
  Auth.get_current_user "s3cret" Examples.users 1000000 Fixtures.alice_token =
    Raises (AttributeError "module 'jwt' has no attribute 'JWTError'").
Proof.
  assert (E : Auth.get_current_user "s3cret" Examples.users 2000 Fixtures.alice_token =
              Returns Examples.alice) by reflexivity.
  destruct (proj1 (get_current_user_is_sound "s3cret" Examples.users 2000
                     Fixtures.alice_token) Examples.alice E) as (Hin & Hact & _).
  split; [exact E |]. split; [exact Hin |]. split; [exact Hact |].
  apply (proj1 (proj2 (get_current_user_is_sound "s3cret" Examples.users 1000000
                         Fixtures.alice_token))).
  left. cbn. lia.
Defined.

Lemma login_never_returns_witness :
  Auth.login "s3cret" Examples.bcrypt_check Examples.users 1000
    Fixtures.mallory_login = Raises (HTTPException 401 "Invalid credentials") /\
  Auth.login "s3cret" Examples.bcrypt_check Examples.users 1000
    Fixtures.alice_wrong_password = Raises (HTTPException 401 "Invalid credentials") /\
  (forall resp,
      Auth.login "s3cret" Examples.bcrypt_check Examples.users 1000
        Examples.alice_login <> Returns resp).
Proof.
  split; [| split].
  - apply (proj1 (login_never_returns "s3cret" Examples.bcrypt_check
                    Examples.users 1000 Fixtures.mallory_login)).
    reflexivity.
  - apply (proj1 (proj2 (login_never_returns "s3cret" Examples.bcrypt_check
                           Examples.users 1000 Fixtures.alice_wrong_password))
             Examples.alice); reflexivity.
  - apply (proj2 (proj2 (proj2 (login_never_returns "s3cret" Examples.bcrypt_check
                                  Examples.users 1000 Examples.alice_login)))).
Defined.

Lemma refresh_and_verify_endpoints_witness :
  AuthEndpoints.refresh_token "s3cret" Examples.users 2000 Fixtures.alice_token =
    Raises (TypeError "Object of type UUID is not JSON serializable") /\
  (exists payload,
      AuthEndpoints.verify_token "s3cret" 2000 Fixtures.alice_token = Returns payload /\
      Jwt.sub payload = "user-1"%string) /\
  AuthEndpoints.verify_token "s3cret" 1000000 Fixtures.alice_token =
    Raises (AttributeError "module 'jwt' has no attribute 'JWTError'").
Proof.
  split; [| split].
  - apply (proj1 (refresh_and_verify_endpoints "s3cret" Examples.users 2000
                    Fixtures.alice_token) Examples.alice).
    reflexivity.
  - eexists. split.
    + apply (proj1 (proj2 (proj2 (proj2
               (refresh_and_verify_endpoints "s3cret" Examples.users 2000
                  Fixtures.alice_token))))); [reflexivity | cbn; lia].
    + reflexivity.
  - apply (proj2 (proj2 (proj2 (proj2
             (refresh_and_verify_endpoints "s3cret" Examples.users 1000000
                Fixtures.alice_token))))).
    left. cbn. lia.
Defined.

(** ** scans.py: the execution of a scan *)

Section ToolRuns.

Variable hop cert record : Type.

(** The outputs of the [n] launches that follow the state [t]. *)
Lemma for_targets_attempt (cmd : string -> list string)
    (use : string -> ScanExecution.scan_results hop cert record ->
           result (ScanExecution.scan_results hop cert record))
    (targets : list string) :
  forall (acc : ScanExecution.scan_results hop cert record) (t : ScanExecution.tools),
    ScanExecution.for_targets hop cert record
      (fun target => ScanExecution.attempt hop cert record (cmd target) use)
      targets acc t =
      (Returns
         (fold_left (ScanExecution.absorb hop cert record use)
            (map (fun i => ScanExecution.output_of
                             (ScanExecution.outcome t
                                (length (ScanExecution.launched t) + i)))
                 (seq 0 (length targets)))
            acc),
       {| ScanExecution.outcome := ScanExecution.outcome t;
          ScanExecution.launched := ScanExecution.launched t ++ map cmd targets;
          ScanExecution.utc := ScanExecution.utc t |}).
Proof.
  induction targets as [|target rest IH]; intros acc t.
  - cbn. rewrite app_nil_r. destruct t; reflexivity.
  - cbn [ScanExecution.for_targets]. unfold bind at 1.
    unfold ScanExecution.attempt at 1, bind, ScanExecution.create_subprocess_exec, ret.
    rewrite IH. cbn [ScanExecution.outcome ScanExecution.launched ScanExecution.utc
                     length seq map fold_left].
    rewrite Nat.add_0_r. f_equal.
    + f_equal. f_equal. rewrite <- seq_shift, map_map. apply map_ext.
      intros i. rewrite length_app. cbn [length]. do 2 f_equal. lia.
    + f_equal. rewrite <- app_assoc. reflexivity.
Qed.


Variable fromstring : string -> result ET.element.
Variable py_int : string -> result Z.

Lemma parsed_hosts_length_le (outs : list (option string)) :
  (length (ScanExecution.parsed_hosts fromstring py_int outs) <= length outs)%nat.
Proof.
  unfold ScanExecution.parsed_hosts. induction outs as [|[text|] outs IH]; cbn; lia.
Qed.

Lemma fold_add_host (outs : list (option string)) :
  forall (acc : ScanExecution.scan_results hop cert record)
         (hs : list Scans.nmap_result) (n m : Z),
    ScanExecution.res_hosts hop cert record acc = Some hs ->
    ScanExecution.res_total_hosts hop cert record acc = Some n ->
    ScanExecution.res_total_services hop cert record acc = Some m ->
    let r := fold_left
               (ScanExecution.absorb hop cert record
                  (ScanExecution.add_host fromstring py_int hop cert record))
               outs acc in
    let parsed := ScanExecution.parsed_hosts fromstring py_int outs in
    ScanExecution.res_hosts hop cert record r = Some (hs ++ parsed) /\
    ScanExecution.res_total_hosts hop cert record r =
      Some (n + Z.of_nat (length parsed)) /\
    ScanExecution.res_total_services hop cert record r =
      Some (m + Z.of_nat (length (flat_map ScanExecution.ports_of parsed))) /\
    ScanExecution.res_vulnerabilities hop cert record r =
      ScanExecution.res_vulnerabilities hop cert record acc.
Proof.
  induction outs as [|o outs IH]; intros acc hs n m Hh Hn Hm; cbn zeta.
  - cbn. rewrite app_nil_r, !Z.add_0_r. auto.
  - cbn [fold_left]. destruct o as [text|]; cbn [ScanExecution.absorb].
    + destruct (ScanExecution.add_host fromstring py_int hop cert record text acc)
        as [acc1|e] eqn:E; [| discriminate E].
      assert (A1 : ScanExecution.res_hosts hop cert record acc1 =
                   Some (hs ++ [Scans.parse_nmap_xml fromstring py_int text]))
        by (unfold ScanExecution.add_host in E; inversion E; cbn; rewrite Hh;
            reflexivity).
      assert (A2 : ScanExecution.res_total_hosts hop cert record acc1 = Some (n + 1))
        by (unfold ScanExecution.add_host in E; inversion E; cbn; rewrite Hn;
            reflexivity).
      assert (A3 : ScanExecution.res_total_services hop cert record acc1 =
                   Some (m + Z.of_nat (length (ScanExecution.ports_of
                                (Scans.parse_nmap_xml fromstring py_int text)))))
        by (unfold ScanExecution.add_host in E; inversion E; cbn; rewrite Hm;
            reflexivity).
      assert (A4 : ScanExecution.res_vulnerabilities hop cert record acc1 =
                   ScanExecution.res_vulnerabilities hop cert record acc)
        by (unfold ScanExecution.add_host in E; inversion E; reflexivity).
      destruct (IH acc1 _ _ _ A1 A2 A3) as (H1 & H2 & H3 & H4).
      cbn zeta in *. rewrite H1, H2, H3, H4, A4.
      unfold ScanExecution.parsed_hosts. cbn [flat_map app length].
      rewrite <- app_assoc, length_app. cbn [app].
      split; [reflexivity |]. split; [f_equal; lia |]. split; [f_equal; lia |].
      reflexivity.
    + apply IH; assumption.
Qed.

(** The launches of [execute_port_scan]: one nmap run per target, in the
    order of the targets. *)
Lemma execute_port_scan_run (scan : Models.Scan) (t : ScanExecution.tools) :
  let parsed := ScanExecution.parsed_hosts fromstring py_int (ScanExecution.outputs t (length (Models.targets scan))) in
  exists r,
    ScanExecution.execute_port_scan fromstring py_int hop cert record scan t =
      (Returns r,
       {| ScanExecution.outcome := ScanExecution.outcome t;
          ScanExecution.launched :=
            ScanExecution.launched t ++
            map (ScanExecution.nmap_command (Models.ports scan)) (Models.targets scan);
          ScanExecution.utc := ScanExecution.utc t |}) /\
    ScanExecution.res_hosts hop cert record r = Some parsed /\
    ScanExecution.res_total_hosts hop cert record r = Some (Z.of_nat (length parsed)) /\
    ScanExecution.res_total_services hop cert record r =
      Some (Z.of_nat (length (flat_map ScanExecution.ports_of parsed))) /\
    ScanExecution.res_vulnerabilities hop cert record r = Some [].
Proof.
  cbn zeta. unfold ScanExecution.execute_port_scan. rewrite for_targets_attempt.
  eexists. split; [reflexivity |].
  match goal with
  | |- context [fold_left _ _ ?a] =>
      destruct (fold_add_host (ScanExecution.outputs t (length (Models.targets scan))) a [] 0 0
                  eq_refl eq_refl eq_refl) as (H1 & H2 & H3 & H4)
  end.
  unfold ScanExecution.outputs in *. rewrite H1, H2, H3, H4. cbn [app]. rewrite !Z.add_0_l.
  repeat split.
Qed.


Variable lower : string -> string.
Variable parse_nikto_results : string -> list ScanExecution.finding.
Variable parse_traceroute : string -> result (list hop).
Variable parse_ssl_cert : string -> cert.
Variable parse_dig_output : string -> list record.

(** X24.  [execute_port_scan] launches one nmap run per target, in the
    order of the targets, and always returns.  Its [hosts] are the
    parses of the outputs of the runs that returned 0 and decoded, in
    that order, at most one per target; [total_hosts] is their number and
    [total_services] the number of their open ports; an output that does
    not parse still counts as a host, with no service.  With no port list
    or an empty one, every command scans all ports ([-p-]). *)
Theorem execute_port_scan_counts (scan : Models.Scan) (t : ScanExecution.tools) :
  exists r t' hosts,
    ScanExecution.execute_port_scan fromstring py_int hop cert record scan t =
      (Returns r, t') /\
    ScanExecution.launched t' =
      ScanExecution.launched t ++
      map (ScanExecution.nmap_command (Models.ports scan)) (Models.targets scan) /\
    ScanExecution.res_hosts hop cert record r = Some hosts /\
    hosts = ScanExecution.parsed_hosts fromstring py_int (ScanExecution.outputs t (length (Models.targets scan))) /\
    (length hosts <= length (Models.targets scan))%nat /\
    ScanExecution.res_total_hosts hop cert record r = Some (Z.of_nat (length hosts)) /\
    ScanExecution.res_total_services hop cert record r =
      Some (Z.of_nat (length (flat_map ScanExecution.ports_of hosts))) /\
    (forall host, In host hosts ->
       (exists message, host = Scans.Error message) ->
       ScanExecution.ports_of host = []) /\
    (Models.ports scan = None \/ Models.ports scan = Some [] ->
     forall cmd, In cmd (map (ScanExecution.nmap_command (Models.ports scan))
                             (Models.targets scan)) ->
       exists target,
         cmd = ["nmap"; "-sS"; "-sV"; "-O"; "--script"; "default,safe"; "-p-";
                "-oX"; "-"; target]%string).
Proof.
  destruct (execute_port_scan_run scan t) as (r & E & H1 & H2 & H3 & _).
  eexists r, _, _. split; [exact E |]. cbn [ScanExecution.launched].
  split; [reflexivity |]. split; [exact H1 |]. split; [reflexivity |].
  split.
  { etransitivity; [apply parsed_hosts_length_le |].
    unfold ScanExecution.outputs. rewrite length_map, length_seq. reflexivity. }
  split; [exact H2 |]. split; [exact H3 |]. split.
  - intros host _ [message ->]. reflexivity.
  - intros Hp cmd Hc. apply in_map_iff in Hc. destruct Hc as (target & <- & _).
    exists target. destruct Hp as [-> | ->]; reflexivity.
Qed.


Lemma flat_map_flat_map {A B C} (f : A -> list B) (g : B -> list C) (l : list A) :
  flat_map (fun a => flat_map g (f a)) l = flat_map g (flat_map f l).
Proof.
  induction l as [|a l IH]; cbn; [reflexivity |].
  rewrite IH, flat_map_app. reflexivity.
Qed.

Lemma check_service_vulnerabilities_cases (p : Scans.port_data) :
  (ScanExecution.reported lower p = false /\ ScanExecution.check_service_vulnerabilities lower p = []) \/
  (ScanExecution.reported lower p = true /\
   exists v,
     ScanExecution.check_service_vulnerabilities lower p = [v] /\
     ScanExecution.f_host v = None /\ ScanExecution.f_port v = None /\
     (ScanExecution.f_severity v = ScanExecution.MEDIUM <->
      lower (Scans.pd_service p) = "ftp"%string) /\
     (ScanExecution.f_severity v = ScanExecution.INFO <->
      lower (Scans.pd_service p) <> "ftp"%string)).
Proof.
  unfold ScanExecution.reported, ScanExecution.check_service_vulnerabilities.
  destruct (String.eqb_spec (lower (Scans.pd_service p)) "ssh") as [E1|E1].
  - right. split; [reflexivity |]. eexists. split; [reflexivity |]. cbn.
    rewrite E1. repeat split; try discriminate; congruence.
  - destruct (String.eqb_spec (lower (Scans.pd_service p)) "http") as [E2|E2].
    + right. split; [reflexivity |]. eexists. split; [reflexivity |]. cbn.
      rewrite E2. repeat split; try discriminate; congruence.
    + destruct (String.eqb_spec (lower (Scans.pd_service p)) "ftp") as [E3|E3].
      * right. split; [reflexivity |]. eexists. split; [reflexivity |]. cbn.
        repeat split; try discriminate; congruence.
      * left. split; reflexivity.
Qed.

(** X25.  [execute_vulnerability_scan] returns the hosts of the port scan
    and one finding for every open port whose lower-cased service name is
    ssh, http or ftp, in the order of the ports; no finding names a host
    or a port, so every row that [process_scan_results] makes of them has
    the host "unknown" and no port, with severity info or medium. *)
Theorem vulnerability_scan_findings_lack_location (scan : Models.Scan)
    (t : ScanExecution.tools) :
  exists r t' hosts findings,
    ScanExecution.execute_vulnerability_scan fromstring py_int lower hop cert record
      scan t = (Returns r, t') /\
    ScanExecution.res_hosts hop cert record r = Some hosts /\
    hosts = ScanExecution.parsed_hosts fromstring py_int
              (ScanExecution.outputs t (length (Models.targets scan))) /\
    ScanExecution.res_vulnerabilities hop cert record r = Some findings /\
    findings =
      flat_map (ScanExecution.check_service_vulnerabilities lower)
               (flat_map ScanExecution.ports_of hosts) /\
    length findings =
      length (List.filter (ScanExecution.reported lower) (flat_map ScanExecution.ports_of hosts)) /\
    (forall scan_id v,
        In v findings ->
        ScanExecution.v_host (ScanExecution.vulnerability_row scan_id v) =
          "unknown"%string /\
        ScanExecution.v_port (ScanExecution.vulnerability_row scan_id v) = None /\
        (ScanExecution.v_severity (ScanExecution.vulnerability_row scan_id v) =
           ScanExecution.INFO \/
         ScanExecution.v_severity (ScanExecution.vulnerability_row scan_id v) =
           ScanExecution.MEDIUM)).
Proof.
  destruct (execute_port_scan_run scan t) as (r & E & H1 & H2 & H3 & H4).
  unfold ScanExecution.execute_vulnerability_scan, bind. rewrite E. unfold ret.
  eexists _, _, _,
    (flat_map (ScanExecution.check_service_vulnerabilities lower)
       (flat_map ScanExecution.ports_of
          (ScanExecution.parsed_hosts fromstring py_int
             (ScanExecution.outputs t (length (Models.targets scan)))))).
  split; [reflexivity |].
  cbn [ScanExecution.set_vulnerabilities ScanExecution.res_hosts
       ScanExecution.res_vulnerabilities].
  split; [exact H1 |]. split; [reflexivity |]. rewrite H1. cbn [default].
  rewrite flat_map_flat_map. split; [reflexivity |]. split; [reflexivity |].
  generalize (flat_map ScanExecution.ports_of
                (ScanExecution.parsed_hosts fromstring py_int
                   (ScanExecution.outputs t (length (Models.targets scan))))).
  intros ps. split.
  - induction ps as [|p ps IH]; [reflexivity |]. cbn [flat_map List.filter].
    rewrite length_app, IH.
    destruct (check_service_vulnerabilities_cases p) as [[R ->] | [R (v & -> & _)]];
      rewrite R; reflexivity.
  - intros scan_id v Hv. apply in_flat_map in Hv. destruct Hv as (p & _ & Hv).
    destruct (check_service_vulnerabilities_cases p)
      as [[_ E0] | [_ (v0 & E0 & Hh & Hp & Hm & Hi)]]; rewrite E0 in Hv;
      [destruct Hv |]. destruct Hv as [<- | []].
    unfold ScanExecution.vulnerability_row. cbn. rewrite Hh, Hp.
    split; [reflexivity |]. split; [reflexivity |].
    destruct (String.eqb_spec (lower (Scans.pd_service p)) "ftp") as [F|F].
    + right. apply Hm. exact F.
    + left. apply Hi. exact F.
Qed.


(** Every executor returns and launches one command per target. *)
Lemma run_executor_returns (scan : Models.Scan) (t : ScanExecution.tools) :
  exists r cmds,
    ScanExecution.run_executor fromstring py_int lower hop cert record
      parse_nikto_results parse_traceroute parse_ssl_cert parse_dig_output scan t =
      (Returns r,
       {| ScanExecution.outcome := ScanExecution.outcome t;
          ScanExecution.launched := ScanExecution.launched t ++ cmds;
          ScanExecution.utc := ScanExecution.utc t |}) /\
    length cmds = length (Models.targets scan) /\
    ((forall n, ScanExecution.output_of (ScanExecution.outcome t n) = None) ->
     default 0 (ScanExecution.res_total_hosts hop cert record r) = 0 /\
     default 0 (ScanExecution.res_total_services hop cert record r) = 0 /\
     default [] (ScanExecution.res_hosts hop cert record r) = [] /\
     default [] (ScanExecution.res_vulnerabilities hop cert record r) = []).
Proof.
  assert (Hfold : forall use acc n,
             (forall k, ScanExecution.output_of (ScanExecution.outcome t k) = None) ->
             fold_left (ScanExecution.absorb hop cert record use)
               (map (fun i => ScanExecution.output_of
                                (ScanExecution.outcome t
                                   (length (ScanExecution.launched t) + i)))
                    (seq 0 n)) acc = acc).
  { intros use acc n Hnone. generalize (seq 0 n). intros l.
    induction l as [|i l IH]; cbn [map fold_left]; [reflexivity |].
    rewrite Hnone. cbn [ScanExecution.absorb]. exact IH. }
  unfold ScanExecution.run_executor.
  destruct (Models.scan_type scan).
  - unfold ScanExecution.execute_port_scan. rewrite for_targets_attempt.
    eexists _, _. split; [reflexivity |]. split; [apply length_map |].
    intros Hnone. rewrite Hfold by exact Hnone. repeat split.
  - unfold ScanExecution.execute_vulnerability_scan, bind,
      ScanExecution.execute_port_scan.
    rewrite for_targets_attempt. unfold ret.
    eexists _, _. split; [reflexivity |]. split; [apply length_map |].
    intros Hnone. rewrite Hfold by exact Hnone. repeat split.
  - unfold ScanExecution.execute_web_scan.
    rewrite (for_targets_attempt
               (fun target =>
                  ["nikto"; "-h";
                   if negb (ScanExecution.starts_with "http://" target
                            || ScanExecution.starts_with "https://" target)
                   then ("http://" +:+ target)%string else target;
                   "-Format"; "json"]%string)).
    eexists _, _. split; [reflexivity |]. split; [apply length_map |].
    intros Hnone. rewrite Hfold by exact Hnone. repeat split.
  - unfold ScanExecution.execute_network_scan. rewrite for_targets_attempt.
    eexists _, _. split; [reflexivity |]. split; [apply length_map |].
    intros Hnone. rewrite Hfold by exact Hnone. repeat split.
  - unfold ScanExecution.execute_service_scan, ScanExecution.execute_port_scan.
    rewrite for_targets_attempt.
    eexists _, _. split; [reflexivity |]. split; [apply length_map |].
    intros Hnone. rewrite Hfold by exact Hnone. repeat split.
  - unfold ScanExecution.execute_ssl_scan. rewrite for_targets_attempt.
    eexists _, _. split; [reflexivity |]. split; [apply length_map |].
    intros Hnone. rewrite Hfold by exact Hnone. repeat split.
  - unfold ScanExecution.execute_dns_scan. rewrite for_targets_attempt.
    eexists _, _. split; [reflexivity |]. split; [apply length_map |].
    intros Hnone. rewrite Hfold by exact Hnone. repeat split.
Qed.


Lemma execute_scan_run (scan_id : string) (scan : Models.Scan)
    (w : ScanExecution.world) :
  Scans.scans (ScanExecution.w_database w) !! scan_id = Some scan ->
  exists w' scan',
    ScanExecution.execute_scan fromstring py_int lower hop cert record
      parse_nikto_results parse_traceroute parse_ssl_cert parse_dig_output
      scan_id w = (Returns tt, w') /\
    Scans.scans (ScanExecution.w_database w') !! scan_id = Some scan' /\
    Models.status scan' = Models.COMPLETED /\
    Models.started_at scan' =
      Some (ScanExecution.utc (ScanExecution.w_tools w)
              (length (ScanExecution.launched (ScanExecution.w_tools w)))) /\
    Models.completed_at scan' =
      Some (ScanExecution.utc (ScanExecution.w_tools w)
              (length (ScanExecution.launched (ScanExecution.w_tools w)) +
               length (Models.targets scan))) /\
    length (ScanExecution.launched (ScanExecution.w_tools w')) =
      (length (ScanExecution.launched (ScanExecution.w_tools w)) +
       length (Models.targets scan))%nat /\
    (exists rows, ScanExecution.w_vulnerabilities w' =
                  ScanExecution.w_vulnerabilities w ++ rows /\
                  Models.vulnerabilities_found scan' = Z.of_nat (length rows)) /\
    (Models.name scan' = Models.name scan /\
     Models.user_id scan' = Models.user_id scan /\
     Models.scan_type scan' = Models.scan_type scan /\
     Models.targets scan' = Models.targets scan /\
     Models.ports scan' = Models.ports scan /\
     Models.created_at scan' = Models.created_at scan) /\
    (forall other, other <> scan_id ->
       Scans.scans (ScanExecution.w_database w') !! other =
       Scans.scans (ScanExecution.w_database w) !! other) /\
    ((forall n, ScanExecution.output_of
                  (ScanExecution.outcome (ScanExecution.w_tools w) n) = None) ->
     Models.total_hosts scan' = 0 /\ Models.total_services scan' = 0 /\
     Models.vulnerabilities_found scan' = 0 /\
     ScanExecution.w_scan_results w' = ScanExecution.w_scan_results w /\
     ScanExecution.w_vulnerabilities w' = ScanExecution.w_vulnerabilities w).
Proof.
  intros Hlook.
  unfold ScanExecution.execute_scan. unfold bind at 1, get. rewrite Hlook.
  unfold bind at 1, ScanExecution.utcnow at 1.
  set (scan1 := ScanExecution.set_started_at (Scans.set_status scan Models.RUNNING) _).
  unfold bind at 1, ScanExecution.on_database at 1, zoom, Scans.commit_row.
  destruct (run_executor_returns scan1 (ScanExecution.w_tools w))
    as (r & cmds & Er & Hlen & Hnone).
  unfold bind at 1, ScanExecution.try_except, bind at 1, ScanExecution.on_tools, zoom.
  cbn [ScanExecution.w_tools ScanExecution.w_database ScanExecution.w_scan_results
       ScanExecution.w_vulnerabilities].
  rewrite Er.
  unfold ScanExecution.process_scan_results, bind, ScanExecution.add_rows,
    ScanExecution.on_database, zoom, Scans.commit_row, ScanExecution.utcnow, ret.
  cbn [ScanExecution.w_tools ScanExecution.w_database ScanExecution.w_scan_results
       ScanExecution.w_vulnerabilities ScanExecution.launched ScanExecution.utc
       Scans.scans Scans.db_now].
  eexists _, _. split; [reflexivity |].
  cbn [ScanExecution.w_tools ScanExecution.w_database ScanExecution.w_scan_results
       ScanExecution.w_vulnerabilities ScanExecution.launched ScanExecution.utc
       Scans.scans Scans.db_now].
  split; [apply lookup_insert_eq |]. split; [reflexivity |]. split; [reflexivity |].
  split; [cbn; rewrite length_app, Hlen; reflexivity |].
  split; [rewrite length_app, Hlen; reflexivity |].
  split; [eexists; split; [reflexivity | cbn; rewrite length_map; reflexivity] |].
  split; [repeat split |]. split.
  - intros other Hne. rewrite !lookup_insert_ne by congruence. reflexivity.
  - intros Hn. destruct (Hnone Hn) as (Z1 & Z2 & Z3 & Z4). cbn.
    rewrite Z1, Z2, Z3, Z4. cbn. rewrite !app_nil_r. repeat split.
Qed.


(** X26.  [execute_scan] does nothing for an id that names no scan.  For
    an existing scan, whatever its status, and with a database that
    accepts every commit, it always ends with the status completed: it
    launches one tool per target, sets [started_at] to the time before
    the first launch and [completed_at] to the time after the last, sets
    [vulnerabilities_found] to the number of vulnerability rows it added,
    and leaves name, owner, type, targets, ports, creation time and all
    other scans as they were.  Failures of the tools never make the scan
    failed: when no launch yields an output, the scan is completed with
    zero hosts, services and vulnerabilities and no row is added. *)
Theorem execute_scan_always_completes (scan_id : string) (w : ScanExecution.world) :
  (Scans.scans (ScanExecution.w_database w) !! scan_id = None ->
   ScanExecution.execute_scan fromstring py_int lower hop cert record
     parse_nikto_results parse_traceroute parse_ssl_cert parse_dig_output
     scan_id w = (Returns tt, w)) /\
  (forall scan,
      Scans.scans (ScanExecution.w_database w) !! scan_id = Some scan ->
      exists w' scan',
        ScanExecution.execute_scan fromstring py_int lower hop cert record
          parse_nikto_results parse_traceroute parse_ssl_cert parse_dig_output
          scan_id w = (Returns tt, w') /\
        Scans.scans (ScanExecution.w_database w') !! scan_id = Some scan' /\
        Models.status scan' = Models.COMPLETED /\
        Models.started_at scan' =
          Some (ScanExecution.utc (ScanExecution.w_tools w)
                  (length (ScanExecution.launched (ScanExecution.w_tools w)))) /\
        Models.completed_at scan' =
          Some (ScanExecution.utc (ScanExecution.w_tools w)
                  (length (ScanExecution.launched (ScanExecution.w_tools w)) +
                   length (Models.targets scan))) /\
        length (ScanExecution.launched (ScanExecution.w_tools w')) =
          (length (ScanExecution.launched (ScanExecution.w_tools w)) +
           length (Models.targets scan))%nat /\
        (exists rows, ScanExecution.w_vulnerabilities w' =
                      ScanExecution.w_vulnerabilities w ++ rows /\
                      Models.vulnerabilities_found scan' = Z.of_nat (length rows)) /\
        (Models.name scan' = Models.name scan /\
         Models.user_id scan' = Models.user_id scan /\
         Models.scan_type scan' = Models.scan_type scan /\
         Models.targets scan' = Models.targets scan /\
         Models.ports scan' = Models.ports scan /\
         Models.created_at scan' = Models.created_at scan) /\
        (forall other, other <> scan_id ->
           Scans.scans (ScanExecution.w_database w') !! other =
           Scans.scans (ScanExecution.w_database w) !! other) /\
        ((forall n, ScanExecution.output_of
                      (ScanExecution.outcome (ScanExecution.w_tools w) n) = None) ->
         Models.total_hosts scan' = 0 /\ Models.total_services scan' = 0 /\
         Models.vulnerabilities_found scan' = 0 /\
         ScanExecution.w_scan_results w' = ScanExecution.w_scan_results w /\
         ScanExecution.w_vulnerabilities w' = ScanExecution.w_vulnerabilities w)).
Proof.
  split.
  - intros H. unfold ScanExecution.execute_scan, bind, get. rewrite H. reflexivity.
  - intros scan H. exact (execute_scan_run scan_id scan w H).
Qed.

(** X27.  [execute_scan] does not look at the status it finds: after the
    owner has cancelled a pending or running scan, which leaves the row
    cancelled, a run of [execute_scan] on it launches the tools for every
    target all the same and leaves the row completed, with a completion
    time. *)
Theorem execute_scan_overrides_cancellation (scan_id : string)
    (current_user : Models.User) (scan : Models.Scan) (w : ScanExecution.world) :
  Scans.scans (ScanExecution.w_database w) !! scan_id = Some scan ->
  Models.user_id scan = Models.u_id current_user ->
  Models.status scan = Models.PENDING \/ Models.status scan = Models.RUNNING ->
  exists w1 cancelled w2 finished,
    ScanExecution.on_database (Scans.cancel_scan scan_id current_user) w =
      (Returns "Scan cancelled successfully"%string, w1) /\
    Scans.scans (ScanExecution.w_database w1) !! scan_id = Some cancelled /\
    Models.status cancelled = Models.CANCELLED /\
    ScanExecution.execute_scan fromstring py_int lower hop cert record
      parse_nikto_results parse_traceroute parse_ssl_cert parse_dig_output
      scan_id w1 = (Returns tt, w2) /\
    Scans.scans (ScanExecution.w_database w2) !! scan_id = Some finished /\
    Models.status finished = Models.COMPLETED /\
    Models.completed_at finished <> None /\
    length (ScanExecution.launched (ScanExecution.w_tools w2)) =
      (length (ScanExecution.launched (ScanExecution.w_tools w)) +
       length (Models.targets scan))%nat.
Proof.
  intros Hlook Hown Hst.
  assert (Hsel : Scans.select_owned (ScanExecution.w_database w) scan_id current_user
                 = Some scan).
  { unfold Scans.select_owned. rewrite Hlook, Hown, String.eqb_refl. reflexivity. }
  assert (Hc : exists w1,
             ScanExecution.on_database (Scans.cancel_scan scan_id current_user) w =
               (Returns "Scan cancelled successfully"%string, w1) /\
             Scans.scans (ScanExecution.w_database w1) !! scan_id =
               Some (Scans.touch (Scans.db_now (ScanExecution.w_database w))
                       (Scans.set_status scan Models.CANCELLED)) /\
             ScanExecution.w_tools w1 = ScanExecution.w_tools w).
  { unfold ScanExecution.on_database, zoom, Scans.cancel_scan, bind, get.
    rewrite Hsel.
    destruct Hst as [-> | ->]; cbn; eexists; (split; [reflexivity |]); cbn;
      (split; [apply lookup_insert_eq | reflexivity]). }
  destruct Hc as (w1 & E1 & K1 & T1).
  destruct (execute_scan_run scan_id _ w1 K1)
    as (w2 & finished & E2 & K2 & S2 & _ & C2 & L2 & _).
  eexists w1, _, w2, finished. split; [exact E1 |]. split; [exact K1 |].
  split; [reflexivity |]. split; [exact E2 |]. split; [exact K2 |].
  split; [exact S2 |]. split; [rewrite C2; discriminate |].
  rewrite L2, T1. reflexivity.
Qed.

End ToolRuns.

Lemma execute_port_scan_counts_witness :
  exists r t',
    ScanExecution.execute_port_scan Fixtures.single_host_parser Examples.decimal
      unit unit unit Examples.pending_scan Fixtures.working_tools = (Returns r, t') /\
    ScanExecution.launched t' =
      [["nmap"; "-sS"; "-sV"; "-O"; "--script"; "default,safe"; "-p"; "22,80";
        "-oX"; "-"; "10.0.0.1"]%string] /\
    ScanExecution.res_total_hosts unit unit unit r = Some 1 /\
    ScanExecution.res_total_services unit unit unit r = Some 1.
Proof.
  destruct (execute_port_scan_counts unit unit unit Fixtures.single_host_parser
              Examples.decimal Examples.pending_scan Fixtures.working_tools)
    as (r & t' & hosts & E & Hl & _ & Hh & _ & Hn & Hs & _).
  exists r, t'. split; [exact E |]. split; [rewrite Hl; reflexivity |].
  rewrite Hn, Hs, Hh. split; reflexivity.
Defined.

Lemma vulnerability_scan_findings_lack_location_witness :
  exists r t' v,
    ScanExecution.execute_vulnerability_scan Fixtures.single_host_parser
      Examples.decimal Fixtures.as_is unit unit unit Examples.pending_scan
      Fixtures.working_tools = (Returns r, t') /\
    ScanExecution.res_vulnerabilities unit unit unit r = Some [v] /\
    ScanExecution.f_name v = "SSH Service Detected"%string /\
    ScanExecution.v_host (ScanExecution.vulnerability_row "scan-1" v) =
      "unknown"%string.
Proof.
  destruct (vulnerability_scan_findings_lack_location unit unit unit
              Fixtures.single_host_parser Examples.decimal Fixtures.as_is
              Examples.pending_scan Fixtures.working_tools)
    as (r & t' & hosts & findings & E & _ & Hh & Hv & Hf & _ & Hrow).
  rewrite Hh in Hf. cbv in Hf.
  match type of Hf with
  | findings = [?f] => exists r, t', f
  end.
  split; [exact E |]. split; [rewrite Hv, Hf; reflexivity |].
  split; [reflexivity |].
  apply (Hrow "scan-1"%string). rewrite Hf. left. reflexivity.
Defined.

Lemma execute_scan_always_completes_witness :
  exists w' scan',
    ScanExecution.execute_scan Fixtures.single_host_parser Examples.decimal
      Fixtures.as_is unit unit unit Fixtures.no_findings Fixtures.no_hops
      Fixtures.no_cert Fixtures.no_records "scan-1"
      (Fixtures.scan_world Fixtures.failing_tools) = (Returns tt, w') /\
    Scans.scans (ScanExecution.w_database w') !! "scan-1"%string = Some scan' /\
    Models.status scan' = Models.COMPLETED /\
    Models.total_hosts scan' = 0.
Proof.
  destruct (proj2 (execute_scan_always_completes unit unit unit
                     Fixtures.single_host_parser Examples.decimal Fixtures.as_is
                     Fixtures.no_findings Fixtures.no_hops Fixtures.no_cert
                     Fixtures.no_records "scan-1"
                     (Fixtures.scan_world Fixtures.failing_tools))
              Examples.pending_scan eq_refl)
    as (w' & scan' & E & K & S & _ & _ & _ & _ & _ & _ & Hnone).
  exists w', scan'. split; [exact E |]. split; [exact K |]. split; [exact S |].
  apply Hnone. intros n. reflexivity.
Defined.

Lemma execute_scan_overrides_cancellation_witness :
  exists w1 w2 finished,
    ScanExecution.on_database (Scans.cancel_scan "scan-1" Examples.alice)
      (Fixtures.scan_world Fixtures.working_tools) =
      (Returns "Scan cancelled successfully"%string, w1) /\
    ScanExecution.execute_scan Fixtures.single_host_parser Examples.decimal
      Fixtures.as_is unit unit unit Fixtures.no_findings Fixtures.no_hops
      Fixtures.no_cert Fixtures.no_records "scan-1" w1 = (Returns tt, w2) /\
    Scans.scans (ScanExecution.w_database w2) !! "scan-1"%string = Some finished /\
    Models.status finished = Models.COMPLETED.
Proof.
  destruct (execute_scan_overrides_cancellation unit unit unit
              Fixtures.single_host_parser Examples.decimal Fixtures.as_is
              Fixtures.no_findings Fixtures.no_hops Fixtures.no_cert
              Fixtures.no_records "scan-1" Examples.alice Examples.pending_scan
              (Fixtures.scan_world Fixtures.working_tools) eq_refl eq_refl
              (or_introl eq_refl))
    as (w1 & cancelled & w2 & finished & E1 & _ & _ & E2 & K2 & S2 & _).
  exists w1, w2, finished. split; [exact E1 |]. split; [exact E2 |].
  split; [exact K2 | exact S2].
Defined.
